(** * UpdLoader-go: UPD parsing and MoySklad reconciliation

    A shallow embedding of [internal/parser], [internal/models] and
    [internal/moysklad] together with the properties of the engine.

    Go strings are byte sequences: they are modelled by [string], whose
    characters are the bytes of the UTF-8 text, so that [String.length] is
    Go's [len].  Cyrillic literals below are the UTF-8 bytes of the Go
    literals. *)

From Stdlib Require Import ZArith String Ascii List Lia Bool Floats.SpecFloat.
From stdpp Require Import base strings gmap list sorting pretty.

Open Scope string_scope.
Open Scope Z_scope.
Open Scope list_scope.

(** ** Go's [strings], [strconv] and [regexp] helpers used by the code *)

Module strings.

Definition byte (a : ascii) : N := N_of_ascii a.

(** [strings.HasPrefix s prefix] *)
Definition HasPrefix (s prefix : string) : bool := String.prefix prefix s.

(** [strings.TrimPrefix s prefix] *)
Definition TrimPrefix (s prefix : string) : string :=
  if HasPrefix s prefix
  then substring (String.length prefix) (String.length s - String.length prefix) s
  else s.

(** [strings.Join elems sep] *)
Fixpoint Join (elems : list string) (sep : string) : string :=
  match elems with
  | [] => ""
  | [e] => e
  | e :: rest => e +:+ sep +:+ Join rest sep
  end.

(** The White_Space runes recognised by [unicode.IsSpace], by the length
    of their UTF-8 encoding. *)
Definition space1 (a : ascii) : bool :=
  let x := byte a in
  ((9 <=? x) && (x <=? 13) || (x =? 32))%N.

Definition space2 (a b : ascii) : bool :=
  let x := byte a in let y := byte b in
  ((x =? 194) && ((y =? 133) || (y =? 160)))%N.

Definition space3 (a b c : ascii) : bool :=
  let x := byte a in let y := byte b in let z := byte c in
  ((x =? 225) && (y =? 154) && (z =? 128)
   || (x =? 226) && (y =? 128)
      && ((128 <=? z) && (z <=? 138) || (z =? 168) || (z =? 169) || (z =? 175))
   || (x =? 226) && (y =? 129) && (z =? 159)
   || (x =? 227) && (y =? 128) && (z =? 128))%N.

(** [strings.TrimLeftFunc s unicode.IsSpace]: runes are decoded from the
    front, so a white-space rune is removed exactly when its encoding is a
    prefix of the text. *)
Fixpoint TrimLeftSpace (s : string) : string :=
  match s with
  | String a r1 =>
      if space1 a then TrimLeftSpace r1
      else match r1 with
           | String b r2 =>
               if space2 a b then TrimLeftSpace r2
               else match r2 with
                    | String c r3 => if space3 a b c then TrimLeftSpace r3 else s
                    | EmptyString => s
                    end
           | EmptyString => s
           end
  | EmptyString => s
  end.

(** The same scan on the reversed text: [utf8.DecodeLastRuneInString] backs
    up to the lead byte of the last rune, so a white-space rune is removed
    exactly when its encoding is a suffix of the text. *)
Fixpoint TrimLeftSpaceRev (s : string) : string :=
  match s with
  | String a r1 =>
      if space1 a then TrimLeftSpaceRev r1
      else match r1 with
           | String b r2 =>
               if space2 b a then TrimLeftSpaceRev r2
               else match r2 with
                    | String c r3 => if space3 c b a then TrimLeftSpaceRev r3 else s
                    | EmptyString => s
                    end
           | EmptyString => s
           end
  | EmptyString => s
  end.

Definition TrimRightSpace (s : string) : string :=
  String.rev (TrimLeftSpaceRev (String.rev s)).

(** [strings.TrimSpace] *)
Definition TrimSpace (s : string) : string := TrimRightSpace (TrimLeftSpace s).

(** [utf8.RuneCountInString] on well-formed text: every byte that is not a
    continuation byte (10xxxxxx) starts a character. *)
Fixpoint RuneCount (s : string) : nat :=
  match s with
  | EmptyString => 0%nat
  | String a r =>
      let x := byte a in
      if ((128 <=? x) && (x <=? 191))%N then RuneCount r else S (RuneCount r)
  end.

Definition is_digit (a : ascii) : bool :=
  let x := byte a in ((48 <=? x) && (x <=? 57))%N.

Definition digit_val (a : ascii) : Z := Z.of_N (byte a) - 48.

(** Value of a string of decimal digits; [None] when some byte is not a
    digit (the empty string has value 0 here, callers reject it). *)
Fixpoint digits_from (acc : Z) (s : string) : option Z :=
  match s with
  | EmptyString => Some acc
  | String a r => if is_digit a then digits_from (10 * acc + digit_val a) r else None
  end.

(** An optionally signed run of decimal digits, at least one digit, nothing
    else: the syntax shared by [strconv.ParseInt s 10 bits] and
    [big.Int.SetString s 10]. *)
Definition signed_digits (s : string) : option Z :=
  match s with
  | EmptyString => None
  | String a r =>
      if Ascii.eqb a "+" then
        match r with EmptyString => None | _ => digits_from 0 r end
      else if Ascii.eqb a "-" then
        match r with EmptyString => None | _ => Z.opp <$> digits_from 0 r end
      else digits_from 0 s
  end.

(** [strconv.ParseInt s 10 bits]; [None] stands for either error
    ([ErrSyntax] or [ErrRange]). *)
Definition ParseInt (s : string) (bits : Z) : option Z :=
  match signed_digits s with
  | Some v => if (- 2 ^ (bits - 1) <=? v) && (v <? 2 ^ (bits - 1)) then Some v else None
  | None => None
  end.

(** [strings.IndexAny s "Ee"] *)
Fixpoint IndexAnyEe (s : string) : option nat :=
  match s with
  | EmptyString => None
  | String a r =>
      if Ascii.eqb a "E" || Ascii.eqb a "e" then Some 0%nat
      else S <$> IndexAnyEe r
  end.

(** Number of occurrences of a byte. *)
Fixpoint count_byte (c : ascii) (s : string) : nat :=
  match s with
  | EmptyString => 0%nat
  | String a r => ((if Ascii.eqb a c then 1 else 0) + count_byte c r)%nat
  end.

(** [strings.IndexByte s c] *)
Fixpoint IndexByte (c : ascii) (s : string) : option nat :=
  match s with
  | EmptyString => None
  | String a r => if Ascii.eqb a c then Some 0%nat else S <$> IndexByte c r
  end.

(** The longest prefix of decimal digits. *)
Fixpoint take_digits (s : string) : string :=
  match s with
  | String a r => if is_digit a then String a (take_digits r) else ""
  | EmptyString => ""
  end.

(** The leftmost match of the regular expression [\d+]: the first maximal
    run of decimal digits, [None] when the text has no digit. *)
Fixpoint first_digit_run (s : string) : option string :=
  match s with
  | EmptyString => None
  | String a r => if is_digit a then Some (take_digits s) else first_digit_run r
  end.

(** [strings.Replace s old new 1] for a one-byte [old]: the first occurrence
    is replaced. *)
Fixpoint ReplaceFirst (s : string) (old : ascii) (new : string) : string :=
  match s with
  | EmptyString => ""
  | String a r =>
      if Ascii.eqb a old then new +:+ r else String a (ReplaceFirst r old new)
  end.

(** [strings.HasSuffix s suffix] *)
Definition HasSuffix (s suffix : string) : bool :=
  String.prefix (String.rev suffix) (String.rev s).

(** [strings.Split s sep] for a one-byte separator. *)
Fixpoint SplitByte (sep : ascii) (s : string) : list string :=
  match s with
  | EmptyString => [""]
  | String c r =>
      if Ascii.eqb c sep then "" :: SplitByte sep r
      else match SplitByte sep r with
           | h :: t => String c h :: t
           | [] => [String c ""]
           end
  end.

End strings.

(** ** [path/filepath] on a Unix target (the image is Alpine Linux) *)

Module filepath.

Definition Separator : string := "/".

(** [strings.Split path "/"] *)
Fixpoint split (path : string) : list string :=
  match path with
  | EmptyString => [""]
  | String c r =>
      if Ascii.eqb c "/" then "" :: split r
      else match split r with
           | h :: t => String c h :: t
           | [] => [String c ""]
           end
  end.

Definition rooted (path : string) : bool :=
  match path with
  | String c _ => Ascii.eqb c "/"
  | EmptyString => false
  end.

(** One path element of [Clean]'s loop.  [out] is the output buffer as a
    stack of elements, the last one written first; a leading run of [..]
    elements is what the Go code marks with [dotdot]. *)
Definition clean_step (is_rooted : bool) (out : list string) (elem : string)
  : list string :=
  if String.eqb elem "" || String.eqb elem "." then out
  else if String.eqb elem ".." then
    match out with
    | [] => if is_rooted then [] else [".."]
    | top :: rest => if String.eqb top ".." then ".." :: out else rest
    end
  else elem :: out.

(** [filepath.Clean] *)
Definition Clean (path : string) : string :=
  if String.eqb path "" then "."
  else
    let out := fold_left (clean_step (rooted path)) (split path) [] in
    let body := strings.Join (rev out) Separator in
    if rooted path then Separator +:+ body
    else if String.eqb body "" then "." else body.

(** [filepath.Join a b] *)
Definition Join (a b : string) : string :=
  if negb (String.eqb a "") then Clean (a +:+ Separator +:+ b)
  else if negb (String.eqb b "") then Clean b
  else "".

Fixpoint has_slash (s : string) : bool :=
  match s with
  | EmptyString => false
  | String c r => Ascii.eqb c "/" || has_slash r
  end.

(** The text up to and including the last separator. *)
Fixpoint through_last_slash (s : string) : string :=
  match s with
  | EmptyString => ""
  | String c r =>
      if has_slash r then String c (through_last_slash r)
      else if Ascii.eqb c "/" then "/" else ""
  end.

(** [filepath.Dir] *)
Definition Dir (path : string) : string := Clean (through_last_slash path).

End filepath.

(** ** Go's [float64]

    A float64 is an IEEE 754 binary64 value, represented by the Standard
    Library's [spec_float] with precision 53 and maximal exponent 1024. *)

Module float64.

Definition prec : Z := 53.
Definition emax : Z := 1024.

(** The float64 nearest to [v * 10 ^ e], ties to even, infinite when the
    magnitude is too large: the result of [strconv.ParseFloat] (which
    [encoding/json] uses for a number decoded into an [interface{}]) and of
    [big.Rat.Float64]. *)
Definition nearest (v e : Z) : spec_float :=
  if 0 <=? e then binary_normalize prec emax (v * 10 ^ e) 0 false
  else
    let denominator := S754_finite false (Z.to_pos (10 ^ (- e))) 0 in
    match v with
    | Z0 => S754_zero false
    | Zpos m => SFdiv prec emax (S754_finite false m 0) denominator
    | Zneg m => SFdiv prec emax (S754_finite true m 0) denominator
    end.

(** The integer part of a finite float64. *)
Definition trunc (f : spec_float) : option Z :=
  match f with
  | S754_zero _ => Some 0
  | S754_finite s m e =>
      let magnitude := if 0 <=? e then Z.pos m * 2 ^ e else Z.pos m / 2 ^ (- e) in
      Some (if s then - magnitude else magnitude)
  | _ => None
  end.

(** [int64(f)]: truncation toward zero.  When the integer part does not fit
    an int64, or [f] is infinite or not a number, the result is
    implementation-specific in Go; the value taken here is the one of amd64,
    the minimum int64. *)
Definition to_int64 (f : spec_float) : Z :=
  match trunc f with
  | Some t => if (- 2 ^ 63 <=? t) && (t <? 2 ^ 63) then t else - 2 ^ 63
  | None => - 2 ^ 63
  end.

(** The text [strconv.FormatFloat] gives for a float64 that JSON cannot
    carry. *)
Definition unsupported (f : spec_float) : option string :=
  match f with
  | S754_infinity false => Some "+Inf"
  | S754_infinity true => Some "-Inf"
  | S754_nan => Some "NaN"
  | _ => None
  end.

End float64.

(** ** [github.com/shopspring/decimal] v1.3.1, as pinned by go.mod

    A decimal is [value * 10 ^ exp] with an arbitrary-precision [value] and
    an int32 [exp]. *)

Module decimal.

Record Decimal : Type := New { value : Z; exp : Z }.

(** [decimal.Zero] is [New(0, 1)] in the library. *)
Definition Zero : Decimal := New 0 1.

Definition NewFromInt (v : Z) : Decimal := New v 0.

Definition MinInt32 : Z := - 2 ^ 31.
Definition MaxInt32 : Z := 2 ^ 31 - 1.

Definition drop_byte_at (i : nat) (s : string) : string :=
  substring 0 i s +:+ substring (S i) (String.length s - S i) s.

(** [decimal.NewFromString]; [None] stands for a returned error. *)
Definition NewFromString (input : string) : option Decimal :=
  (* scientific notation *)
  let split_exp :=
    match strings.IndexAnyEe input with
    | Some eIndex =>
        match strings.ParseInt
                (substring (S eIndex) (String.length input - S eIndex) input) 32 with
        | Some expInt => Some (substring 0 eIndex input, expInt)
        | None => None
        end
    | None => Some (input, 0)
    end in
  match split_exp with
  | None => None
  | Some (value, exp0) =>
      if (1 <? strings.count_byte "." value)%nat then None
      else
        let '(intString, exp) :=
          match strings.IndexByte "." value with
          | None => (value, exp0)
          | Some pIndex =>
              (drop_byte_at pIndex value,
               exp0 - Z.of_nat (String.length value - S pIndex))
          end in
        let dValue :=
          if (String.length intString <=? 18)%nat
          then strings.ParseInt intString 64
          else strings.signed_digits intString in
        match dValue with
        | None => None
        | Some v =>
            if (exp <? MinInt32) || (MaxInt32 <? exp) then None
            else Some (New v exp)
        end
  end.

(** [Decimal.Mul].  The library panics when the sum of the exponents leaves
    int32; one factor below is always [NewFromInt 100], whose exponent is 0,
    so the sum is the exponent of the other factor. *)
Definition Mul (d d2 : Decimal) : Decimal :=
  New (value d * value d2) (exp d + exp d2).

(** [big.Int.Int64]: the low 64 bits, as a signed integer. *)
Definition Int64 (z : Z) : Z := (z + 2 ^ 63) mod 2 ^ 64 - 2 ^ 63.

(** [Decimal.rescale] *)
Definition rescale (d : Decimal) (e : Z) : Decimal :=
  if exp d =? e then d
  else
    let expScale := 10 ^ Z.abs (e - exp d) in
    if exp d <? e then New (Z.quot (value d) expScale) e
    else New (value d * expScale) e.

(** [Decimal.IntPart] *)
Definition IntPart (d : Decimal) : Z := Int64 (value (rescale d 0)).

(** [Decimal.Cmp]: both operands are brought to the smaller exponent. *)
Definition Cmp (d d2 : Decimal) : comparison :=
  let e := Z.min (exp d) (exp d2) in
  Z.compare (value (rescale d e)) (value (rescale d2 e)).

Definition GreaterThan (d d2 : Decimal) : bool :=
  match Cmp d d2 with Gt => true | _ => false end.

Definition Equal (d d2 : Decimal) : bool :=
  match Cmp d d2 with Eq => true | _ => false end.

(** [Decimal.InexactFloat64]: [d.Rat().Float64()] without its exactness
    flag. *)
Definition InexactFloat64 (d : Decimal) : spec_float :=
  float64.nearest (value d) (exp d).

End decimal.

(** ** Go's [(T, error)] results *)

Inductive result (A : Type) : Type :=
| Ok (a : A)
| Error (msg : string).
Arguments Ok {A} a.
Arguments Error {A} msg.

(** [time.Time] values are instants. *)
Definition Time : Type := Z.

(** ** [internal/models] *)

Module models.

Module Address.
Record t : Type := mk
  { PostalCode : string; RegionCode : string; Region : string; City : string;
    Street : string; House : string; Apartment : string }.
End Address.

Module MetaInfo.
Record t : Type := mk
  { DocFlowID : string; MainDocumentPath : string; CardPath : string }.
End MetaInfo.

Module CardInfo.
Record t : Type := mk
  { ExternalIdentifier : string; Title : string; Date : Time;
    SenderINN : string; SenderKPP : string; SenderName : string }.
End CardInfo.

Module InvoiceItem.
Record t : Type := mk
  { LineNumber : Z;
    Name : string;
    UnitCode : string;
    UnitName : string;
    Quantity : decimal.Decimal;
    Price : decimal.Decimal;
    AmountWithoutVAT : decimal.Decimal;
    VATRate : string;
    VATAmount : decimal.Decimal;
    AmountWithVAT : decimal.Decimal;
    Article : string }.
End InvoiceItem.

Module Organization.
Record t : Type := mk
  { Name : string; INN : string; KPP : string; Address : option Address.t }.
End Organization.

Module UPDContent.
Record t : Type := mk
  { InvoiceNumber : string;
    InvoiceDate : Time;
    Seller : Organization.t;
    Buyer : Organization.t;
    Items : list InvoiceItem.t;
    CurrencyCode : string;
    TotalWithoutVAT : decimal.Decimal;
    TotalVAT : decimal.Decimal;
    TotalWithVAT : decimal.Decimal;
    RequisiteNumber : string }.
End UPDContent.

Module UPDDocument.
Record t : Type := mk
  { MetaInfo : MetaInfo.t; CardInfo : CardInfo.t; Content : UPDContent.t }.

Definition DocumentID (u : t) : string := CardInfo.ExternalIdentifier (CardInfo u).
End UPDDocument.

(** [NewUPDContent]: the remaining fields take their defaults. *)
Definition NewUPDContent (invoiceNumber : string) (invoiceDate : Time)
    (seller buyer : Organization.t) : UPDContent.t :=
  {| UPDContent.InvoiceNumber := invoiceNumber;
     UPDContent.InvoiceDate := invoiceDate;
     UPDContent.Seller := seller;
     UPDContent.Buyer := buyer;
     UPDContent.Items := [];
     UPDContent.CurrencyCode := "643";
     UPDContent.TotalWithoutVAT := decimal.Zero;
     UPDContent.TotalVAT := decimal.Zero;
     UPDContent.TotalWithVAT := decimal.Zero;
     UPDContent.RequisiteNumber := "" |}.

Module ProcessingResult.
Record t : Type := mk
  { Success : bool;
    Message : string;
    UPDDocument : option UPDDocument.t;
    MoySkladInvoiceID : string;
    MoySkladInvoiceURL : string;
    ErrorCode : string }.
End ProcessingResult.

End models.

(** ** [internal/parser]: the structural parser *)

Module parser.
Import models.

(** The anonymous structs of [UPDXML], the target of [xml.Unmarshal]. *)
Module LegalEntity.
Record t : Type := mk { Name : string; INN : string; KPP : string }.
End LegalEntity.

Module Individual.
Record t : Type := mk
  { INN : string; Surname : string; Name : string; Patronymic : string }.
End Individual.

Module Party.
Record t : Type := mk { LegalEntity : LegalEntity.t; Individual : Individual.t }.
End Party.

Module XMLItem.
Record t : Type := mk
  { Name : string;
    Quantity : string;
    Price : string;
    AmountWithoutVAT : string;
    VATRate : string;
    AmountWithVAT : string;
    Article : string;      (* Additional.Article *)
    VATSum : string        (* VATSum.Amount *) }.
End XMLItem.

Module UPDXML.
Record t : Type := mk
  { Version : string;
    Number : string;       (* InvoiceInfo.Number *)
    Date : string;         (* InvoiceInfo.Date *)
    SellerInfo : Party.t;
    BuyerInfo : Party.t;
    Items : list XMLItem.t;  (* Table.Items *)
    TotalWithoutVAT : string;
    TotalWithVAT : string;
    VATSum : string;
    RequisiteNumber : string (* Transfer.Basis.RequisiteNumber *) }.
End UPDXML.

(** [parseDecimal] *)
Definition parseDecimal (s : string) : decimal.Decimal :=
  if String.eqb s "" then decimal.Zero
  else match decimal.NewFromString s with
       | Some d => d
       | None => decimal.Zero
       end.

(** [parseOrganization] *)
Definition parseOrganization
    (legalName legalINN legalKPP individualINN surname name patronymic : string)
  : Organization.t :=
  if negb (String.eqb legalINN "") then
    Organization.mk legalName legalINN legalKPP None
  else if negb (String.eqb individualINN "") then
    let fullName :=
      strings.TrimSpace (surname +:+ " " +:+ name +:+ " " +:+ patronymic) in
    let fullName := if String.eqb fullName "" then "Не указано" else fullName in
    Organization.mk fullName individualINN "" None
  else
    Organization.mk "Не указано" "0000000000" "" None.

(** The body of the loop of [parseInvoiceItems] at index [i]. *)
Definition parseInvoiceItem (i : nat) (xmlItem : XMLItem.t) : InvoiceItem.t :=
  {| InvoiceItem.LineNumber := Z.of_nat i + 1;
     InvoiceItem.Name := XMLItem.Name xmlItem;
     InvoiceItem.UnitCode := "";
     InvoiceItem.UnitName := "";
     InvoiceItem.Quantity := parseDecimal (XMLItem.Quantity xmlItem);
     InvoiceItem.Price := parseDecimal (XMLItem.Price xmlItem);
     InvoiceItem.AmountWithoutVAT := parseDecimal (XMLItem.AmountWithVAT xmlItem);
     InvoiceItem.VATRate := XMLItem.VATRate xmlItem;
     InvoiceItem.VATAmount := parseDecimal (XMLItem.VATSum xmlItem);
     InvoiceItem.AmountWithVAT := parseDecimal (XMLItem.AmountWithVAT xmlItem);
     InvoiceItem.Article := XMLItem.Article xmlItem |}.

(** [parseInvoiceItems]: [for i, xmlItem := range xmlItems]. *)
Definition parseInvoiceItems (xmlItems : list XMLItem.t) : list InvoiceItem.t :=
  imap parseInvoiceItem xmlItems.

(** [createBasicUPDContent]; [now] is the reading of [time.Now()]. *)
Definition createBasicUPDContent (now : Time) : UPDContent.t :=
  NewUPDContent "Не указан" now
    (Organization.mk "Не указано" "0000000000" "" None)
    (Organization.mk "Не указано" "0000000000" "" None).

Section Parse.
(** [xml.Unmarshal] into [UPDXML]: the decoded struct or a structural
    error. *)
Variable xml_Unmarshal : string -> result UPDXML.t.
(** [time.Parse "02.01.2006"] *)
Variable time_Parse : string -> option Time.
(** [os.Stat] reporting that the file does not exist. *)
Variable os_IsNotExist : string -> bool.
(** [readFileWithEncoding]: the file's bytes through the Windows-1251
    decoder, or the error of [os.Open] / [io.ReadAll]. *)
Variable readFileWithEncoding : string -> result string.

Definition party (pty : Party.t) : Organization.t :=
  parseOrganization
    (LegalEntity.Name (Party.LegalEntity pty))
    (LegalEntity.INN (Party.LegalEntity pty))
    (LegalEntity.KPP (Party.LegalEntity pty))
    (Individual.INN (Party.Individual pty))
    (Individual.Surname (Party.Individual pty))
    (Individual.Name (Party.Individual pty))
    (Individual.Patronymic (Party.Individual pty)).

(** [parseFullUPDContent] *)
Definition parseFullUPDContent (now : Time) (content : string)
  : result UPDContent.t :=
  match xml_Unmarshal content with
  | Error _ => Ok (createBasicUPDContent now)
  | Ok upd =>
      let invoiceNumber :=
        if String.eqb (UPDXML.Number upd) "" then "Не указан" else UPDXML.Number upd in
      let invoiceDate :=
        if negb (String.eqb (UPDXML.Date upd) "") then
          match time_Parse (UPDXML.Date upd) with
          | Some parsedDate => parsedDate
          | None => now
          end
        else now in
      let seller := party (UPDXML.SellerInfo upd) in
      let buyer := party (UPDXML.BuyerInfo upd) in
      let items := parseInvoiceItems (UPDXML.Items upd) in
      let totalWithoutVAT := parseDecimal (UPDXML.TotalWithoutVAT upd) in
      let totalWithVAT := parseDecimal (UPDXML.TotalWithVAT upd) in
      let totalVAT := parseDecimal (UPDXML.VATSum upd) in
      let requisiteNumber :=
        if negb (String.eqb (UPDXML.RequisiteNumber upd) "") then
          match strings.first_digit_run (UPDXML.RequisiteNumber upd) with
          | Some number => number
          | None => ""
          end
        else "" in
      let updContent := NewUPDContent invoiceNumber invoiceDate seller buyer in
      Ok {| UPDContent.InvoiceNumber := UPDContent.InvoiceNumber updContent;
            UPDContent.InvoiceDate := UPDContent.InvoiceDate updContent;
            UPDContent.Seller := UPDContent.Seller updContent;
            UPDContent.Buyer := UPDContent.Buyer updContent;
            UPDContent.Items := items;
            UPDContent.CurrencyCode := UPDContent.CurrencyCode updContent;
            UPDContent.TotalWithoutVAT := totalWithoutVAT;
            UPDContent.TotalVAT := totalVAT;
            UPDContent.TotalWithVAT := totalWithVAT;
            UPDContent.RequisiteNumber := requisiteNumber |}
  end.

(** [parseUPDContent] *)
Definition parseUPDContent (now : Time) (extractDir mainDocumentPath : string)
  : result UPDContent.t :=
  let fullUPDPath := filepath.Join extractDir mainDocumentPath in
  if os_IsNotExist fullUPDPath then
    Error ("main UPD file not found: " +:+ mainDocumentPath)
  else
    match readFileWithEncoding fullUPDPath with
    | Error err => Error ("failed to read UPD file: " +:+ err)
    | Ok content =>
        if (String.length (strings.TrimSpace content) <=? 100)%nat
        then Ok (createBasicUPDContent now)
        else parseFullUPDContent now content
    end.

End Parse.

(** *** Archive extraction *)

(** An entry of [zip.Reader.File]. *)
Module ZipFile.
Record t : Type := mk { Name : string; IsDir : bool; Data : string }.
End ZipFile.

(** File-system operations the extractor attempts, in order. *)
Inductive fs_op : Type :=
| MkdirAll (path : string)
| OpenFile (path : string)              (* O_WRONLY|O_CREATE|O_TRUNC *)
| Copy (path : string) (data : string)  (* io.Copy into the opened file *)
| Remove (path : string)
| RemoveAll (path : string).

Section Extract.
(** [zip.OpenReader]: the entries of the archive at a path. *)
Variable zip_OpenReader : string -> result (list ZipFile.t).
(** The error, if any, of an attempted operation after a given history. *)
Variable os_error : list fs_op -> fs_op -> option string.
(** The error, if any, of [file.Open()] on an entry. *)
Variable zip_Open_error : ZipFile.t -> option string.

(** The loop [for _, file := range reader.File] of [extractArchive];
    [done] is the history of attempted operations. *)
Fixpoint extractFiles (extractDir : string) (files : list ZipFile.t)
    (done : list fs_op) : result unit * list fs_op :=
  match files with
  | [] => (Ok tt, done)
  | file :: rest =>
      let path := filepath.Join extractDir (ZipFile.Name file) in
      (* Security check *)
      if negb (strings.HasPrefix path
                 (filepath.Clean extractDir +:+ filepath.Separator))
      then (Error ("invalid file path: " +:+ ZipFile.Name file), done)
      else if ZipFile.IsDir file then
        extractFiles extractDir rest (done ++ [MkdirAll path])
      else
        let mk := MkdirAll (filepath.Dir path) in
        match os_error done mk with
        | Some err => (Error err, done ++ [mk])
        | None =>
            let done := done ++ [mk] in
            match zip_Open_error file with
            | Some err => (Error err, done)
            | None =>
                match os_error done (OpenFile path) with
                | Some err => (Error err, done ++ [OpenFile path])
                | None =>
                    let done := done ++ [OpenFile path] in
                    let cp := Copy path (ZipFile.Data file) in
                    match os_error done cp with
                    | Some err => (Error err, done ++ [cp])
                    | None => extractFiles extractDir rest (done ++ [cp])
                    end
                end
            end
        end
  end.

(** [extractArchive] *)
Definition extractArchive (zipPath : string) (done : list fs_op)
  : result string * list fs_op :=
  let extractDir := filepath.Join (filepath.Dir zipPath) "upd_extract" in
  match zip_OpenReader zipPath with
  | Error err => (Error ("invalid ZIP file: " +:+ err), done)
  | Ok files =>
      match os_error done (MkdirAll extractDir) with
      | Some err =>
          (Error ("failed to create extract directory: " +:+ err),
           done ++ [MkdirAll extractDir])
      | None =>
          match extractFiles extractDir files (done ++ [MkdirAll extractDir]) with
          | (Error err, done') => (Error err, done')
          | (Ok _, done') => (Ok extractDir, done')
          end
      end
  end.

(** [CleanupTempFiles]: both removals are attempted, errors are logged. *)
Definition CleanupTempFiles (zipPath : string) (done : list fs_op) : list fs_op :=
  let extractDir := filepath.Join (filepath.Dir zipPath) "upd_extract" in
  done ++ [Remove zipPath; RemoveAll extractDir].

End Extract.

(** *** The index, the card and the whole archive *)

(** A [DocFlow] element of [MetaXML]. *)
Module DocFlow.
Record t : Type := mk
  { ID : string;
    MainImage : string;      (* MainImage.Path *)
    ExternalCard : string    (* ExternalCard.Path *) }.
End DocFlow.

(** [CardXML], the target of [xml.Unmarshal] for the card. *)
Module CardXML.
Record t : Type := mk
  { ExternalIdentifier : string;   (* Identifiers.ExternalIdentifier *)
    Title : string;                (* Description.Title *)
    Date : string;                 (* Description.Date *)
    INN : string;                  (* Sender.Abonent.INN *)
    KPP : string;                  (* Sender.Abonent.KPP *)
    Name : string                  (* Sender.Abonent.Name *) }.
End CardXML.

Section Archive.
(** [zip.OpenReader], the errors of file-system operations and of
    [file.Open()], as for the extraction. *)
Variable zip_OpenReader : string -> result (list ZipFile.t).
Variable os_error : list fs_op -> fs_op -> option string.
Variable zip_Open_error : ZipFile.t -> option string.
(** Reading the file system after a history of operations: [os.Stat]
    reporting a missing file, [os.ReadFile], and [readFileWithEncoding]. *)
Variable os_IsNotExist : list fs_op -> string -> bool.
Variable os_ReadFile : list fs_op -> string -> result string.
Variable readFileWithEncoding : list fs_op -> string -> result string.
(** [xml.Unmarshal] into [MetaXML] (its [DocFlows]), [CardXML] and [UPDXML]. *)
Variable xml_Unmarshal_meta : string -> result (list DocFlow.t).
Variable xml_Unmarshal_card : string -> result CardXML.t.
Variable xml_Unmarshal : string -> result UPDXML.t.
(** [time.Parse time.RFC3339] and [time.Parse "02.01.2006"]. *)
Variable time_Parse_RFC3339 : string -> option Time.
Variable time_Parse : string -> option Time.

(** [parseMetaXML]; [done] is the history the files are read after. *)
Definition parseMetaXML (done : list fs_op) (extractDir : string) : result MetaInfo.t :=
  let metaPath := filepath.Join extractDir "meta.xml" in
  if os_IsNotExist done metaPath then Error "meta.xml not found in archive"
  else
    match os_ReadFile done metaPath with
    | Error err => Error ("failed to read meta.xml: " +:+ err)
    | Ok data =>
        match xml_Unmarshal_meta data with
        | Error err => Error ("failed to parse meta.xml: " +:+ err)
        | Ok [] => Error "no DocFlow found in meta.xml"
        | Ok (docFlow :: _) =>
            if String.eqb (DocFlow.ID docFlow) "" then Error "DocFlow ID not found"
            else if String.eqb (DocFlow.MainImage docFlow) ""
                    || String.eqb (DocFlow.ExternalCard docFlow) ""
            then Error "file paths not found in meta.xml"
            else Ok {| MetaInfo.DocFlowID := DocFlow.ID docFlow;
                       MetaInfo.MainDocumentPath := DocFlow.MainImage docFlow;
                       MetaInfo.CardPath := DocFlow.ExternalCard docFlow |}
        end
    end.

(** [parseCardXML]; [now] is the reading of [time.Now()]. *)
Definition parseCardXML (now : Time) (done : list fs_op) (extractDir cardPath : string)
  : result CardInfo.t :=
  let fullCardPath := filepath.Join extractDir cardPath in
  if os_IsNotExist done fullCardPath then Error ("card.xml not found: " +:+ cardPath)
  else
    match readFileWithEncoding done fullCardPath with
    | Error err => Error ("failed to read card.xml: " +:+ err)
    | Ok content =>
        match xml_Unmarshal_card content with
        | Error err => Error ("failed to parse card.xml: " +:+ err)
        | Ok card =>
            let date :=
              if negb (String.eqb (CardXML.Date card) "") then
                match time_Parse_RFC3339
                        (strings.ReplaceFirst (CardXML.Date card) "Z" "+00:00") with
                | Some parsedDate => parsedDate
                | None => now
                end
              else now in
            Ok {| CardInfo.ExternalIdentifier := CardXML.ExternalIdentifier card;
                  CardInfo.Title := CardXML.Title card;
                  CardInfo.Date := date;
                  CardInfo.SenderINN := CardXML.INN card;
                  CardInfo.SenderKPP := CardXML.KPP card;
                  CardInfo.SenderName := CardXML.Name card |}
        end
    end.

(** [ParseUPDArchive].  The deferred [cleanupExtractDir] runs on every return
    after the extraction succeeded; [nowCard] and [nowContent] are the
    readings of the clock in the card pass and in the main-document pass. *)
Definition ParseUPDArchive (nowCard nowContent : Time) (zipPath : string)
    (done : list fs_op) : result UPDDocument.t * list fs_op :=
  match extractArchive zip_OpenReader os_error zip_Open_error zipPath done with
  | (Error err, done) => (Error ("Error extracting archive: " +:+ err), done)
  | (Ok extractDir, done) =>
      let cleaned := done ++ [RemoveAll extractDir] in
      match parseMetaXML done extractDir with
      | Error err => (Error ("Error parsing meta.xml: " +:+ err), cleaned)
      | Ok metaInfo =>
          match parseCardXML nowCard done extractDir (MetaInfo.CardPath metaInfo) with
          | Error err => (Error ("Error parsing card.xml: " +:+ err), cleaned)
          | Ok cardInfo =>
              match parseUPDContent xml_Unmarshal time_Parse (os_IsNotExist done)
                      (readFileWithEncoding done) nowContent extractDir
                      (MetaInfo.MainDocumentPath metaInfo) with
              | Error err => (Error ("Error parsing UPD content: " +:+ err), cleaned)
              | Ok content =>
                  (Ok {| UPDDocument.MetaInfo := metaInfo;
                         UPDDocument.CardInfo := cardInfo;
                         UPDDocument.Content := content |}, cleaned)
              end
          end
      end
  end.

End Archive.

End parser.

(** ** [internal/moysklad]: the reconciliation engine *)

Module moysklad.
Import models.

(** Values of Go's [interface{}] as decoded by [encoding/json] and as sent
    in request payloads.  [JNumber] is a number by its decimal text, as it
    stands in a response body or as an integer of the program is written
    into a payload; [JFloat] is a float64 of the program. *)
#[local] Unset Elimination Schemes.
Inductive JSON : Type :=
| JNull
| JBool (b : bool)
| JNumber (d : decimal.Decimal)
| JFloat (f : spec_float)
| JString (s : string)
| JArray (l : list JSON)
| JObject (m : gmap string JSON).
#[local] Set Elimination Schemes.

(** A Go [map[string]interface{}]; [None] is the nil map. *)
Abbreviation GoMap := (option (gmap string JSON)).

(** [m[k]]: nil when the key is absent or the map is nil. *)
Definition index (m : GoMap) (k : string) : JSON :=
  match m with
  | Some g => default JNull (g !! k)
  | None => JNull
  end.

(** [_, ok := m[k]] *)
Definition has_key (m : GoMap) (k : string) : bool :=
  match m with
  | Some g => match g !! k with Some _ => true | None => false end
  | None => false
  end.

(** Type assertions with the comma-ok form. *)
Definition as_map (v : JSON) : option (gmap string JSON) :=
  match v with JObject m => Some m | _ => None end.
Definition as_slice (v : JSON) : option (list JSON) :=
  match v with JArray l => Some l | _ => None end.
Definition as_string (v : JSON) : option string :=
  match v with JString s => Some s | _ => None end.
(** [v.(float64)]: a decoded number is the float64 nearest to its text. *)
Definition as_float64 (v : JSON) : option spec_float :=
  match v with
  | JNumber d => Some (float64.nearest (decimal.value d) (decimal.exp d))
  | JFloat f => Some f
  | _ => None
  end.

(** The first of the results that is present. *)
Definition firstSome {A : Type} (l : list (option A)) : option A :=
  foldr (fun x rest => match x with Some a => Some a | None => rest end) None l.

(** The values of a map in the order of their keys, which is the order in
    which [encoding/json] writes a map. *)
Definition keyLe {A : Type} (x y : string * A) : Prop := String.leb x.1 y.1 = true.

#[local] Instance keyLe_dec {A : Type} (x y : string * A) : Decision (keyLe x y).
Proof. unfold keyLe. apply _. Defined.

Definition byKey {A : Type} (m : gmap string A) : list A :=
  snd <$> merge_sort keyLe (map_to_list m).

(** The float64 at which [json.Marshal] gives up on a value, if any: the
    first infinity or NaN in the order of writing. *)
Fixpoint unsupported (v : JSON) : option string :=
  match v with
  | JFloat f => float64.unsupported f
  | JArray l => firstSome (map unsupported l)
  | JObject m => firstSome (byKey (unsupported <$> m))
  | _ => None
  end.

Record Request : Type := mkRequest
  { method : string;
    endpoint : string;
    data : option JSON;              (* nil or the JSON payload *)
    params : gmap string string }.   (* query parameters *)

Record Response : Type := mkResponse
  { StatusCode : Z;
    Body : string;                   (* the raw body *)
    Json : result JSON }.            (* what encoding/json makes of it *)

(** The name [encoding/json] gives the kind of a value in its errors. *)
Definition kind (v : JSON) : string :=
  match v with
  | JNull => "null"
  | JBool _ => "bool"
  | JNumber _ | JFloat _ => "number"
  | JString _ => "string"
  | JArray _ => "array"
  | JObject _ => "object"
  end.

(** [json.NewDecoder(resp.Body).Decode(&data)] for a map [data]: JSON null
    leaves the map nil, any value other than an object is an error. *)
Definition decodeMap (resp : Response) : result GoMap :=
  match Json resp with
  | Ok (JObject m) => Ok (Some m)
  | Ok JNull => Ok None
  | Ok v =>
      Error ("json: cannot unmarshal " +:+ kind v
             +:+ " into Go value of type map[string]interface {}")
  | Error err => Error err
  end.

(** [data["rows"].([]interface{})] *)
Definition rows (data : GoMap) : option (list JSON) := as_slice (index data "rows").

(** [getVATRate] *)
Definition getVATRate (vatRateStr : string) : Z :=
  if String.eqb vatRateStr "" then 18
  else
    match strings.first_digit_run vatRateStr with
    | Some digits =>
        match strings.ParseInt digits 64 with   (* strconv.Atoi *)
        | Some rate => rate
        | None => 18
        end
    | None => 18
    end.

(** [parsePosition] *)
Definition parsePosition (pos : JSON) (positions : gmap string Z) : gmap string Z :=
  match as_map pos with
  | Some position =>
      match as_map (index (Some position) "assortment") with
      | Some assortment =>
          let productName := default "" (as_string (index (Some assortment) "name")) in
          let productArticle := default "" (as_string (index (Some assortment) "article")) in
          let price :=
            default (S754_zero false) (as_float64 (index (Some position) "price")) in
          let positions :=
            if negb (String.eqb productArticle "")
            then <["article:" +:+ productArticle := float64.to_int64 price]> positions
            else positions in
          if negb (String.eqb productName "")
          then <["name:" +:+ productName := float64.to_int64 price]> positions
          else positions
      | None => positions
      end
  | None => positions
  end.

(** [for _, pos := range rows { api.parsePosition(pos, positions) }] *)
Definition parsePositions (rows : list JSON) (positions : gmap string Z)
  : gmap string Z :=
  fold_left (fun acc pos => parsePosition pos acc) rows positions.

(** The unit price of the parsed document in kopecks:
    [int64(item.Price.Mul(decimal.NewFromInt(100)).IntPart())]. *)
Definition updPriceKopecks (item : InvoiceItem.t) : Z :=
  decimal.IntPart (decimal.Mul (InvoiceItem.Price item) (decimal.NewFromInt 100)).

(** The price of a position, as determined inside the loop of
    [createPositionsFromUPD]. *)
Definition positionPrice (invoicePositions : gmap string Z) (item : InvoiceItem.t) : Z :=
  let priceKopecks := updPriceKopecks item in
  (* Search price in invoice by article *)
  let priceKopecks :=
    if negb (String.eqb (InvoiceItem.Article item) "") then
      match invoicePositions !! ("article:" +:+ InvoiceItem.Article item) with
      | Some invoicePrice => if 0 <? invoicePrice then invoicePrice else priceKopecks
      | None => priceKopecks
      end
    else priceKopecks in
  (* If not found by article, search by name *)
  if priceKopecks =? updPriceKopecks item then
    match invoicePositions !! ("name:" +:+ InvoiceItem.Name item) with
    | Some invoicePrice => if 0 <? invoicePrice then invoicePrice else priceKopecks
    | None => priceKopecks
    end
  else priceKopecks.

(** The entry of the missing-items list for an unresolved item. *)
Definition missingItem (item : InvoiceItem.t) : string :=
  let articleInfo :=
    if String.eqb (InvoiceItem.Article item) "" then "не указан"
    else InvoiceItem.Article item in
  InvoiceItem.Name item +:+ " (артикул: " +:+ articleInfo +:+ ")".

(** The message of the error returned when products are missing; [LF] is
    the line feed of the Go literal. *)
Definition LF : string := String "010"%char EmptyString.

Definition productsNotFound (missingItems : list string) : string :=
  "The following products from UPD are not found in MoySkald:" +:+ LF +:+ "• "
  +:+ strings.Join missingItems (LF +:+ "• ")
  +:+ LF +:+ LF
  +:+ "Create these products in MoySkald manually and retry UPD upload.".

(** A JSON object from its fields. *)
Definition object (fields : list (string * JSON)) : JSON :=
  JObject (list_to_map fields).

(** [map[string]interface{}{"meta": m["meta"]}] *)
Definition metaOf (m : GoMap) : JSON := object [("meta", index m "meta")].

(** The position built for a resolved item. *)
Definition position (invoicePositions : gmap string Z) (item : InvoiceItem.t)
    (product : GoMap) : JSON :=
  object
    [("quantity", JFloat (decimal.InexactFloat64 (InvoiceItem.Quantity item)));
     ("price", JNumber (decimal.NewFromInt (positionPrice invoicePositions item)));
     ("assortment", metaOf product);
     ("vat", JNumber (decimal.NewFromInt (getVATRate (InvoiceItem.VATRate item))))].

(** A nil map stored in an [interface{}] is JSON null. *)
Definition of_map (m : GoMap) : JSON :=
  match m with Some g => JObject g | None => JNull end.

(** *** Calls to the external system

    A call of the API client either returns a value, returns a Go error
    ([Fail]) or panics (a failed single-value type assertion). *)

Inductive outcome (A : Type) : Type :=
| Return (a : A)
| Fail (msg : string)
| Panic.
Arguments Return {A} a.
Arguments Fail {A} msg.
Arguments Panic {A}.

Section API.
(** The external system: its state and its answer to a request ([Error] is
    a transport error of [http.Client.Do]). *)
Variable Server : Type.
Variable serve : Server -> Request -> result Response * Server.
(** [api.baseURL] *)
Variable baseURL : string.
(** [Time.Format "2006-01-02 15:04:05.000"] *)
Variable time_Format : Time -> string.
(** The text [fmt] prints for an [interface{}] under the verb [%s]. *)
Variable fmt_s : JSON -> string.

(** The state threaded through the client: the external system and the
    requests sent so far, oldest first. *)
Record World : Type := mkWorld { server : Server; sent : list Request }.

Definition M (A : Type) : Type := World -> outcome A * World.

Definition ret {A} (a : A) : M A := fun w => (Return a, w).
Definition fail {A} (msg : string) : M A := fun w => (Fail msg, w).
Definition panic {A} : M A := fun w => (Panic, w).

Definition bind {A B} (m : M A) (k : A -> M B) : M B :=
  fun w =>
    match m w with
    | (Return a, w') => k a w'
    | (Fail msg, w') => (Fail msg, w')
    | (Panic, w') => (Panic, w')
    end.

(** [v, err := f()] with the error inspected by the caller. *)
Definition try {A} (m : M A) : M (result A) :=
  fun w =>
    match m w with
    | (Return a, w') => (Return (Ok a), w')
    | (Fail msg, w') => (Return (Error msg), w')
    | (Panic, w') => (Panic, w')
    end.

Notation "x <- m ;; k" := (bind m (fun x => k))
  (at level 100, m at next level, right associativity).

(** [for _, b := range l] with the loop state [a]. *)
Fixpoint forEach {A B} (f : A -> B -> M A) (l : list B) (a : A) : M A :=
  match l with
  | [] => ret a
  | b :: rest => a' <- f a b;; forEach f rest a'
  end.

(** [v.(map[string]interface{})]: panics unless [v] is an object. *)
Definition assert_map (v : JSON) : M GoMap :=
  match as_map v with
  | Some m => ret (Some m)
  | None => panic
  end.

(** [json.Marshal(data)] when [data != nil]: the error, if any. *)
Definition marshalError (data : option JSON) : option string :=
  match data with
  | Some v =>
      match unsupported v with
      | Some value => Some ("json: unsupported value: " +:+ value)
      | None => None
      end
  | None => None
  end.

(** [makeRequest]: a payload that cannot be marshalled is an error and
    nothing is sent; otherwise the request is recorded and handed to the
    external system, and a failure to build or to deliver it is the system's
    [Error] answer.  Logging is not modelled. *)
Definition makeRequest (method endpoint : string) (data : option JSON)
    (params : gmap string string) : M (result Response) :=
  fun w =>
    match marshalError data with
    | Some err => (Return (Error err), w)
    | None =>
        let rq := mkRequest method endpoint data params in
        let '(r, s) := serve (server w) rq in
        (Return r, mkWorld s (sent w ++ [rq]))
    end.

Definition filter (pattern : string) : gmap string string :=
  {[ "filter" := pattern ]}.

(** The first row of a 200 response, [None] when the lookup has no hit
    (other status, undecodable body, no rows). *)
Definition firstRow (resp : Response) : M GoMap :=
  if StatusCode resp =? 200 then
    match decodeMap resp with
    | Ok data =>
        match rows data with
        | Some (row :: _) => assert_map row
        | _ => ret None
        end
    | Error _ => ret None
    end
  else ret None.

(** [findOrganizationByINN] *)
Definition findOrganizationByINN (inn : string) : M GoMap :=
  r <- makeRequest "GET" "/entity/organization" None (filter ("inn=" +:+ inn));;
  match r with
  | Error err => fail err
  | Ok resp =>
      if StatusCode resp =? 200 then
        match decodeMap resp with
        | Error err => fail err
        | Ok data =>
            match rows data with
            | Some (org :: _) => assert_map org
            | _ => fail "organization not found"
            end
        end
      else fail "organization not found"
  end.

(** The payload of the counterparty creation request. *)
Definition counterpartyData (buyer : Organization.t) : gmap string JSON :=
  (* Determine counterparty type by INN length *)
  let isIndividual := (String.length (Organization.INN buyer) =? 12)%nat in
  let counterpartyData : gmap string JSON :=
    list_to_map
      [("name", JString (Organization.Name buyer));
       ("inn", JString (Organization.INN buyer));
       ("companyType", JString "legal")] in
  if isIndividual then <["companyType" := JString "individual"]> counterpartyData
  else if negb (String.eqb (Organization.KPP buyer) "")
       then <["kpp" := JString (Organization.KPP buyer)]> counterpartyData
       else counterpartyData.

(** [getOrCreateCounterparty] *)
Definition getOrCreateCounterparty (buyer : Organization.t) : M GoMap :=
  (* Search by INN *)
  r <- makeRequest "GET" "/entity/counterparty" None
         (filter ("inn=" +:+ Organization.INN buyer));;
  match r with
  | Error err => fail ("Network error searching counterparty: " +:+ err)
  | Ok resp =>
      counterparty <- firstRow resp;;
      match counterparty with
      | Some _ => ret counterparty
      | None =>
          (* Create new counterparty *)
          r <- makeRequest "POST" "/entity/counterparty"
                 (Some (JObject (counterpartyData buyer))) ∅;;
          match r with
          | Error err => fail ("Network error creating counterparty: " +:+ err)
          | Ok resp =>
              if StatusCode resp =? 200 then
                match decodeMap resp with
                | Error err =>
                    fail ("Failed to decode counterparty response: " +:+ err)
                | Ok result => ret result
                end
              else
                fail ("Error creating counterparty: " +:+ pretty (StatusCode resp)
                      +:+ " - " +:+ Body resp)
          end
      end
  end.

(** [findProduct] *)
Definition findProduct (productName : string) : M GoMap :=
  r <- makeRequest "GET" "/entity/product" None (filter ("name=" +:+ productName));;
  match r with
  | Error _ => ret None
  | Ok resp => firstRow resp
  end.

(** [findProductByArticle] *)
Definition findProductByArticle (article : string) : M GoMap :=
  r <- makeRequest "GET" "/entity/product" None (filter ("article=" +:+ article));;
  match r with
  | Error _ => ret None
  | Ok resp => firstRow resp
  end.

(** [getAnyAvailableService] *)
Definition getAnyAvailableService : M GoMap :=
  r <- makeRequest "GET" "/entity/service" None ∅;;
  match r with
  | Error _ => ret None
  | Ok resp => firstRow resp
  end.

(** One round of the loop over [searchPatterns] in [findCustomerInvoice]:
    [Some invoiceData] when the round returns, [None] when the loop goes
    on to the next pattern. *)
Definition searchInvoice (pattern : string) : M (option GoMap) :=
  r <- makeRequest "GET" "/entity/invoiceout" None (filter pattern);;
  match r with
  | Error _ => ret None
  | Ok resp =>
      invoice <- firstRow resp;;
      match invoice with
      | None => ret None
      | Some _ =>
          (* Get full invoice information *)
          match as_map (index invoice "meta") with
          | Some meta =>
              match as_string (index (Some meta) "href") with
              | Some href =>
                  r <- makeRequest "GET" (strings.TrimPrefix href baseURL) None ∅;;
                  match r with
                  | Ok fullResp =>
                      if StatusCode fullResp =? 200 then
                        match decodeMap fullResp with
                        | Ok invoiceData => ret (Some invoiceData)
                        | Error _ => ret None
                        end
                      else ret None
                  | Error _ => ret None
                  end
              | None => ret None
              end
          | None => ret None
          end
      end
  end.

Fixpoint searchInvoices (searchPatterns : list string) : M GoMap :=
  match searchPatterns with
  | [] => fail "invoice not found"
  | pattern :: rest =>
      hit <- searchInvoice pattern;;
      match hit with
      | Some invoiceData => ret invoiceData
      | None => searchInvoices rest
      end
  end.

(** [findCustomerInvoice] *)
Definition findCustomerInvoice (requisiteNumber : string) (counterparty : GoMap)
  : M GoMap :=
  if String.eqb requisiteNumber "" then fail "requisite number not provided"
  else
    searchInvoices
      ["name=" +:+ requisiteNumber;
       "name~" +:+ requisiteNumber;
       "description~" +:+ requisiteNumber].

(** [getStoreFromInvoice] *)
Definition getStoreFromInvoice (customerInvoice : GoMap) : M GoMap :=
  match customerInvoice with
  | None => fail "customer invoice is nil"
  | Some _ =>
      match as_map (index customerInvoice "store") with
      | Some storeMap =>
          let storeName := default "" (as_string (index (Some storeMap) "name")) in
          let storeID := default "" (as_string (index (Some storeMap) "id")) in
          if String.eqb storeName "" && String.eqb storeID "" then
            (* the store might be a meta reference *)
            match as_map (index (Some storeMap) "meta") with
            | Some meta =>
                match as_string (index (Some meta) "href") with
                | Some href =>
                    r <- makeRequest "GET" (strings.TrimPrefix href baseURL) None ∅;;
                    match r with
                    | Ok storeResp =>
                        if StatusCode storeResp =? 200 then
                          match decodeMap storeResp with
                          | Ok storeData => ret storeData
                          | Error _ => fail "store not specified in invoice"
                          end
                        else fail "store not specified in invoice"
                    | Error _ => fail "store not specified in invoice"
                    end
                | None => fail "store not specified in invoice"
                end
            | None => fail "store not specified in invoice"
            end
          else ret (Some storeMap)
      | None => fail "store not specified in invoice"
      end
  end.

(** [parseInvoicePositions] *)
Definition parseInvoicePositions (positionsData : JSON) (positions : gmap string Z)
  : M (gmap string Z) :=
  match positionsData with
  | JObject data =>
      match rows (Some data) with
      | Some rows => ret (parsePositions rows positions)
      | None =>
          meta <- assert_map (index (Some data) "meta");;
          match as_string (index meta "href") with
          | Some href =>
              (* Load positions separately *)
              r <- makeRequest "GET" (strings.TrimPrefix href baseURL) None ∅;;
              match r with
              | Ok resp =>
                  if StatusCode resp =? 200 then
                    match decodeMap resp with
                    | Ok positionsResult =>
                        match rows positionsResult with
                        | Some rows => ret (parsePositions rows positions)
                        | None => ret positions
                        end
                    | Error _ => ret positions
                    end
                  else ret positions
              | Error _ => ret positions
              end
          | None => ret positions
          end
      end
  | JArray data => ret (parsePositions data positions)
  | _ => ret positions
  end.

(** [getInvoicePositions] *)
Definition getInvoicePositions (customerInvoice : GoMap) : M (gmap string Z) :=
  let positions : gmap string Z := ∅ in
  match as_map (index customerInvoice "meta") with
  | Some meta =>
      match as_string (index (Some meta) "href") with
      | Some href =>
          r <- makeRequest "GET"
                 (strings.TrimPrefix href baseURL +:+ "?expand=positions.assortment")
                 None ∅;;
          match r with
          | Error _ => ret positions
          | Ok resp =>
              if StatusCode resp =? 200 then
                match decodeMap resp with
                | Ok (Some invoiceData) =>
                    match invoiceData !! "positions" with
                    | Some positionsData => parseInvoicePositions positionsData positions
                    | None => ret positions
                    end
                | _ => ret positions
                end
              else ret positions
          end
      | None => ret positions
      end
  | None => ret positions
  end.

(** Product resolution inside the loop of [createPositionsFromUPD]: by
    article first, and by name when that gave no product. *)
Definition resolveProduct (item : InvoiceItem.t) : M GoMap :=
  product <- (if negb (String.eqb (InvoiceItem.Article item) "")
              then findProductByArticle (InvoiceItem.Article item)
              else ret None);;
  match product with
  | None => findProduct (InvoiceItem.Name item)
  | Some _ => ret product
  end.

(** The body of the loop of [createPositionsFromUPD]; the loop state is
    the pair of [positions] and [missingItems]. *)
Definition addItem (invoicePositions : gmap string Z)
    (state : list JSON * list string) (item : InvoiceItem.t)
  : M (list JSON * list string) :=
  product <- resolveProduct item;;
  match product with
  | Some _ =>
      ret (state.1 ++ [position invoicePositions item product], state.2)
  | None => ret (state.1, state.2 ++ [missingItem item])
  end.

(** [createPositionsFromUPD] *)
Definition createPositionsFromUPD (content : UPDContent.t) (customerInvoice : GoMap)
  : M (list JSON) :=
  (* Get positions from invoice for price matching *)
  invoicePositions <- match customerInvoice with
                      | Some _ => getInvoicePositions customerInvoice
                      | None => ret ∅
                      end;;
  (* Add positions from UPD *)
  state <- forEach (addItem invoicePositions) (UPDContent.Items content) ([], []);;
  let '(positions, missingItems) := state in
  match missingItems with
  | _ :: _ => fail (productsNotFound missingItems)
  | [] =>
      match positions with
      | _ :: _ => ret positions
      | [] =>
          (* If no positions from UPD, use any available service *)
          let totalPriceKopecks :=
            if decimal.GreaterThan (UPDContent.TotalWithVAT content) decimal.Zero
            then decimal.IntPart
                   (decimal.Mul (UPDContent.TotalWithVAT content) (decimal.NewFromInt 100))
            else 1000 * 100 in
          service <- getAnyAvailableService;;
          match service with
          | None =>
              fail ("No available services in MoySkald to create document position."
                    +:+ LF +:+ "Create at least one service in MoySkald and try again.")
          | Some _ =>
              ret [object
                     [("quantity", JNumber (decimal.NewFromInt 1));
                      ("price", JNumber (decimal.NewFromInt totalPriceKopecks));
                      ("assortment", metaOf service);
                      ("vat", JNumber (decimal.NewFromInt 18))]]
          end
      end
  end.

(** [createDemand] *)
Definition createDemand (updDocument : UPDDocument.t) (organization counterparty : GoMap)
  : M GoMap :=
  let content := UPDDocument.Content updDocument in
  let momentStr := time_Format (UPDContent.InvoiceDate content) in
  (* Find customer invoice by requisite number *)
  found <- try (findCustomerInvoice (UPDContent.RequisiteNumber content) counterparty);;
  match found with
  | Error _ =>
      fail ("Customer invoice with number '" +:+ UPDContent.RequisiteNumber content
            +:+ "' not found." +:+ LF
            +:+ "Create invoice with specified number and try again.")
  | Ok customerInvoice =>
      (* Get store from customer invoice *)
      found <- try (getStoreFromInvoice customerInvoice);;
      match found with
      | Error _ =>
          fail ("Store not specified in customer invoice '"
                +:+ fmt_s (index customerInvoice "name") +:+ "'." +:+ LF
                +:+ "Specify store in invoice and try again.")
      | Ok store =>
          let demandData : gmap string JSON :=
            list_to_map
              [("name", JString ("О" +:+ UPDContent.InvoiceNumber content));
               ("moment", JString momentStr);
               ("organization", metaOf organization);
               ("agent", metaOf counterparty);
               ("store", metaOf store);
               ("vatEnabled", JBool true);
               ("vatIncluded", JBool true);
               ("positions", JArray [])] in
          (* Link to customer invoice if found *)
          let demandData :=
            match customerInvoice with
            | Some _ => <["invoicesOut" := JArray [metaOf customerInvoice]]> demandData
            | None => demandData
            end in
          (* Add positions *)
          positions <- createPositionsFromUPD content customerInvoice;;
          let demandData := <["positions" := JArray positions]> demandData in
          (* Create demand *)
          r <- makeRequest "POST" "/entity/demand" (Some (JObject demandData)) ∅;;
          match r with
          | Error err => fail ("Network error creating demand: " +:+ err)
          | Ok resp =>
              if StatusCode resp =? 200 then
                match decodeMap resp with
                | Error err => fail ("Failed to decode demand response: " +:+ err)
                | Ok result => ret result
                end
              else
                fail ("Error creating demand: " +:+ pretty (StatusCode resp)
                      +:+ " - " +:+ Body resp)
          end
      end
  end.

(** [mapUPDToFactureOut]: the errors of the two calls are dropped. *)
Definition mapUPDToFactureOut (updDocument : UPDDocument.t)
    (organization counterparty demand : GoMap) : M (gmap string JSON) :=
  let content := UPDDocument.Content updDocument in
  let momentStr := time_Format (UPDContent.InvoiceDate content) in
  let invoiceData : gmap string JSON :=
    list_to_map
      [("name", JString (UPDContent.InvoiceNumber content));
       ("moment", JString momentStr);
       ("organization", metaOf organization);
       ("agent", metaOf counterparty);
       ("vatEnabled", JBool true);
       ("vatIncluded", JBool true);
       ("demands", JArray [metaOf demand]);
       ("positions", JArray [])] in
  (* Add positions (reuse same logic as demand) *)
  found <- try (findCustomerInvoice (UPDContent.RequisiteNumber content) None);;
  let customerInvoice := match found with Ok invoice => invoice | Error _ => None end in
  assembled <- try (createPositionsFromUPD content customerInvoice);;
  let positions :=
    match assembled with Ok positions => JArray positions | Error _ => JNull end in
  ret (<["positions" := positions]> invoiceData).

(** [CreateInvoiceFromUPD] *)
Definition CreateInvoiceFromUPD (updDocument : UPDDocument.t) : M JSON :=
  let content := UPDDocument.Content updDocument in
  (* Find supplier organization by INN *)
  found <- try (findOrganizationByINN (Organization.INN (UPDContent.Seller content)));;
  match found with
  | Error _ =>
      fail ("Supplier organization with INN "
            +:+ Organization.INN (UPDContent.Seller content)
            +:+ " not found in MoySkald")
  | Ok supplierOrg =>
      (* Get or create buyer counterparty *)
      buyerCounterparty <- getOrCreateCounterparty (UPDContent.Buyer content);;
      (* Step 1: Create demand (shipment) as base document *)
      demand <- createDemand updDocument supplierOrg buyerCounterparty;;
      (* Step 2: Create invoice based on demand *)
      invoiceData <- mapUPDToFactureOut updDocument supplierOrg buyerCounterparty demand;;
      r <- makeRequest "POST" "/entity/factureout" (Some (JObject invoiceData)) ∅;;
      match r with
      | Error err => fail ("Network error creating invoice: " +:+ err)
      | Ok resp =>
          if StatusCode resp =? 200 then
            match decodeMap resp with
            | Error err => fail ("Failed to decode invoice response: " +:+ err)
            | Ok result =>
                ret (object
                       [("factureout", of_map result);
                        ("demand", of_map demand);
                        ("success", JBool true)])
            end
          else
            fail ("Error creating invoice: " +:+ pretty (StatusCode resp)
                  +:+ " - " +:+ Body resp)
      end
  end.

(** *** Token check and status query *)

(** [err == nil && resp != nil && resp.StatusCode == 200] *)
Definition is200 (r : result Response) : bool :=
  match r with
  | Ok resp => StatusCode resp =? 200
  | Error _ => false
  end.

(** [VerifyToken] *)
Definition VerifyToken : M bool :=
  r <- makeRequest "GET" "/context/employee" None ∅;;
  ret (is200 r).

(** [checkPermissions]; the error of decoding the store list is dropped. *)
Definition checkPermissions : M (gmap string JSON) :=
  let permissions : gmap string JSON :=
    list_to_map
      [("organizations_count", JNumber (decimal.NewFromInt 0));
       ("stores_count", JNumber (decimal.NewFromInt 0))] in
  (* Check invoice creation access *)
  r <- makeRequest "GET" "/entity/factureout" None ∅;;
  let permissions := <["can_create_invoices" := JBool (is200 r)]> permissions in
  (* Check counterparty access *)
  r <- makeRequest "GET" "/entity/counterparty" None ∅;;
  let permissions := <["can_access_counterparties" := JBool (is200 r)]> permissions in
  (* Check stores access *)
  r <- makeRequest "GET" "/entity/store" None ∅;;
  let canAccessStores := is200 r in
  let permissions := <["can_access_stores" := JBool canAccessStores]> permissions in
  ret (match r with
       | Ok resp =>
           if canAccessStores then
             match decodeMap resp with
             | Ok storeData =>
                 match rows storeData with
                 | Some stores =>
                     <["stores_count" :=
                         JNumber (decimal.NewFromInt (Z.of_nat (length stores)))]>
                       permissions
                 | None => permissions
                 end
             | Error _ => permissions
             end
           else permissions
       | Error _ => permissions
       end).

(** The failure answers of [VerifyAPIAccess]. *)
Definition failure (error : string) (details : option string) : gmap string JSON :=
  let answer : gmap string JSON :=
    list_to_map [("success", JBool false); ("error", JString error)] in
  match details with
  | Some text => <["details" := JString text]> answer
  | None => answer
  end.

(** [VerifyAPIAccess] *)
Definition VerifyAPIAccess : M (gmap string JSON) :=
  (* Check basic API access *)
  r <- makeRequest "GET" "/context/employee" None ∅;;
  match r with
  | Error err =>
      ret (failure ("Network error: " +:+ err)
             (Some "Check internet connection and api.moysklad.ru availability"))
  | Ok resp =>
      if negb (StatusCode resp =? 200) then
        ret (failure ("API access error: " +:+ pretty (StatusCode resp))
               (Some (Body resp)))
      else
        match decodeMap resp with
        | Error err => ret (failure "Failed to decode employee data" (Some err))
        | Ok employeeData =>
            (* Get organization information *)
            r <- makeRequest "GET" "/entity/organization" None ∅;;
            match r with
            | Error err => ret (failure ("Failed to get organizations: " +:+ err) None)
            | Ok orgResp =>
                if negb (StatusCode orgResp =? 200) then
                  ret (failure ("No access to organizations: "
                                +:+ pretty (StatusCode orgResp))
                         (Some (Body orgResp)))
                else
                  match decodeMap orgResp with
                  | Error err =>
                      ret (failure "Failed to decode organization data" (Some err))
                  | Ok orgData =>
                      match rows orgData with
                      | Some (first :: _) =>
                          (* Check permissions *)
                          permissions <- checkPermissions;;
                          mainOrg <- assert_map first;;
                          ret (list_to_map
                                 [("success", JBool true);
                                  ("employee",
                                   object [("name", index employeeData "name");
                                           ("email", index employeeData "email")]);
                                  ("organization",
                                   object [("name", index mainOrg "name");
                                           ("inn", index mainOrg "inn");
                                           ("id", index mainOrg "id")]);
                                  ("permissions", JObject permissions);
                                  ("api_info",
                                   object [("base_url", JString baseURL);
                                           ("response_time_ms", JString "< 10000")])])
                      | _ =>
                          ret (failure "No organizations found"
                                 (Some "No available organizations in MoySkald account"))
                      end
                  end
            end
        end
  end.

(** [GetInvoiceInfo] *)
Definition GetInvoiceInfo (invoiceID : string) : M GoMap :=
  r <- makeRequest "GET" ("/entity/factureout/" +:+ invoiceID) None ∅;;
  match r with
  | Error err => fail err
  | Ok resp =>
      if StatusCode resp =? 200 then
        match decodeMap resp with
        | Error err => fail err
        | Ok data => ret data
        end
      else fail "failed to get invoice info"
  end.

(** [GetInvoiceURL] and [GetDemandURL] *)
Definition GetInvoiceURL (invoiceID : string) : string :=
  "https://online.moysklad.ru/app/#factureout/edit?id=" +:+ invoiceID.

Definition GetDemandURL (demandID : string) : string :=
  "https://online.moysklad.ru/app/#demand/edit?id=" +:+ demandID.

End API.

Arguments mkWorld {Server} _ _.
Arguments server {Server} _.
Arguments sent {Server} _.
Arguments ret {Server A} _ _.
Arguments fail {Server A} _ _.
Arguments panic {Server A} _.
Arguments bind {Server A B} _ _ _.
Arguments try {Server A} _ _.
Arguments forEach {Server A B} _ _ _ _.
Arguments assert_map {Server} _ _.
Arguments makeRequest {Server} _ _ _ _ _ _.
Arguments firstRow {Server} _ _.
Arguments findOrganizationByINN {Server} _ _ _.
Arguments getOrCreateCounterparty {Server} _ _ _.
Arguments findProduct {Server} _ _ _.
Arguments findProductByArticle {Server} _ _ _.
Arguments getAnyAvailableService {Server} _ _.
Arguments searchInvoice {Server} _ _ _ _.
Arguments searchInvoices {Server} _ _ _ _.
Arguments findCustomerInvoice {Server} _ _ _ _ _.
Arguments getStoreFromInvoice {Server} _ _ _ _.
Arguments parseInvoicePositions {Server} _ _ _ _ _.
Arguments getInvoicePositions {Server} _ _ _ _.
Arguments resolveProduct {Server} _ _ _.
Arguments addItem {Server} _ _ _ _ _.
Arguments createPositionsFromUPD {Server} _ _ _ _ _.
Arguments createDemand {Server} _ _ _ _ _ _ _ _.
Arguments mapUPDToFactureOut {Server} _ _ _ _ _ _ _ _.
Arguments CreateInvoiceFromUPD {Server} _ _ _ _ _ _.
Arguments VerifyToken {Server} _ _.
Arguments checkPermissions {Server} _ _.
Arguments VerifyAPIAccess {Server} _ _ _.
Arguments GetInvoiceInfo {Server} _ _ _.

End moysklad.

(** ** [internal/config] *)

Module config.

Record Config : Type := mkConfig
  { TelegramBotToken : string;
    AuthorizedUsers : list Z;
    MoySkladAPIToken : string;
    MoySkladAPIURL : string;
    MoySkladOrganizationID : string;
    TempDir : string;
    LogLevel : string;
    MaxFileSize : Z;
    UPDEncoding : string }.

(** [os.Getenv] on the environment, a map from names to values. *)
Definition Getenv (env : gmap string string) (key : string) : string :=
  default "" (env !! key).

(** [getEnvWithDefault] *)
Definition getEnvWithDefault (env : gmap string string) (key defaultValue : string)
  : string :=
  let value := Getenv env key in
  if negb (String.eqb value "") then value else defaultValue.

(** The loop of [Load] over the segments of [AUTHORIZED_USERS]; [users] are
    the ids appended so far. *)
Fixpoint parseUsers (userIDs : list string) (users : list Z) : result (list Z) :=
  match userIDs with
  | [] => Ok users
  | userIDStr :: rest =>
      let userIDStr := strings.TrimSpace userIDStr in
      if negb (String.eqb userIDStr "") then
        match strings.ParseInt userIDStr 64 with
        | None => Error ("invalid user ID: " +:+ userIDStr)
        | Some userID => parseUsers rest (users ++ [userID])
        end
      else parseUsers rest users
  end.

(** [Load], on the environment as it is after [godotenv.Load]. *)
Definition Load (env : gmap string string) : result Config :=
  let usersStr := Getenv env "AUTHORIZED_USERS" in
  match (if negb (String.eqb usersStr "")
         then parseUsers (strings.SplitByte "," usersStr) []
         else Ok []) with
  | Error err => Error err
  | Ok users =>
      let maxFileSizeStr := getEnvWithDefault env "MAX_FILE_SIZE" "10485760" in
      match strings.ParseInt maxFileSizeStr 64 with
      | None => Error ("invalid MAX_FILE_SIZE: " +:+ maxFileSizeStr)
      | Some maxFileSize =>
          Ok {| TelegramBotToken := Getenv env "TELEGRAM_BOT_TOKEN";
                AuthorizedUsers := users;
                MoySkladAPIToken := Getenv env "MOYSKLAD_API_TOKEN";
                MoySkladAPIURL :=
                  getEnvWithDefault env "MOYSKLAD_API_URL"
                    "https://api.moysklad.ru/api/remap/1.2";
                MoySkladOrganizationID := Getenv env "MOYSKLAD_ORGANIZATION_ID";
                TempDir := getEnvWithDefault env "TEMP_DIR" "./temp";
                LogLevel := getEnvWithDefault env "LOG_LEVEL" "INFO";
                MaxFileSize := maxFileSize;
                UPDEncoding := "windows-1251" |}
      end
  end.

(** [Validate] *)
Definition Validate (c : Config) : list string :=
  (if String.eqb (TelegramBotToken c) "" then ["TELEGRAM_BOT_TOKEN не установлен"] else [])
  ++ (if String.eqb (MoySkladAPIToken c) "" then ["MOYSKLAD_API_TOKEN не установлен"] else [])
  ++ (match AuthorizedUsers c with
      | [] => ["AUTHORIZED_USERS не установлены"]
      | _ :: _ => []
      end).

(** [IsAuthorizedUser]: the loop over [c.AuthorizedUsers]. *)
Fixpoint isAuthorized (users : list Z) (userID : Z) : bool :=
  match users with
  | [] => false
  | id :: rest => if id =? userID then true else isAuthorized rest userID
  end.

Definition IsAuthorizedUser (c : Config) (userID : Z) : bool :=
  isAuthorized (AuthorizedUsers c) userID.

End config.

(** ** [internal/processor] *)

Module processor.
Import models.

Section Processor.
(** The configuration and the external world of a processor. *)
Variable cfg : config.Config.
Variable Server : Type.
Variable serve : Server -> moysklad.Request -> result moysklad.Response * Server.
Variable zip_OpenReader : string -> result (list parser.ZipFile.t).
Variable os_error : list parser.fs_op -> parser.fs_op -> option string.
Variable zip_Open_error : parser.ZipFile.t -> option string.
Variable os_IsNotExist : list parser.fs_op -> string -> bool.
Variable os_ReadFile : list parser.fs_op -> string -> result string.
Variable readFileWithEncoding : list parser.fs_op -> string -> result string.
Variable xml_Unmarshal_meta : string -> result (list parser.DocFlow.t).
Variable xml_Unmarshal_card : string -> result parser.CardXML.t.
Variable xml_Unmarshal : string -> result parser.UPDXML.t.
Variable time_Parse_RFC3339 : string -> option Time.
Variable time_Parse : string -> option Time.
(** [ioutil.TempFile dir pattern]: the name of the file it creates. *)
Variable ioutil_TempFile : list parser.fs_op -> string -> string -> result string.
(** [strings.ToLower] *)
Variable strings_ToLower : string -> string.
(** [Time.Format] with the layouts of the API client and of the messages,
    [Decimal.StringFixed 2] and [fmt]'s [%s] on an [interface{}]. *)
Variable time_Format : Time -> string.
Variable time_Format_date : Time -> string.
Variable StringFixed2 : decimal.Decimal -> string.
Variable fmt_s : moysklad.JSON -> string.

(** The state of a request: the file-system history and the external system. *)
Definition State : Type := list parser.fs_op * moysklad.World Server.

Definition failed (message errorCode : string) : ProcessingResult.t :=
  {| ProcessingResult.Success := false;
     ProcessingResult.Message := message;
     ProcessingResult.UPDDocument := None;
     ProcessingResult.MoySkladInvoiceID := "";
     ProcessingResult.MoySkladInvoiceURL := "";
     ProcessingResult.ErrorCode := errorCode |}.

(** [saveTempFile]: the creation of the file is recorded as [OpenFile] of
    the generated name, the write as [Copy]. *)
Definition saveTempFile (fileContent filename : string) (done : list parser.fs_op)
  : result string * list parser.fs_op :=
  match ioutil_TempFile done (config.TempDir cfg) "upd_*.zip" with
  | Error err => (Error err, done)
  | Ok name =>
      let done := done ++ [parser.OpenFile name] in
      match os_error done (parser.Copy name fileContent) with
      | Some err => (Error err, done ++ [parser.Copy name fileContent])
      | None => (Ok name, done ++ [parser.Copy name fileContent])
      end
  end.

(** [uploadToMoySkald] *)
Definition uploadToMoySkald (updDocument : UPDDocument.t)
  : moysklad.M Server moysklad.JSON :=
  moysklad.bind (moysklad.VerifyToken serve) (fun valid =>
  if negb valid then moysklad.fail "invalid MoySkald API token"
  else moysklad.CreateInvoiceFromUPD serve (config.MoySkladAPIURL cfg)
         time_Format fmt_s updDocument).

(** [formatSuccessMessage] *)
Definition formatSuccessMessage (updDocument : UPDDocument.t)
    (invoiceName invoiceURL demandName demandURL : string) : string :=
  let content := UPDDocument.Content updDocument in
  let LF := moysklad.LF in
  "✅ UPD successfully processed and uploaded to MoySkald!" +:+ LF +:+ LF
  +:+ "📄 Invoice: " +:+ invoiceName +:+ LF
  +:+ "📦 Shipment: " +:+ demandName +:+ LF
  +:+ " Date: " +:+ time_Format_date (UPDContent.InvoiceDate content) +:+ LF +:+ LF
  +:+ "🏢 Supplier: " +:+ Organization.Name (UPDContent.Seller content)
  +:+ (if negb (String.eqb (Organization.INN (UPDContent.Seller content)) "")
       then " (INN: " +:+ Organization.INN (UPDContent.Seller content) +:+ ")" else "")
  +:+ LF
  +:+ "🏪 Buyer: " +:+ Organization.Name (UPDContent.Buyer content)
  +:+ (if negb (String.eqb (Organization.INN (UPDContent.Buyer content)) "")
       then " (INN: " +:+ Organization.INN (UPDContent.Buyer content) +:+ ")" else "")
  +:+ LF +:+ LF
  +:+ (if decimal.GreaterThan (UPDContent.TotalWithVAT content)
            (UPDContent.TotalWithoutVAT content)
       then "💰 Amount without VAT: " +:+ StringFixed2 (UPDContent.TotalWithoutVAT content)
            +:+ " ₽" +:+ LF
            +:+ "🧾 VAT: " +:+ StringFixed2 (UPDContent.TotalVAT content) +:+ " ₽" +:+ LF
            +:+ "💵 Total with VAT: " +:+ StringFixed2 (UPDContent.TotalWithVAT content)
            +:+ " ₽" +:+ LF +:+ LF
       else "")
  +:+ "🔗 Links in MoySkald:" +:+ LF
  +:+ (if negb (String.eqb invoiceURL "")
       then "• Invoice: " +:+ invoiceURL +:+ LF else "")
  +:+ (if negb (String.eqb demandURL "")
       then "• Shipment: " +:+ demandURL +:+ LF else "")
  +:+ (if negb (String.eqb (MetaInfo.DocFlowID (UPDDocument.MetaInfo updDocument)) "")
       then LF +:+ "🆔 Document flow ID: "
            +:+ MetaInfo.DocFlowID (UPDDocument.MetaInfo updDocument)
       else "").

(** [v, _ := m[key].(string)] on a map that may be nil. *)
Definition stringAt (m : moysklad.GoMap) (key : string) : string :=
  default "" (moysklad.as_string (moysklad.index m key)).

(** [createSuccessResult] *)
Definition createSuccessResult (updDocument : UPDDocument.t)
    (invoiceResult : moysklad.JSON) : ProcessingResult.t :=
  let factureout := moysklad.as_map (moysklad.index (moysklad.as_map invoiceResult) "factureout") in
  let demand := moysklad.as_map (moysklad.index (moysklad.as_map invoiceResult) "demand") in
  let invoiceID := stringAt factureout "id" in
  let invoiceName := stringAt factureout "name" in
  let demandID := stringAt demand "id" in
  let demandName := stringAt demand "name" in
  let invoiceName := if String.eqb invoiceName "" then "Не указано" else invoiceName in
  let demandName := if String.eqb demandName "" then "Не указано" else demandName in
  let invoiceURL :=
    if negb (String.eqb invoiceID "") then moysklad.GetInvoiceURL invoiceID else "" in
  let demandURL :=
    if negb (String.eqb demandID "") then moysklad.GetDemandURL demandID else "" in
  {| ProcessingResult.Success := true;
     ProcessingResult.Message :=
       formatSuccessMessage updDocument invoiceName invoiceURL demandName demandURL;
     ProcessingResult.UPDDocument := Some updDocument;
     ProcessingResult.MoySkladInvoiceID := invoiceID;
     ProcessingResult.MoySkladInvoiceURL := invoiceURL;
     ProcessingResult.ErrorCode := "" |}.

(** The body of [ProcessUPDFile] up to its returns: the result ([None] when
    the API client panics), the value of [tempZipPath] at the return, and
    the state. *)
Definition process (nowCard nowContent : Time) (fileContent filename : string)
    (st : State) : option ProcessingResult.t * string * State :=
  let '(done, w) := st in
  (* Check file size *)
  if config.MaxFileSize cfg <? Z.of_nat (String.length fileContent) then
    (Some (failed ("❌ File too large. Maximum size: "
                   +:+ pretty (Z.quot (Z.quot (config.MaxFileSize cfg) 1024) 1024)
                   +:+ " MB") "FILE_TOO_LARGE"), "", st)
  (* Check file extension *)
  else if negb (strings.HasSuffix (strings_ToLower filename) ".zip") then
    (Some (failed "❌ Only ZIP archives with UPD are supported" "INVALID_FILE_TYPE"), "", st)
  else
    (* Create temporary file *)
    let ensure := parser.MkdirAll (config.TempDir cfg) in
    match os_error done ensure with
    | Some err =>
        (Some (failed ("❌ Failed to create temp directory: " +:+ err) "TEMP_DIR_ERROR"),
         "", (done ++ [ensure], w))
    | None =>
        match saveTempFile fileContent filename (done ++ [ensure]) with
        | (Error err, done) =>
            (Some (failed ("❌ Failed to save temp file: " +:+ err) "TEMP_FILE_ERROR"),
             "", (done, w))
        | (Ok tempZipPath, done) =>
            (* Parse UPD *)
            match parser.ParseUPDArchive zip_OpenReader os_error zip_Open_error
                    os_IsNotExist os_ReadFile readFileWithEncoding
                    xml_Unmarshal_meta xml_Unmarshal_card xml_Unmarshal
                    time_Parse_RFC3339 time_Parse nowCard nowContent
                    tempZipPath done with
            | (Error err, done) =>
                (Some (failed ("❌ UPD processing error:" +:+ moysklad.LF +:+ err)
                         "PARSING_ERROR"), tempZipPath, (done, w))
            | (Ok updDocument, done) =>
                (* Upload to MoySkald *)
                match uploadToMoySkald updDocument w with
                | (moysklad.Fail err, w) =>
                    (Some (failed ("❌ MoySkald upload error:" +:+ moysklad.LF +:+ err)
                             "MOYSKLAD_API_ERROR"), tempZipPath, (done, w))
                | (moysklad.Panic, w) => (None, tempZipPath, (done, w))
                | (moysklad.Return invoiceResult, w) =>
                    (Some (createSuccessResult updDocument invoiceResult),
                     tempZipPath, (done, w))
                end
            end
        end
    end.

(** [ProcessUPDFile]: the deferred function cleans up when [tempZipPath] is
    set, also while a panic unwinds. *)
Definition ProcessUPDFile (nowCard nowContent : Time) (fileContent filename : string)
    (st : State) : option ProcessingResult.t * State :=
  let '(r, tempZipPath, (done, w)) := process nowCard nowContent fileContent filename st in
  if negb (String.eqb tempZipPath "")
  then (r, (parser.CleanupTempFiles tempZipPath done, w))
  else (r, (done, w)).

(** [CheckMoySkaldConnection] and [GetMoySkaldStatus] *)
Definition CheckMoySkaldConnection : moysklad.M Server bool :=
  moysklad.VerifyToken serve.

Definition GetMoySkaldStatus : moysklad.M Server (gmap string moysklad.JSON) :=
  moysklad.VerifyAPIAccess serve (config.MoySkladAPIURL cfg).

End Processor.

End processor.

(** ** Auxiliary notions used in the statements *)

(** A source item with its amount-without-VAT attribute replaced. *)
Definition withAmountWithoutVAT (v : string) (x : parser.XMLItem.t) : parser.XMLItem.t :=
  {| parser.XMLItem.Name := parser.XMLItem.Name x;
     parser.XMLItem.Quantity := parser.XMLItem.Quantity x;
     parser.XMLItem.Price := parser.XMLItem.Price x;
     parser.XMLItem.AmountWithoutVAT := v;
     parser.XMLItem.VATRate := parser.XMLItem.VATRate x;
     parser.XMLItem.AmountWithVAT := parser.XMLItem.AmountWithVAT x;
     parser.XMLItem.Article := parser.XMLItem.Article x;
     parser.XMLItem.VATSum := parser.XMLItem.VATSum x |}.

(** The resolved output path of an archive entry leaves the scratch
    directory: the negation of the security check of [extractArchive]. *)
Definition escapes (extractDir : string) (file : parser.ZipFile.t) : Prop :=
  strings.HasPrefix (filepath.Join extractDir (parser.ZipFile.Name file))
    (filepath.Clean extractDir +:+ filepath.Separator) = false.

(** A path strictly inside the scratch directory. *)
Definition inside (extractDir path : string) : Prop :=
  strings.HasPrefix path (filepath.Clean extractDir +:+ filepath.Separator) = true.

(** An operation that stays inside the scratch directory: files are created
    and written inside it, directories are made inside it or are the parent
    of a path inside it. *)
Definition op_inside (extractDir : string) (op : parser.fs_op) : Prop :=
  match op with
  | parser.OpenFile path => inside extractDir path
  | parser.Copy path _ => inside extractDir path
  | parser.MkdirAll path =>
      inside extractDir path
      \/ exists child, inside extractDir child /\ path = filepath.Dir child
  | parser.Remove _ => False
  | parser.RemoveAll _ => False
  end.

(** What a successful run of the extraction loop has done for an entry,
    all inside the scratch directory.  For a file entry: its parent
    directory was made, the file was opened and the data of the entry was
    copied into it, one after the other and each without an error.  For a
    directory entry: making the directory was attempted; the loop does not
    look at the error of that attempt. *)
Definition extracted (os_error : list parser.fs_op -> parser.fs_op -> option string)
    (extractDir : string) (done : list parser.fs_op) (file : parser.ZipFile.t) : Prop :=
  let path := filepath.Join extractDir (parser.ZipFile.Name file) in
  inside extractDir path
  /\ if parser.ZipFile.IsDir file then parser.MkdirAll path ∈ done
     else
       let mk := parser.MkdirAll (filepath.Dir path) in
       let cp := parser.Copy path (parser.ZipFile.Data file) in
       exists before after,
         done = before ++ [mk; parser.OpenFile path; cp] ++ after
         /\ os_error before mk = None
         /\ os_error (before ++ [mk]) (parser.OpenFile path) = None
         /\ os_error (before ++ [mk; parser.OpenFile path]) cp = None.

(** The directory [extractArchive] extracts into and [CleanupTempFiles]
    removes. *)
Definition scratchDir (zipPath : string) : string :=
  filepath.Join (filepath.Dir zipPath) "upd_extract".

(** The price precedence as the specification words it: the price recorded
    under the catalog code, failing that the price recorded under the name,
    and the document's own price when neither is present. *)
Definition specPrice (invoicePositions : gmap string Z) (item : models.InvoiceItem.t) : Z :=
  match invoicePositions !! ("article:" +:+ models.InvoiceItem.Article item) with
  | Some price => price
  | None =>
      match invoicePositions !! ("name:" +:+ models.InvoiceItem.Name item) with
      | Some price => price
      | None => moysklad.updPriceKopecks item
      end
  end.

(** *** Requests of the reconciliation engine *)

(** The catalog lookup by article and the catalog lookup by name. *)
Definition articleLookup (article : string) : moysklad.Request :=
  moysklad.mkRequest "GET" "/entity/product" None (moysklad.filter ("article=" +:+ article)).

Definition nameLookup (name : string) : moysklad.Request :=
  moysklad.mkRequest "GET" "/entity/product" None (moysklad.filter ("name=" +:+ name)).

(** The counterparty search by tax id and the counterparty creation. *)
Definition counterpartySearch (inn : string) : moysklad.Request :=
  moysklad.mkRequest "GET" "/entity/counterparty" None (moysklad.filter ("inn=" +:+ inn)).

Definition counterpartyCreation (buyer : models.Organization.t) : moysklad.Request :=
  moysklad.mkRequest "POST" "/entity/counterparty"
    (Some (moysklad.JObject (moysklad.counterpartyData buyer))) ∅.

(** A shipment-creation or invoice-creation request. *)
Definition creation (rq : moysklad.Request) : Prop :=
  moysklad.method rq = "POST"
  /\ (moysklad.endpoint rq = "/entity/demand" \/ moysklad.endpoint rq = "/entity/factureout").

Definition isGET (rq : moysklad.Request) : Prop := moysklad.method rq = "GET".

(** The first row of a lookup response, if the lookup has a hit: status 200,
    a decodable body and a non-empty [rows] array. *)
Definition firstRowOf (resp : moysklad.Response) : option moysklad.JSON :=
  if moysklad.StatusCode resp =? 200 then
    match moysklad.decodeMap resp with
    | Ok data =>
        match moysklad.rows data with
        | Some (row :: _) => Some row
        | _ => None
        end
    | Error _ => None
    end
  else None.

(** Every request a computation sends satisfies [P]. *)
Definition sends {Server A : Type} (P : moysklad.Request -> Prop)
    (m : moysklad.M Server A) : Prop :=
  forall w, exists new,
    moysklad.sent (m w).2 = moysklad.sent w ++ new /\ Forall P new.

(** The product resolutions the loop of [createPositionsFromUPD] performs, in
    the order of the items. *)
Fixpoint resolveAll {Server : Type}
    (serve : Server -> moysklad.Request -> result moysklad.Response * Server)
    (items : list models.InvoiceItem.t) : moysklad.M Server (list moysklad.GoMap) :=
  match items with
  | [] => moysklad.ret []
  | item :: rest =>
      moysklad.bind (moysklad.resolveProduct serve item) (fun product =>
      moysklad.bind (resolveAll serve rest) (fun products =>
      moysklad.ret (product :: products)))
  end.

(** The positions and the missing-items list the loop builds from the
    resolutions. *)
Fixpoint assembled (invoicePositions : gmap string Z)
    (items : list models.InvoiceItem.t) (products : list moysklad.GoMap)
  : list moysklad.JSON * list string :=
  match items, products with
  | item :: items', product :: products' =>
      let rest := assembled invoicePositions items' products' in
      match product with
      | Some _ => (moysklad.position invoicePositions item product :: rest.1, rest.2)
      | None => (rest.1, moysklad.missingItem item :: rest.2)
      end
  | _, _ => ([], [])
  end.

(** The items that resolved to no product. *)
Fixpoint unresolved (items : list models.InvoiceItem.t) (products : list moysklad.GoMap)
  : list models.InvoiceItem.t :=
  match items, products with
  | item :: items', product :: products' =>
      match product with
      | Some _ => unresolved items' products'
      | None => item :: unresolved items' products'
      end
  | _, _ => []
  end.

(** *** Texts of digits *)

Fixpoint all_digits (s : string) : bool :=
  match s with
  | EmptyString => true
  | String a r => strings.is_digit a && all_digits r
  end.

Fixpoint has_digit (s : string) : bool :=
  match s with
  | EmptyString => false
  | String a r => strings.is_digit a || has_digit r
  end.

Definition starts_with_digit (s : string) : bool :=
  match s with
  | EmptyString => false
  | String a _ => strings.is_digit a
  end.

(** The number a text of decimal digits writes. *)
Definition decimalValue (digits : string) : Z :=
  fold_left (fun acc a => 10 * acc + (Z.of_N (N_of_ascii a) - 48))
    (list_ascii_of_string digits) 0.

(** *** Counting and classifying requests *)

(** A computation sends at most [n] requests, all satisfying [P]. *)
Definition sendsWithin {Server A : Type} (n : nat) (P : moysklad.Request -> Prop)
    (m : moysklad.M Server A) : Prop :=
  forall w, exists new,
    moysklad.sent (m w).2 = moysklad.sent w ++ new
    /\ Forall P new /\ (length new <= n)%nat.

Definition shipmentCreation (rq : moysklad.Request) : Prop :=
  moysklad.method rq = "POST" /\ moysklad.endpoint rq = "/entity/demand".

Definition invoiceCreation (rq : moysklad.Request) : Prop :=
  moysklad.method rq = "POST" /\ moysklad.endpoint rq = "/entity/factureout".

(** The requests the engine may send: reads, and the creation of a
    counterparty, a shipment or an invoice. *)
Definition engineRequest (rq : moysklad.Request) : Prop :=
  isGET rq
  \/ (moysklad.method rq = "POST"
      /\ moysklad.endpoint rq
         ∈ ["/entity/counterparty"; "/entity/demand"; "/entity/factureout"]).

(** The searches and fetches of the engine. *)
Definition organizationSearch (inn : string) : moysklad.Request :=
  moysklad.mkRequest "GET" "/entity/organization" None (moysklad.filter ("inn=" +:+ inn)).

Definition invoiceSearch (pattern : string) : moysklad.Request :=
  moysklad.mkRequest "GET" "/entity/invoiceout" None (moysklad.filter pattern).

Definition fetch (baseURL href : string) : moysklad.Request :=
  moysklad.mkRequest "GET" (strings.TrimPrefix href baseURL) None ∅.

(** A call that returned a value. *)
Definition returned {A : Type} (o : moysklad.outcome A) : bool :=
  match o with moysklad.Return _ => true | _ => false end.

(** The shipment-creation request for a document, given the source invoice
    that was found, the store taken from it and the positions assembled: it
    is named after the document number with the prefix of shipments, names
    the two parties and the store, links the source invoice and carries the
    positions. *)
Definition shipmentOf (content : models.UPDContent.t) (moment : string)
    (organization counterparty store : moysklad.GoMap)
    (invoice : gmap string moysklad.JSON) (positions : list moysklad.JSON)
    (rq : moysklad.Request) : Prop :=
  shipmentCreation rq
  /\ moysklad.params rq = ∅
  /\ exists payload,
      moysklad.data rq = Some (moysklad.JObject payload)
      /\ payload !! "name"
         = Some (moysklad.JString ("О" +:+ models.UPDContent.InvoiceNumber content))
      /\ payload !! "moment" = Some (moysklad.JString moment)
      /\ payload !! "organization" = Some (moysklad.metaOf organization)
      /\ payload !! "agent" = Some (moysklad.metaOf counterparty)
      /\ payload !! "store" = Some (moysklad.metaOf store)
      /\ payload !! "vatEnabled" = Some (moysklad.JBool true)
      /\ payload !! "vatIncluded" = Some (moysklad.JBool true)
      /\ payload !! "invoicesOut"
         = Some (moysklad.JArray [moysklad.metaOf (Some invoice)])
      /\ payload !! "positions" = Some (moysklad.JArray positions).

(** The requests of a two-phase upload: requests that create neither a
    shipment nor an invoice, then at most one shipment creation, then reads,
    then at most one invoice creation; [completed] tells whether the upload
    returned a result. *)
Definition twoPhase (new : list moysklad.Request) (completed : bool) : Prop :=
  exists before,
    Forall (fun rq => ~ creation rq) before
    /\ ((new = before /\ completed = false)
        \/ exists shipment between,
            shipmentCreation shipment /\ Forall isGET between
            /\ ((new = before ++ shipment :: between /\ completed = false)
                \/ exists invoice,
                    invoiceCreation invoice
                    /\ new = before ++ shipment :: between ++ [invoice])).

(** The request of [VerifyToken]. *)
Definition tokenCheck : moysklad.Request :=
  moysklad.mkRequest "GET" "/context/employee" None ∅.

(** The error codes of a processing result. *)
Definition errorCodes : list string :=
  ["FILE_TOO_LARGE"; "INVALID_FILE_TYPE"; "TEMP_DIR_ERROR"; "TEMP_FILE_ERROR";
   "PARSING_ERROR"; "MOYSKLAD_API_ERROR"].

(** ** Concrete inputs used by the examples below *)

Module Demo.
Import models parser.

Definition emptyLegal : LegalEntity.t := LegalEntity.mk "" "" "".
Definition emptyIndividual : Individual.t := Individual.mk "" "" "" "".
Definition emptyParty : Party.t := Party.mk emptyLegal emptyIndividual.

(** A main document of 96 characters, 151 bytes in UTF-8. *)
Definition shortDocument : string :=
  "<Файл><СвСчФакт НомерДок='42'/><СвПрод><ИдСв><СвЮЛУч ИННЮЛ='7700000000'/></ИдСв></СвПрод></Файл>".

(** The struct [xml.Unmarshal] fills from [shortDocument]. *)
Definition shortDocumentXML : UPDXML.t :=
  {| UPDXML.Version := "";
     UPDXML.Number := "42";
     UPDXML.Date := "";
     UPDXML.SellerInfo := Party.mk (LegalEntity.mk "" "7700000000" "") emptyIndividual;
     UPDXML.BuyerInfo := emptyParty;
     UPDXML.Items := [];
     UPDXML.TotalWithoutVAT := "";
     UPDXML.TotalWithVAT := "";
     UPDXML.VATSum := "";
     UPDXML.RequisiteNumber := "" |}.

(** The decoder on the documents used below: [shortDocument] decodes to
    [shortDocumentXML], the other documents are rejected. *)
Definition unmarshal (content : string) : result UPDXML.t :=
  if String.eqb content shortDocument then Ok shortDocumentXML
  else Error "xml: document rejected".

(** A main document that is only an XML declaration. *)
Definition stubDocument : string := "<?xml version='1.0' encoding='windows-1251'?>".

(** A main document with a payload that the decoder rejects: it declares an
    encoding for which no [CharsetReader] is installed. *)
Definition undecodableDocument : string :=
  "<?xml version='1.0' encoding='windows-1251'?><Файл><СвСчФакт НомерДок='42'/><ТаблСчФакт/></Файл>".

(** An archive with an index and an entry that climbs out of the target. *)
Definition hostileArchive : list ZipFile.t :=
  [ZipFile.mk "meta.xml" false "<DocumentPackage/>";
   ZipFile.mk "../../etc/passwd" false "root::0:0::/:/bin/sh"].

(** A file system on which every operation succeeds. *)
Definition os_ok (done : list fs_op) (op : fs_op) : option string := None.
Definition zip_ok (file : ZipFile.t) : option string := None.

(** A line item of quantity 1. *)
Definition item (name article : string) (price : decimal.Decimal) : InvoiceItem.t :=
  {| InvoiceItem.LineNumber := 1;
     InvoiceItem.Name := name;
     InvoiceItem.UnitCode := "";
     InvoiceItem.UnitName := "";
     InvoiceItem.Quantity := decimal.NewFromInt 1;
     InvoiceItem.Price := price;
     InvoiceItem.AmountWithoutVAT := price;
     InvoiceItem.VATRate := "20%";
     InvoiceItem.VATAmount := decimal.Zero;
     InvoiceItem.AmountWithVAT := price;
     InvoiceItem.Article := article |}.

(** A position of the source invoice, priced in kopecks. *)
Definition invoicePosition (article name : string) (price : Z) : moysklad.JSON :=
  moysklad.object
    [("assortment",
      moysklad.object
        [("article", moysklad.JString article); ("name", moysklad.JString name)]);
     ("price", moysklad.JNumber (decimal.NewFromInt price))].

(** *** A small external system *)

Definition base : string := "https://api.moysklad.ru/api/remap/1.2".

Definition entity (id name article : string) : gmap string moysklad.JSON :=
  list_to_map
    [("id", moysklad.JString id);
     ("name", moysklad.JString name);
     ("article", moysklad.JString article);
     ("meta", moysklad.object [("href", moysklad.JString (base +:+ "/entity/" +:+ id))])].

Definition gadget : gmap string moysklad.JSON := entity "product/p1" "Gadget" "A1".
Definition widget : gmap string moysklad.JSON := entity "product/p2" "Widget" "B2".
Definition supplier : gmap string moysklad.JSON := entity "organization/o1" "Supplier" "".
Definition store : gmap string moysklad.JSON := entity "store/s1" "Main" "".
Definition customer : gmap string moysklad.JSON := entity "counterparty/c0" "Customer" "".

(** The source invoice 42, with one position priced 150.00. *)
Definition invoice42 : gmap string moysklad.JSON :=
  list_to_map
    [("id", moysklad.JString "i1");
     ("name", moysklad.JString "42");
     ("meta", moysklad.object
                [("href", moysklad.JString (base +:+ "/entity/invoiceout/i1"))]);
     ("store", moysklad.JObject store);
     ("positions",
      moysklad.object [("rows", moysklad.JArray [invoicePosition "A1" "Gadget" 15000])])].

Definition reply (body : moysklad.JSON) : result moysklad.Response :=
  Ok (moysklad.mkResponse 200 "" (Ok body)).

Definition rowsOf (l : list moysklad.JSON) : moysklad.JSON :=
  moysklad.object [("rows", moysklad.JArray l)].

(** The catalog holds Gadget (article A1) and Widget (article B2); the
    organization 7700000000, the counterparty 7800000000 and the invoice 42
    exist. *)
Definition serve (s : unit) (rq : moysklad.Request) : result moysklad.Response * unit :=
  let f := default "" (moysklad.params rq !! "filter") in
  let e := moysklad.endpoint rq in
  (if String.eqb (moysklad.method rq) "GET" then
     if String.eqb e "/entity/organization" then
       reply (rowsOf (if String.eqb f "inn=7700000000"
                      then [moysklad.JObject supplier] else []))
     else if String.eqb e "/entity/counterparty" then
       reply (rowsOf (if String.eqb f "inn=7800000000"
                      then [moysklad.JObject customer] else []))
     else if String.eqb e "/entity/invoiceout" then
       reply (rowsOf (if String.eqb f "name=42" then [moysklad.JObject invoice42] else []))
     else if String.eqb e "/entity/invoiceout/i1" then reply (moysklad.JObject invoice42)
     else if String.eqb e "/entity/invoiceout/i1?expand=positions.assortment" then
       reply (moysklad.JObject invoice42)
     else if String.eqb e "/entity/product" then
       reply (rowsOf (if String.eqb f "article=A1" then [moysklad.JObject gadget]
                      else if String.eqb f "article=B2" then [moysklad.JObject widget]
                      else if String.eqb f "name=Gadget" then [moysklad.JObject gadget]
                      else if String.eqb f "name=Widget" then [moysklad.JObject widget]
                      else []))
     else reply (rowsOf [])
   else
     if String.eqb e "/entity/counterparty" then
       reply (moysklad.JObject (entity "counterparty/c1" "Buyer" ""))
     else if String.eqb e "/entity/demand" then
       reply (moysklad.JObject (entity "demand/d1" "O42" ""))
     else if String.eqb e "/entity/factureout" then
       reply (moysklad.JObject (entity "factureout/f1" "42" ""))
     else Ok (moysklad.mkResponse 404 "not found" (Error "unexpected end of JSON input")),
   s).

Definition world0 : moysklad.World unit := moysklad.mkWorld tt [].

(** A document of seller 7700000000 and buyer 500000000000 referring to the
    invoice 42. *)
Definition document (items : list InvoiceItem.t) : UPDDocument.t :=
  {| UPDDocument.MetaInfo := MetaInfo.mk "flow-1" "doc.xml" "card.xml";
     UPDDocument.CardInfo := CardInfo.mk "upd-1" "UPD" 0 "7700000000" "" "Supplier";
     UPDDocument.Content :=
       {| UPDContent.InvoiceNumber := "42";
          UPDContent.InvoiceDate := 0;
          UPDContent.Seller := Organization.mk "Supplier" "7700000000" "770001001" None;
          UPDContent.Buyer := Organization.mk "Buyer" "500000000000" "" None;
          UPDContent.Items := items;
          UPDContent.CurrencyCode := "643";
          UPDContent.TotalWithoutVAT := decimal.Zero;
          UPDContent.TotalVAT := decimal.Zero;
          UPDContent.TotalWithVAT := decimal.Zero;
          UPDContent.RequisiteNumber := "42" |} |}.

(** Three line items: the first is in the catalog under its code, the other
    two are not in the catalog. *)
Definition order : list InvoiceItem.t :=
  [item "Widget" "A1" (decimal.New 9900 (-2));
   item "Unknown" "" (decimal.New 1 0);
   item "Ghost" "Z9" (decimal.New 1 0)].

Definition time_Format (t : Time) : string := "1970-01-01 00:00:00.000".
Definition fmt_s (v : moysklad.JSON) : string :=
  match v with moysklad.JString s => s | _ => "%!s(<nil>)" end.

(** A main document whose transfer basis is a free text with a number. *)
Definition basisXML : UPDXML.t :=
  {| UPDXML.Version := "5.03";
     UPDXML.Number := "УПД-7";
     UPDXML.Date := "01.02.2024";
     UPDXML.SellerInfo := Party.mk (LegalEntity.mk "Supplier" "7700000000" "770001001")
                            emptyIndividual;
     UPDXML.BuyerInfo := Party.mk emptyLegal (Individual.mk "500000000000" "Иванов" "Иван" "");
     UPDXML.Items :=
       [XMLItem.mk "Gadget" "2" "99.00" "165.00" "20%" "198.00" "A1" "33.00";
        XMLItem.mk "Widget" "1" "50" "" "без НДС" "50" "" ""];
     UPDXML.TotalWithoutVAT := "215.00";
     UPDXML.TotalWithVAT := "248.00";
     UPDXML.VATSum := "33.00";
     UPDXML.RequisiteNumber := "Счет № 42 от 15.01.2024" |}.

(** *** A small file system and a well-formed archive *)

(** The data last copied to a path in a history of operations. *)
Fixpoint written (done : list fs_op) (path : string) : option string :=
  match done with
  | [] => None
  | op :: rest =>
      match written rest path with
      | Some data => Some data
      | None =>
          match op with
          | Copy p data => if String.eqb p path then Some data else None
          | _ => None
          end
      end
  end.

Definition isNotExist (done : list fs_op) (path : string) : bool :=
  match written done path with Some _ => false | None => true end.

(** Files are read back as they were written; their text is taken as
    already decoded. *)
Definition readFile (done : list fs_op) (path : string) : result string :=
  match written done path with
  | Some data => Ok data
  | None => Error "no such file or directory"
  end.

Definition metaText : string :=
  "<DocumentPackage><DocFlow Id='flow-1'><MainImage Path='doc.xml'/><ExternalCard Path='card.xml'/></DocFlow></DocumentPackage>".

Definition cardText : string :=
  "<Card><Identifiers ExternalIdentifier='upd-1'/><Description Title='UPD' Date='2024-02-01T10:00:00Z'/></Card>".

Definition goodArchive : list ZipFile.t :=
  [ZipFile.mk "meta.xml" false metaText;
   ZipFile.mk "docs/" true "";
   ZipFile.mk "card.xml" false cardText;
   ZipFile.mk "doc.xml" false shortDocument].

(** The decoders on the texts of [goodArchive]. *)
Definition unmarshalMeta (data : string) : result (list DocFlow.t) :=
  if String.eqb data metaText then Ok [DocFlow.mk "flow-1" "doc.xml" "card.xml"]
  else Error "xml: document rejected".

Definition unmarshalCard (content : string) : result CardXML.t :=
  if String.eqb content cardText
  then Ok (CardXML.mk "upd-1" "UPD" "2024-02-01T10:00:00Z" "" "" "")
  else Error "xml: document rejected".

(** 2024-02-01T10:00:00+00:00 as seconds since the epoch. *)
Definition parseRFC3339 (value : string) : option Time :=
  if String.eqb value "2024-02-01T10:00:00+00:00" then Some 1706781600 else None.

(** [ParseUPDArchive] on this file system. *)
Definition parseArchive (archive : list ZipFile.t) (zipPath : string)
    (done : list fs_op) : result UPDDocument.t * list fs_op :=
  parser.ParseUPDArchive (fun _ => Ok archive) os_ok zip_ok isNotExist readFile readFile
    unmarshalMeta unmarshalCard unmarshal parseRFC3339 (fun _ => None) 5 7 zipPath done.

(** The document the parser returns for a stub main file. *)
Definition basicDocument : UPDDocument.t :=
  {| UPDDocument.MetaInfo := MetaInfo.mk "flow-1" "doc.xml" "card.xml";
     UPDDocument.CardInfo := CardInfo.mk "upd-1" "UPD" 0 "" "" "";
     UPDDocument.Content := parser.createBasicUPDContent 0 |}.

(** Two line items that are both in the catalog, the first under its code,
    the second under its name. *)
Definition knownOrder : list InvoiceItem.t :=
  [item "Widget" "A1" (decimal.New 9900 (-2));
   item "Gadget" "" (decimal.New 12345 (-3))].

(** A document like [document knownOrder] but without a reference to a
    source invoice. *)
Definition unreferenced : UPDDocument.t :=
  {| UPDDocument.MetaInfo := MetaInfo.mk "flow-1" "doc.xml" "card.xml";
     UPDDocument.CardInfo := CardInfo.mk "upd-1" "UPD" 0 "7700000000" "" "Supplier";
     UPDDocument.Content :=
       {| UPDContent.InvoiceNumber := "42";
          UPDContent.InvoiceDate := 0;
          UPDContent.Seller := Organization.mk "Supplier" "7700000000" "770001001" None;
          UPDContent.Buyer := Organization.mk "Buyer" "500000000000" "" None;
          UPDContent.Items := knownOrder;
          UPDContent.CurrencyCode := "643";
          UPDContent.TotalWithoutVAT := decimal.Zero;
          UPDContent.TotalVAT := decimal.Zero;
          UPDContent.TotalWithVAT := decimal.Zero;
          UPDContent.RequisiteNumber := "" |} |}.

(** The same external system with one service in its list. *)
Definition delivery : gmap string moysklad.JSON := entity "service/s9" "Delivery" "".

Definition serveWithService (s : unit) (rq : moysklad.Request)
  : result moysklad.Response * unit :=
  if String.eqb (moysklad.method rq) "GET"
     && String.eqb (moysklad.endpoint rq) "/entity/service"
  then (reply (rowsOf [moysklad.JObject delivery]), s)
  else serve s rq.

(** *** A processor on the small file system and external system *)

Definition cfg : config.Config :=
  config.mkConfig "bot" [1] "token" base "" "temp" "INFO" 10485760 "windows-1251".

(** [ioutil.TempFile] always generating the same name. *)
Definition tempFile (done : list fs_op) (dir pattern : string) : result string :=
  Ok (dir +:+ "/upd_1.zip").

(** [strings.ToLower] on ASCII letters. *)
Fixpoint toLower (s : string) : string :=
  match s with
  | EmptyString => EmptyString
  | String a r =>
      let n := Ascii.N_of_ascii a in
      String (if (65 <=? n)%N && (n <=? 90)%N then Ascii.ascii_of_N (n + 32) else a)
        (toLower r)
  end.

(** [ProcessUPDFile] of a processor whose uploads all contain [archive]. *)
Definition processFile (archive : list ZipFile.t)
    (os_error : list fs_op -> fs_op -> option string) (fileContent filename : string)
    (st : list fs_op * moysklad.World unit)
  : option ProcessingResult.t * (list fs_op * moysklad.World unit) :=
  processor.ProcessUPDFile cfg unit serve (fun _ => Ok archive) os_error zip_ok
    isNotExist readFile readFile unmarshalMeta unmarshalCard unmarshal parseRFC3339
    (fun _ => None) tempFile toLower time_Format time_Format (fun _ => "0.00") fmt_s
    5 7 fileContent filename st.

(** A file system on which the directory [docs] of the scratch directory
    cannot be made. *)
Definition docsBlocked (done : list fs_op) (op : fs_op) : option string :=
  match op with
  | MkdirAll path =>
      if String.eqb path "temp/upd_extract/docs" then Some "not a directory" else None
  | _ => None
  end.

(** A file system on which nothing can be written. *)
Definition diskFull (done : list fs_op) (op : fs_op) : option string :=
  match op with
  | Copy _ _ => Some "no space left on device"
  | _ => None
  end.

End Demo.

(** * Properties *)

Import models.

(** ** Safe decimal conversion *)

(** C8. [parseDecimal] is total and never fails: every text yields a decimal,
    which is zero or the value the decimal library reads from the text; the
    empty text and [abc] yield [decimal.Zero], which compares equal to 0, and
    [12.50] yields 1250 * 10^-2, which compares equal to 12.5. *)
Theorem parseDecimal_total :
  (forall s : string,
      exists d, parser.parseDecimal s = d
                /\ (d = decimal.Zero \/ decimal.NewFromString s = Some d))
  /\ parser.parseDecimal "" = decimal.Zero
  /\ parser.parseDecimal "abc" = decimal.Zero
  /\ parser.parseDecimal "12.50" = decimal.New 1250 (-2)
  /\ decimal.Cmp decimal.Zero (decimal.NewFromInt 0) = Eq
  /\ decimal.Cmp (parser.parseDecimal "12.50") (decimal.New 125 (-1)) = Eq.
Proof.
  split; [| repeat split; reflexivity].
  intros s. exists (parser.parseDecimal s). split; [reflexivity |].
  unfold parser.parseDecimal.
  destruct (String.eqb s ""); [now left |].
  destruct (decimal.NewFromString s) as [d |]; [now right | now left].
Qed.

(** ** Organizations always carry a tax id *)

Lemma eqb_false_ne (s t : string) : String.eqb s t = false -> s <> t.
Proof. intros H ->. rewrite String.eqb_refl in H. discriminate. Qed.

Lemma parseOrganization_INN (legalName legalINN legalKPP individualINN
    surname name patronymic : string) :
  Organization.INN
    (parser.parseOrganization legalName legalINN legalKPP individualINN
       surname name patronymic) <> "".
Proof.
  unfold parser.parseOrganization.
  destruct (String.eqb legalINN "") eqn:E1; simpl.
  - destruct (String.eqb individualINN "") eqn:E2; simpl.
    + discriminate.
    + now apply eqb_false_ne.
  - now apply eqb_false_ne.
Qed.

(** C9. The tax id of a parsed organization is never empty: in the legal
    branch, in the individual branch and in the default branch of
    [parseOrganization], for the seller and the buyer of every document
    [parseUPDContent] returns, and in the fallback document; when neither
    branch supplies a tax id the organization is the placeholder named
    "Не указано" with tax id "0000000000". *)
Theorem organization_tax_id_never_empty :
  (forall legalName legalINN legalKPP individualINN surname name patronymic,
      Organization.INN
        (parser.parseOrganization legalName legalINN legalKPP individualINN
           surname name patronymic) <> "")
  /\ (forall legalName legalKPP surname name patronymic,
      parser.parseOrganization legalName "" legalKPP "" surname name patronymic
      = Organization.mk "Не указано" "0000000000" "" None)
  /\ (forall now,
      UPDContent.Seller (parser.createBasicUPDContent now)
      = Organization.mk "Не указано" "0000000000" "" None
      /\ UPDContent.Buyer (parser.createBasicUPDContent now)
         = Organization.mk "Не указано" "0000000000" "" None)
  /\ (forall xml_Unmarshal time_Parse os_IsNotExist readFileWithEncoding
             now extractDir mainDocumentPath,
      match parser.parseUPDContent xml_Unmarshal time_Parse os_IsNotExist
              readFileWithEncoding now extractDir mainDocumentPath with
      | Ok content =>
          Organization.INN (UPDContent.Seller content) <> ""
          /\ Organization.INN (UPDContent.Buyer content) <> ""
      | Error _ => True
      end).
Proof.
  split; [exact parseOrganization_INN |].
  split; [reflexivity |].
  split; [now split |].
  intros. unfold parser.parseUPDContent.
  destruct (os_IsNotExist _); [exact I |].
  destruct (readFileWithEncoding _) as [content | err]; [| exact I].
  destruct (_ <=? _)%nat.
  - simpl. split; discriminate.
  - unfold parser.parseFullUPDContent.
    destruct (xml_Unmarshal content) as [upd | err].
    + simpl. split; apply parseOrganization_INN.
    + simpl. split; discriminate.
Qed.

(** ** Line items *)

(** C10. In every parsed line item [AmountWithoutVAT] is read from the
    source item's amount including VAT: it equals [AmountWithVAT], and
    replacing the source's amount-without-VAT attributes by anything else
    leaves the parsed items unchanged. *)
Theorem amount_without_vat_from_amount_with_vat (xmlItems : list parser.XMLItem.t) :
  Forall (fun item => InvoiceItem.AmountWithoutVAT item = InvoiceItem.AmountWithVAT item)
    (parser.parseInvoiceItems xmlItems)
  /\ (forall (i : nat) (x : parser.XMLItem.t),
      xmlItems !! i = Some x ->
      InvoiceItem.AmountWithoutVAT <$> (parser.parseInvoiceItems xmlItems !! i)
      = Some (parser.parseDecimal (parser.XMLItem.AmountWithVAT x)))
  /\ (forall other : parser.XMLItem.t -> string,
      parser.parseInvoiceItems
        ((fun x => withAmountWithoutVAT (other x) x) <$> xmlItems)
      = parser.parseInvoiceItems xmlItems).
Proof.
  unfold parser.parseInvoiceItems. repeat split.
  - apply Forall_forall. intros item Hin.
    apply elem_of_lookup_imap in Hin.
    destruct Hin as (i & x & -> & _). reflexivity.
  - intros i x Hx. rewrite list_lookup_imap, Hx. reflexivity.
  - intros other. rewrite imap_fmap. apply imap_ext.
    intros i x _. reflexivity.
Qed.

(** ** The fallback document *)

(** C1 (counterexample). The threshold of [parseUPDContent] is on the byte
    length of the text: a main document of 96 characters, which is 151 bytes
    of UTF-8, is parsed in full and yields invoice number 42, not the
    fallback document. *)
Lemma stub_threshold_is_in_bytes :
  (strings.RuneCount (strings.TrimSpace Demo.shortDocument) <= 100)%nat
  /\ String.length (strings.TrimSpace Demo.shortDocument) = 151%nat
  /\ parser.parseUPDContent Demo.unmarshal (fun _ => None) (fun _ => false)
       (fun _ => Ok Demo.shortDocument) 0 "temp/upd_extract" "ON_NSCHFDOPPR.xml"
     <> Ok (parser.createBasicUPDContent 0)
  /\ UPDContent.InvoiceNumber <$>
       match parser.parseUPDContent Demo.unmarshal (fun _ => None) (fun _ => false)
               (fun _ => Ok Demo.shortDocument) 0 "temp/upd_extract" "ON_NSCHFDOPPR.xml" with
       | Ok content => Some content
       | Error _ => None
       end = Some "42".
Proof.
  split; [vm_compute; lia |].
  split; [vm_compute; reflexivity |].
  split; [| vm_compute; reflexivity].
  intros H. vm_compute in H. discriminate H.
Qed.

(** C1 (amended). A main document whose text, after trimming white space, is
    at most 100 bytes long is parsed to the fallback document whatever it
    contains, and so is a main document on which the XML decoder reports a
    structural error; no error is returned.  The fallback document has
    invoice number "Не указан", seller and buyer "Не указано" with tax id
    "0000000000", the current time and no line items. *)
Theorem stub_document_falls_back
    (xml_Unmarshal : string -> result parser.UPDXML.t)
    (time_Parse : string -> option Time)
    (os_IsNotExist : string -> bool)
    (readFileWithEncoding : string -> result string)
    (now : Time) (extractDir mainDocumentPath content : string) :
  os_IsNotExist (filepath.Join extractDir mainDocumentPath) = false ->
  readFileWithEncoding (filepath.Join extractDir mainDocumentPath) = Ok content ->
  (String.length (strings.TrimSpace content) <= 100)%nat
  \/ (exists err, xml_Unmarshal content = Error err) ->
  parser.parseUPDContent xml_Unmarshal time_Parse os_IsNotExist readFileWithEncoding
    now extractDir mainDocumentPath
  = Ok (parser.createBasicUPDContent now)
  /\ parser.createBasicUPDContent now
     = {| UPDContent.InvoiceNumber := "Не указан";
          UPDContent.InvoiceDate := now;
          UPDContent.Seller := Organization.mk "Не указано" "0000000000" "" None;
          UPDContent.Buyer := Organization.mk "Не указано" "0000000000" "" None;
          UPDContent.Items := [];
          UPDContent.CurrencyCode := "643";
          UPDContent.TotalWithoutVAT := decimal.Zero;
          UPDContent.TotalVAT := decimal.Zero;
          UPDContent.TotalWithVAT := decimal.Zero;
          UPDContent.RequisiteNumber := "" |}.
Proof.
  intros Hstat Hread Hcase. split; [| reflexivity].
  unfold parser.parseUPDContent. rewrite Hstat, Hread.
  destruct (String.length (strings.TrimSpace content) <=? 100)%nat eqn:Hlen;
    [reflexivity |].
  destruct Hcase as [Hle | [err Herr]].
  - apply Nat.leb_gt in Hlen. lia.
  - unfold parser.parseFullUPDContent. rewrite Herr. reflexivity.
Qed.

Lemma stub_document_falls_back_witness :
  parser.parseUPDContent Demo.unmarshal (fun _ => None) (fun _ => false)
    (fun _ => Ok Demo.stubDocument) 0 "temp/upd_extract" "ON_NSCHFDOPPR.xml"
  = Ok (parser.createBasicUPDContent 0)
  /\ parser.parseUPDContent Demo.unmarshal (fun _ => None) (fun _ => false)
       (fun _ => Ok Demo.undecodableDocument) 0 "temp/upd_extract" "ON_NSCHFDOPPR.xml"
     = Ok (parser.createBasicUPDContent 0).
Proof.
  split.
  - apply (stub_document_falls_back Demo.unmarshal (fun _ => None) (fun _ => false)
             (fun _ => Ok Demo.stubDocument) 0 "temp/upd_extract" "ON_NSCHFDOPPR.xml"
             Demo.stubDocument).
    + reflexivity.
    + reflexivity.
    + left. vm_compute. lia.
  - apply (stub_document_falls_back Demo.unmarshal (fun _ => None) (fun _ => false)
             (fun _ => Ok Demo.undecodableDocument) 0 "temp/upd_extract"
             "ON_NSCHFDOPPR.xml" Demo.undecodableDocument).
    + reflexivity.
    + reflexivity.
    + right. exists "xml: document rejected". vm_compute. reflexivity.
Defined.

(** ** Archive extraction *)

#[local] Arguments filepath.Join : simpl never.
#[local] Arguments filepath.Clean : simpl never.
#[local] Arguments filepath.Dir : simpl never.
#[local] Arguments strings.HasPrefix : simpl never.
#[local] Arguments String.append : simpl never.

Section ExtractionProperties.
Variable os_error : list parser.fs_op -> parser.fs_op -> option string.
Variable zip_Open_error : parser.ZipFile.t -> option string.
Variable extractDir : string.

Let extractFiles := parser.extractFiles os_error zip_Open_error extractDir.

Ltac ops_inside Hin Hmk :=
  repeat first
    [ apply Forall_nil_2
    | apply Forall_cons_2; [first [exact Hmk | exact Hin | left; exact Hin] |] ].

(** Every operation the loop attempts stays inside the scratch directory. *)
Lemma extractFiles_trace (files : list parser.ZipFile.t) :
  forall done, exists new,
    (extractFiles files done).2 = done ++ new /\ Forall (op_inside extractDir) new.
Proof.
  unfold extractFiles.
  induction files as [| file rest IH]; intros done; simpl.
  - exists []. split; [now rewrite app_nil_r | constructor].
  - destruct (strings.HasPrefix _ _) eqn:Hin; simpl.
    2: { exists []. split; [now rewrite app_nil_r | constructor]. }
    assert (Hmk : op_inside extractDir
                    (parser.MkdirAll
                       (filepath.Dir
                          (filepath.Join extractDir (parser.ZipFile.Name file))))).
    { right. eexists. split; [exact Hin | reflexivity]. }
    destruct (parser.ZipFile.IsDir file).
    { destruct (IH (done ++ [parser.MkdirAll
                               (filepath.Join extractDir (parser.ZipFile.Name file))]))
        as (new & -> & Hnew).
      eexists. rewrite <- app_assoc. split; [reflexivity |].
      constructor; [now left | exact Hnew]. }
    destruct (os_error done _); simpl.
    { eexists. split; [reflexivity | ops_inside Hin Hmk]. }
    destruct (zip_Open_error file); simpl.
    { eexists. split; [reflexivity | ops_inside Hin Hmk]. }
    destruct (os_error _ (parser.OpenFile _)); simpl.
    { eexists. rewrite <- app_assoc. split; [reflexivity | ops_inside Hin Hmk]. }
    destruct (os_error _ (parser.Copy _ _)); simpl.
    { eexists. rewrite <- !app_assoc. split; [reflexivity | ops_inside Hin Hmk]. }
    match goal with
    | |- context [parser.extractFiles _ _ _ rest ?d] =>
        destruct (IH d) as (new & -> & Hnew)
    end.
    eexists. rewrite <- !app_assoc. split; [reflexivity |].
    simpl. ops_inside Hin Hmk. exact Hnew.
Qed.

(** An archive with an escaping entry is never extracted successfully. *)
Lemma extractFiles_escape_fails (files : list parser.ZipFile.t) :
  Exists (escapes extractDir) files ->
  forall done, exists err, (extractFiles files done).1 = Error err.
Proof.
  unfold extractFiles.
  induction files as [| file rest IH]; intros Hex done; [inversion Hex |].
  simpl. destruct (strings.HasPrefix _ _) eqn:Hin; simpl; [| eauto].
  assert (Hrest : Exists (escapes extractDir) rest).
  { inversion Hex as [? ? Hesc | ]; subst; [| assumption].
    unfold escapes in Hesc. congruence. }
  destruct (parser.ZipFile.IsDir file); [now apply IH |].
  destruct (os_error done _); simpl; [eauto |].
  destruct (zip_Open_error file); simpl; [eauto |].
  destruct (os_error _ (parser.OpenFile _)); simpl; [eauto |].
  destruct (os_error _ (parser.Copy _ _)); simpl; [eauto |].
  now apply IH.
Qed.

(** When the entries before it are extracted, the escaping entry is the one
    reported, and nothing is attempted for it or after it. *)
Lemma extractFiles_escape_reported (before after : list parser.ZipFile.t)
    (file : parser.ZipFile.t) :
  escapes extractDir file ->
  forall done done1,
    extractFiles before done = (Ok tt, done1) ->
    extractFiles (before ++ file :: after) done
    = (Error ("invalid file path: " +:+ parser.ZipFile.Name file), done1).
Proof.
  unfold extractFiles. intros Hesc.
  induction before as [| entry rest IH]; intros done done1 Hrun; simpl in *.
  - unfold escapes in Hesc. rewrite Hesc. simpl. congruence.
  - destruct (strings.HasPrefix _ _); simpl in *; [| discriminate].
    destruct (parser.ZipFile.IsDir entry); [now apply IH |].
    destruct (os_error done _); simpl in *; [discriminate |].
    destruct (zip_Open_error entry); simpl in *; [discriminate |].
    destruct (os_error _ (parser.OpenFile _)); simpl in *; [discriminate |].
    destruct (os_error _ (parser.Copy _ _)); simpl in *; [discriminate |].
    now apply IH.
Qed.

End ExtractionProperties.

(** C5. When an entry of the archive resolves to a path that is not strictly
    inside the scratch directory, extraction fails; every file the extractor
    creates or writes, and every directory it makes for an entry, lies inside
    the scratch directory; and when the entries before the offending one were
    extracted, the error is the invalid-path error naming that entry, with
    nothing attempted for it. *)
Theorem path_traversal_is_rejected
    (zip_OpenReader : string -> result (list parser.ZipFile.t))
    (os_error : list parser.fs_op -> parser.fs_op -> option string)
    (zip_Open_error : parser.ZipFile.t -> option string)
    (zipPath : string) (before after : list parser.ZipFile.t)
    (file : parser.ZipFile.t) (done : list parser.fs_op) :
  zip_OpenReader zipPath = Ok (before ++ file :: after) ->
  escapes (scratchDir zipPath) file ->
  (exists err,
      (parser.extractArchive zip_OpenReader os_error zip_Open_error zipPath done).1
      = Error err)
  /\ (exists new,
      (parser.extractArchive zip_OpenReader os_error zip_Open_error zipPath done).2
      = done ++ parser.MkdirAll (scratchDir zipPath) :: new
      /\ Forall (op_inside (scratchDir zipPath)) new)
  /\ (forall done1,
      os_error done (parser.MkdirAll (scratchDir zipPath)) = None ->
      parser.extractFiles os_error zip_Open_error (scratchDir zipPath) before
        (done ++ [parser.MkdirAll (scratchDir zipPath)]) = (Ok tt, done1) ->
      parser.extractArchive zip_OpenReader os_error zip_Open_error zipPath done
      = (Error ("invalid file path: " +:+ parser.ZipFile.Name file), done1)).
Proof.
  intros Hopen Hesc. unfold parser.extractArchive. rewrite Hopen.
  fold (scratchDir zipPath).
  destruct (os_error done (parser.MkdirAll (scratchDir zipPath))) as [err |] eqn:Hmk.
  { split; [eauto |]. split; [| discriminate].
    exists []. split; [reflexivity | constructor]. }
  split; [| split].
  - destruct (extractFiles_escape_fails os_error zip_Open_error (scratchDir zipPath)
                (before ++ file :: after)
                ltac:(apply Exists_app; right; now constructor)
                (done ++ [parser.MkdirAll (scratchDir zipPath)])) as [err Herr].
    destruct (parser.extractFiles _ _ _ _ _) as [[u | msg] done']; simpl in *; eauto.
    discriminate.
  - destruct (extractFiles_trace os_error zip_Open_error (scratchDir zipPath)
                (before ++ file :: after)
                (done ++ [parser.MkdirAll (scratchDir zipPath)])) as (new & Hnew & Hall).
    exists new. split; [| exact Hall].
    destruct (parser.extractFiles _ _ _ _ _) as [[u | msg] done']; simpl in *;
      rewrite Hnew, <- app_assoc; reflexivity.
  - intros done1 _ Hrun.
    rewrite (extractFiles_escape_reported os_error zip_Open_error (scratchDir zipPath)
               before after file Hesc _ _ Hrun).
    reflexivity.
Qed.

Lemma path_traversal_is_rejected_witness :
  escapes "temp/upd_extract" (parser.ZipFile.mk "../../etc/passwd" false "root::0:0::/:/bin/sh")
  /\ parser.extractArchive (fun _ => Ok Demo.hostileArchive) Demo.os_ok Demo.zip_ok
       "temp/upd_1111.zip" []
     = (Error "invalid file path: ../../etc/passwd",
        [parser.MkdirAll "temp/upd_extract";
         parser.MkdirAll "temp/upd_extract";
         parser.OpenFile "temp/upd_extract/meta.xml";
         parser.Copy "temp/upd_extract/meta.xml" "<DocumentPackage/>"]).
Proof.
  split; [vm_compute; reflexivity |].
  apply (path_traversal_is_rejected (fun _ => Ok Demo.hostileArchive) Demo.os_ok
           Demo.zip_ok "temp/upd_1111.zip"
           [parser.ZipFile.mk "meta.xml" false "<DocumentPackage/>"] []
           (parser.ZipFile.mk "../../etc/passwd" false "root::0:0::/:/bin/sh") []).
  - reflexivity.
  - vm_compute. reflexivity.
  - reflexivity.
  - vm_compute. reflexivity.
Defined.

(** C4 (counterexample). Two requests whose temporary archives are distinct
    files of the same directory extract into the same directory. *)
Lemma scratch_directory_is_shared :
  "temp/upd_1111.zip" <> "temp/upd_2222.zip"
  /\ filepath.Dir "temp/upd_1111.zip" = filepath.Dir "temp/upd_2222.zip"
  /\ (parser.extractArchive (fun _ => Ok []) Demo.os_ok Demo.zip_ok
        "temp/upd_1111.zip" []).1 = Ok "temp/upd_extract"
  /\ (parser.extractArchive (fun _ => Ok []) Demo.os_ok Demo.zip_ok
        "temp/upd_2222.zip" []).1 = Ok "temp/upd_extract".
Proof.
  split; [discriminate |]. repeat split; vm_compute; reflexivity.
Qed.

(** C4 (amended). The scratch directory of a request is the fixed name
    [upd_extract] inside the directory of its temporary archive, and it is the
    directory [CleanupTempFiles] removes; two requests whose temporary
    archives lie in the same directory extract into the same directory. *)
Theorem scratch_directory_has_fixed_name
    (zip_OpenReader : string -> result (list parser.ZipFile.t))
    (os_error : list parser.fs_op -> parser.fs_op -> option string)
    (zip_Open_error : parser.ZipFile.t -> option string)
    (zipPath1 zipPath2 dir1 dir2 : string) (done1 done2 trace1 trace2 : list parser.fs_op) :
  parser.extractArchive zip_OpenReader os_error zip_Open_error zipPath1 done1
  = (Ok dir1, trace1) ->
  parser.extractArchive zip_OpenReader os_error zip_Open_error zipPath2 done2
  = (Ok dir2, trace2) ->
  dir1 = filepath.Join (filepath.Dir zipPath1) "upd_extract"
  /\ parser.CleanupTempFiles zipPath1 trace1
     = trace1 ++ [parser.Remove zipPath1; parser.RemoveAll dir1]
  /\ (filepath.Dir zipPath1 = filepath.Dir zipPath2 -> dir1 = dir2).
Proof.
  assert (Hdir : forall zipPath done dir trace,
             parser.extractArchive zip_OpenReader os_error zip_Open_error zipPath done
             = (Ok dir, trace) ->
             dir = filepath.Join (filepath.Dir zipPath) "upd_extract").
  { intros zipPath done dir trace. unfold parser.extractArchive.
    destruct (zip_OpenReader zipPath); [| discriminate].
    destruct (os_error done _); [discriminate |].
    destruct (parser.extractFiles _ _ _ _ _) as [[u | msg] done']; congruence. }
  intros H1 H2. apply Hdir in H1, H2. subst dir1 dir2.
  split; [reflexivity |]. split; [reflexivity |].
  intros ->. reflexivity.
Qed.

Lemma scratch_directory_has_fixed_name_witness :
  "temp/upd_extract" = filepath.Join (filepath.Dir "temp/upd_1111.zip") "upd_extract"
  /\ parser.CleanupTempFiles "temp/upd_1111.zip" [parser.MkdirAll "temp/upd_extract"]
     = [parser.MkdirAll "temp/upd_extract"]
       ++ [parser.Remove "temp/upd_1111.zip"; parser.RemoveAll "temp/upd_extract"]
  /\ (filepath.Dir "temp/upd_1111.zip" = filepath.Dir "temp/upd_2222.zip" ->
      "temp/upd_extract" = "temp/upd_extract").
Proof.
  apply (scratch_directory_has_fixed_name (fun _ => Ok []) Demo.os_ok Demo.zip_ok
           "temp/upd_1111.zip" "temp/upd_2222.zip" "temp/upd_extract" "temp/upd_extract"
           [] [] [parser.MkdirAll "temp/upd_extract"] [parser.MkdirAll "temp/upd_extract"]).
  - vm_compute. reflexivity.
  - vm_compute. reflexivity.
Defined.

(** ** Price precedence *)

(** C3 (counterexample). The source invoice records price 0 under catalog
    code A1; for the parsed item A1 priced 99.00 the assembled price is the
    document's 9900 kopecks, not the recorded price. *)
Lemma recorded_price_must_be_positive :
  let invoicePositions :=
    moysklad.parsePositions [Demo.invoicePosition "A1" "Gadget" 0] ∅ in
  let item := Demo.item "Gadget" "A1" (decimal.New 9900 (-2)) in
  invoicePositions !! "article:A1" = Some 0
  /\ specPrice invoicePositions item = 0
  /\ moysklad.positionPrice invoicePositions item = 9900.
Proof. repeat split; vm_compute; reflexivity. Qed.

(** The guard of the name lookup compares prices: a price recorded under the
    code that equals the document's own price is overridden by the price
    recorded under the name. *)
Example equal_code_price_is_overridden_by_name :
  let invoicePositions :=
    moysklad.parsePositions
      [Demo.invoicePosition "A1" "Gadget" 9900; Demo.invoicePosition "B2" "Widget" 5000] ∅ in
  let item := Demo.item "Widget" "A1" (decimal.New 9900 (-2)) in
  invoicePositions !! "article:A1" = Some 9900
  /\ moysklad.positionPrice invoicePositions item = 5000.
Proof. repeat split; vm_compute; reflexivity. Qed.

(** C3 (amended). For a resolved item the assembled price is: the positive
    price the source invoice records under the item's catalog code, when it
    differs from the document's own price in kopecks; when no positive price
    is recorded under the code, the positive price recorded under the item's
    name; and when neither is recorded, the document's own unit price times
    100, truncated.  A source position priced 15000 kopecks under code A1 and
    a parsed item A1 priced 99.00 give 15000. *)
Theorem price_precedence (invoicePositions : gmap string Z) (item : InvoiceItem.t) :
  let codeKey := "article:" +:+ InvoiceItem.Article item in
  let nameKey := "name:" +:+ InvoiceItem.Name item in
  let noCodePrice :=
    InvoiceItem.Article item = ""
    \/ invoicePositions !! codeKey = None
    \/ (exists price, invoicePositions !! codeKey = Some price /\ price <= 0) in
  (forall price,
      InvoiceItem.Article item <> "" ->
      invoicePositions !! codeKey = Some price ->
      0 < price ->
      price <> moysklad.updPriceKopecks item ->
      moysklad.positionPrice invoicePositions item = price)
  /\ (forall price,
      noCodePrice ->
      invoicePositions !! nameKey = Some price ->
      0 < price ->
      moysklad.positionPrice invoicePositions item = price)
  /\ (noCodePrice ->
      invoicePositions !! nameKey = None
      \/ (exists price, invoicePositions !! nameKey = Some price /\ price <= 0) ->
      moysklad.positionPrice invoicePositions item
      = decimal.IntPart (decimal.Mul (InvoiceItem.Price item) (decimal.NewFromInt 100)))
  /\ moysklad.positionPrice
       (moysklad.parsePositions [Demo.invoicePosition "A1" "Gadget" 15000] ∅)
       (Demo.item "Gadget" "A1" (decimal.New 9900 (-2))) = 15000.
Proof.
  intros codeKey nameKey noCodePrice.
  assert (Hno : noCodePrice ->
                moysklad.positionPrice invoicePositions item
                = match invoicePositions !! nameKey with
                  | Some price =>
                      if 0 <? price then price else moysklad.updPriceKopecks item
                  | None => moysklad.updPriceKopecks item
                  end).
  { unfold moysklad.positionPrice. fold codeKey nameKey.
    intros [Hart | [Hnone | (price & Hsome & Hle)]].
    - rewrite Hart. simpl. now rewrite Z.eqb_refl.
    - rewrite Hnone. destruct (negb _); now rewrite Z.eqb_refl.
    - rewrite Hsome. destruct (0 <? price) eqn:Hpos; [apply Z.ltb_lt in Hpos; lia |].
      destruct (negb _); now rewrite Z.eqb_refl. }
  repeat split.
  - intros price Hart Hsome Hpos Hne.
    unfold moysklad.positionPrice. fold codeKey nameKey.
    apply String.eqb_neq in Hart. rewrite Hart, Hsome. simpl.
    apply Z.ltb_lt in Hpos. rewrite Hpos.
    apply Z.eqb_neq in Hne. now rewrite Hne.
  - intros price Hcode Hsome Hpos. rewrite (Hno Hcode), Hsome.
    apply Z.ltb_lt in Hpos. now rewrite Hpos.
  - intros Hcode [Hnone | (price & Hsome & Hle)]; rewrite (Hno Hcode).
    + now rewrite Hnone.
    + rewrite Hsome. destruct (0 <? price) eqn:Hpos; [apply Z.ltb_lt in Hpos; lia |].
      reflexivity.
Qed.

Lemma price_precedence_witness :
  moysklad.positionPrice
    (moysklad.parsePositions [Demo.invoicePosition "A1" "Gadget" 15000] ∅)
    (Demo.item "Gadget" "A1" (decimal.New 9900 (-2))) = 15000
  /\ moysklad.positionPrice
       (moysklad.parsePositions [Demo.invoicePosition "B2" "Widget" 5000] ∅)
       (Demo.item "Widget" "A1" (decimal.New 9900 (-2))) = 5000
  /\ moysklad.positionPrice
       (moysklad.parsePositions [Demo.invoicePosition "B2" "Widget" 5000] ∅)
       (Demo.item "Gadget" "" (decimal.New 12345 (-3))) = 1234.
Proof.
  split; [| split].
  - apply (proj1
             (price_precedence
                (moysklad.parsePositions [Demo.invoicePosition "A1" "Gadget" 15000] ∅)
                (Demo.item "Gadget" "A1" (decimal.New 9900 (-2))))).
    + discriminate.
    + vm_compute. reflexivity.
    + lia.
    + vm_compute. discriminate.
  - apply (proj1 (proj2
             (price_precedence
                (moysklad.parsePositions [Demo.invoicePosition "B2" "Widget" 5000] ∅)
                (Demo.item "Widget" "A1" (decimal.New 9900 (-2)))))).
    + right. left. vm_compute. reflexivity.
    + vm_compute. reflexivity.
    + lia.
  - apply (proj1 (proj2 (proj2
             (price_precedence
                (moysklad.parsePositions [Demo.invoicePosition "B2" "Widget" 5000] ∅)
                (Demo.item "Gadget" "" (decimal.New 12345 (-3))))))).
    + left. reflexivity.
    + left. vm_compute. reflexivity.
Defined.

(** ** Texts *)

Lemma string_app_nil_r (s : string) : s +:+ "" = s.
Proof.
  induction s as [| a s IH]; [reflexivity |].
  change (String a (s +:+ "") = String a s). now rewrite IH.
Qed.

Lemma string_app_assoc (s t u : string) : (s +:+ t) +:+ u = s +:+ (t +:+ u).
Proof.
  induction s as [| a s IH]; [reflexivity |].
  change (String a ((s +:+ t) +:+ u) = String a (s +:+ (t +:+ u))). now rewrite IH.
Qed.

(** Every element of a joined list occurs in the joined text. *)
Lemma Join_occurs (elems : list string) (sep x : string) :
  x ∈ elems -> exists before after, strings.Join elems sep = before +:+ x +:+ after.
Proof.
  induction elems as [| e rest IH]; intros Hin; [inversion Hin |].
  destruct rest as [| e' rest].
  - apply list_elem_of_singleton in Hin as ->.
    exists "", "". simpl. now rewrite string_app_nil_r.
  - change (strings.Join (e :: e' :: rest) sep)
      with (e +:+ sep +:+ strings.Join (e' :: rest) sep).
    apply elem_of_cons in Hin as [-> | Hin].
    + now exists "", (sep +:+ strings.Join (e' :: rest) sep).
    + destruct (IH Hin) as (before & after & ->).
      exists (e +:+ sep +:+ before), after.
      now rewrite !string_app_assoc.
Qed.

(** ** Payloads that can be marshalled *)

Lemma firstSome_None {A : Type} (l : list (option A)) :
  moysklad.firstSome l = None <-> Forall (fun x => x = None) l.
Proof.
  induction l as [| [a |] l IH]; simpl.
  - split; [constructor | reflexivity].
  - split; [discriminate | intros H; inversion H; discriminate].
  - rewrite IH. split; [now constructor | intros H; now inversion H].
Qed.

Lemma byKey_elem {A : Type} (m : gmap string A) (x : A) :
  x ∈ moysklad.byKey m <-> exists k, m !! k = Some x.
Proof.
  unfold moysklad.byKey. rewrite list_elem_of_fmap. split.
  - intros ([k y] & -> & Hin). exists k.
    rewrite merge_sort_Permutation in Hin. now apply elem_of_map_to_list in Hin.
  - intros [k Hk]. exists (k, x). split; [reflexivity |].
    rewrite merge_sort_Permutation. now apply elem_of_map_to_list.
Qed.

(** An object is marshalled exactly when all its values are. *)
Lemma unsupported_object (m : gmap string moysklad.JSON) :
  moysklad.unsupported (moysklad.JObject m) = None
  <-> map_Forall (fun _ v => moysklad.unsupported v = None) m.
Proof.
  simpl. rewrite firstSome_None, Forall_forall. split.
  - intros H k v Hk. apply H, byKey_elem. exists k.
    now rewrite lookup_fmap, Hk.
  - intros H x Hx. apply byKey_elem in Hx as [k Hk].
    rewrite lookup_fmap in Hk.
    destruct (m !! k) as [v |] eqn:Hv; [| discriminate].
    injection Hk as <-. eapply H, Hv.
Qed.

(** An array is marshalled exactly when all its elements are. *)
Lemma unsupported_array (l : list moysklad.JSON) :
  moysklad.unsupported (moysklad.JArray l) = None
  <-> Forall (fun v => moysklad.unsupported v = None) l.
Proof. simpl. rewrite firstSome_None. apply Forall_fmap. Qed.

Lemma marshalError_None (v : moysklad.JSON) :
  moysklad.marshalError (Some v) = None <-> moysklad.unsupported v = None.
Proof.
  unfold moysklad.marshalError.
  destruct (moysklad.unsupported v); split; congruence.
Qed.

(** The payload of a counterparty creation holds texts only. *)
Lemma counterpartyData_marshals (buyer : Organization.t) :
  moysklad.marshalError (Some (moysklad.JObject (moysklad.counterpartyData buyer)))
  = None.
Proof.
  apply marshalError_None, unsupported_object.
  unfold moysklad.counterpartyData.
  repeat match goal with
         | |- map_Forall _ (if ?b then _ else _) => destruct b
         end;
    repeat first [ apply map_Forall_insert_2; [reflexivity |]
                 | apply map_Forall_empty ].
Qed.

(** ** The requests of the reconciliation engine *)

Section EngineProperties.
Context {Server : Type}.
Variable serve : Server -> moysklad.Request -> result moysklad.Response * Server.
Variable baseURL : string.
Variable time_Format : Time -> string.
Variable fmt_s : moysklad.JSON -> string.

Implicit Types (P : moysklad.Request -> Prop) (w : moysklad.World Server).

Lemma sends_ret {A} P (a : A) : sends P (moysklad.ret (Server := Server) a).
Proof. intros w. exists []. split; [simpl; now rewrite app_nil_r | constructor]. Qed.

Lemma sends_fail {A} P msg : sends P (moysklad.fail (Server := Server) (A := A) msg).
Proof. intros w. exists []. split; [simpl; now rewrite app_nil_r | constructor]. Qed.

Lemma sends_panic {A} P : sends P (moysklad.panic (Server := Server) (A := A)).
Proof. intros w. exists []. split; [simpl; now rewrite app_nil_r | constructor]. Qed.

Lemma sends_bind {A B} P (m : moysklad.M Server A) (k : A -> moysklad.M Server B) :
  sends P m -> (forall a, sends P (k a)) -> sends P (moysklad.bind m k).
Proof.
  intros Hm Hk w. unfold moysklad.bind.
  destruct (Hm w) as (new1 & E1 & F1).
  destruct (m w) as [[a | msg |] w1]; simpl in *.
  - destruct (Hk a w1) as (new2 & E2 & F2).
    exists (new1 ++ new2). rewrite E2, E1, app_assoc.
    split; [reflexivity | now apply Forall_app].
  - now exists new1.
  - now exists new1.
Qed.

Lemma sends_try {A} P (m : moysklad.M Server A) : sends P m -> sends P (moysklad.try m).
Proof.
  intros Hm w. unfold moysklad.try.
  destruct (Hm w) as (new1 & E1 & F1).
  destruct (m w) as [[a | msg |] w1]; simpl in *; now exists new1.
Qed.

Lemma sends_makeRequest P method endpoint data params :
  P (moysklad.mkRequest method endpoint data params) ->
  sends P (moysklad.makeRequest serve method endpoint data params).
Proof.
  intros HP w. unfold moysklad.makeRequest.
  destruct (moysklad.marshalError data).
  { exists []. simpl. rewrite app_nil_r. split; [reflexivity | constructor]. }
  destruct (serve _ _) as [r s]. simpl.
  eexists. split; [reflexivity | now repeat constructor].
Qed.

(** A request without payload, or with a payload that can be marshalled, is
    sent. *)
Lemma makeRequest_sends method endpoint data params w :
  moysklad.marshalError data = None ->
  moysklad.makeRequest serve method endpoint data params w
  = (moysklad.Return
       (serve (moysklad.server w) (moysklad.mkRequest method endpoint data params)).1,
     moysklad.mkWorld
       (serve (moysklad.server w) (moysklad.mkRequest method endpoint data params)).2
       (moysklad.sent w ++ [moysklad.mkRequest method endpoint data params])).
Proof.
  intros Hdata. unfold moysklad.makeRequest. rewrite Hdata.
  now destruct (serve _ _).
Qed.

(** A payload that cannot be marshalled is refused before anything is
    sent. *)
Lemma makeRequest_refused method endpoint data params w err :
  moysklad.marshalError data = Some err ->
  moysklad.makeRequest serve method endpoint data params w
  = (moysklad.Return (Error err), w).
Proof. intros Hdata. unfold moysklad.makeRequest. now rewrite Hdata. Qed.

Lemma sends_forEach {A B} P (f : A -> B -> moysklad.M Server A) (l : list B) :
  (forall a b, sends P (f a b)) -> forall a, sends P (moysklad.forEach f l a).
Proof.
  intros Hf. induction l as [| b rest IH]; intros a; simpl.
  - apply sends_ret.
  - apply sends_bind; [apply Hf | exact IH].
Qed.

Lemma sends_weaken {A} P Q (m : moysklad.M Server A) :
  (forall rq, P rq -> Q rq) -> sends P m -> sends Q m.
Proof.
  intros HPQ Hm w. destruct (Hm w) as (new & E & F).
  exists new. split; [exact E |]. eapply Forall_impl; eauto.
Qed.

Lemma isGET_not_creation rq : isGET rq -> ~ creation rq.
Proof. unfold isGET, creation. intros -> [H _]. discriminate. Qed.

(** Case analysis of a computation down to its requests. *)
Ltac sends_step :=
  first
    [ apply sends_ret | apply sends_fail | apply sends_panic
    | apply sends_try
    | apply sends_makeRequest
    | apply sends_bind; [| intros ?]
    | match goal with
      | |- sends _ (match ?x with _ => _ end) => destruct x
      end ].

Lemma sends_assert_map P v : sends P (moysklad.assert_map (Server := Server) v).
Proof. unfold moysklad.assert_map. repeat sends_step. Qed.

Lemma sends_firstRow P resp : sends P (moysklad.firstRow (Server := Server) resp).
Proof.
  unfold moysklad.firstRow. repeat (first [apply sends_assert_map | sends_step]).
Qed.

Lemma sends_findProduct name : sends isGET (moysklad.findProduct serve name).
Proof.
  unfold moysklad.findProduct.
  repeat (first [apply sends_firstRow | sends_step]); reflexivity.
Qed.

Lemma sends_findProductByArticle article :
  sends isGET (moysklad.findProductByArticle serve article).
Proof.
  unfold moysklad.findProductByArticle.
  repeat (first [apply sends_firstRow | sends_step]); reflexivity.
Qed.

Lemma sends_resolveProduct item : sends isGET (moysklad.resolveProduct serve item).
Proof.
  unfold moysklad.resolveProduct.
  repeat (first [apply sends_findProduct | apply sends_findProductByArticle | sends_step]).
Qed.

Lemma sends_resolveAll items : sends isGET (resolveAll serve items).
Proof.
  induction items as [| item rest IH]; simpl.
  - apply sends_ret.
  - apply sends_bind; [apply sends_resolveProduct | intros product].
    apply sends_bind; [exact IH | intros products]. apply sends_ret.
Qed.

Lemma sends_findOrganizationByINN inn :
  sends isGET (moysklad.findOrganizationByINN serve inn).
Proof.
  unfold moysklad.findOrganizationByINN.
  repeat (first [apply sends_assert_map | sends_step]); reflexivity.
Qed.

Lemma sends_getOrCreateCounterparty buyer :
  sends (fun rq => ~ creation rq) (moysklad.getOrCreateCounterparty serve buyer).
Proof.
  unfold moysklad.getOrCreateCounterparty.
  repeat (first [apply sends_firstRow | sends_step]);
    unfold creation; simpl; intros [H1 H2]; try discriminate;
    destruct H2; discriminate.
Qed.

Lemma sends_searchInvoice pattern :
  sends isGET (moysklad.searchInvoice serve baseURL pattern).
Proof.
  unfold moysklad.searchInvoice.
  repeat (first [apply sends_firstRow | sends_step]); reflexivity.
Qed.

Lemma sends_findCustomerInvoice requisiteNumber counterparty :
  sends isGET (moysklad.findCustomerInvoice serve baseURL requisiteNumber counterparty).
Proof.
  unfold moysklad.findCustomerInvoice.
  destruct (String.eqb _ _); [apply sends_fail |].
  generalize ["name=" +:+ requisiteNumber; "name~" +:+ requisiteNumber;
              "description~" +:+ requisiteNumber].
  intros patterns. induction patterns as [| pattern rest IH]; simpl.
  - apply sends_fail.
  - apply sends_bind; [apply sends_searchInvoice | intros [invoice |]].
    + apply sends_ret.
    + exact IH.
Qed.

Lemma sends_getStoreFromInvoice customerInvoice :
  sends isGET (moysklad.getStoreFromInvoice serve baseURL customerInvoice).
Proof.
  unfold moysklad.getStoreFromInvoice. repeat sends_step; reflexivity.
Qed.

Lemma sends_getInvoicePositions customerInvoice :
  sends isGET (moysklad.getInvoicePositions serve baseURL customerInvoice).
Proof.
  unfold moysklad.getInvoicePositions, moysklad.parseInvoicePositions.
  repeat (first [apply sends_assert_map | sends_step]); reflexivity.
Qed.

(** ** Product resolution *)

Lemma firstRow_world resp w : (moysklad.firstRow resp w).2 = w.
Proof.
  unfold moysklad.firstRow, moysklad.assert_map.
  destruct (_ =? _); [| reflexivity].
  destruct (moysklad.decodeMap resp) as [data | err]; [| reflexivity].
  destruct (moysklad.rows data) as [[| row rest] |]; try reflexivity.
  destruct (moysklad.as_map row); reflexivity.
Qed.

Lemma findProductByArticle_sent article w :
  moysklad.sent (moysklad.findProductByArticle serve article w).2
  = moysklad.sent w ++ [articleLookup article].
Proof.
  unfold moysklad.findProductByArticle, moysklad.bind, moysklad.makeRequest.
  fold (articleLookup article).
  destruct (serve _ _) as [[resp | err] s]; simpl; [| reflexivity].
  pose proof (firstRow_world resp
                (moysklad.mkWorld s (moysklad.sent w ++ [articleLookup article]))) as H.
  destruct (moysklad.firstRow _ _) as [r w']. simpl in H. now subst w'.
Qed.

Lemma findProduct_sent name w :
  moysklad.sent (moysklad.findProduct serve name w).2
  = moysklad.sent w ++ [nameLookup name].
Proof.
  unfold moysklad.findProduct, moysklad.bind, moysklad.makeRequest.
  fold (nameLookup name).
  destruct (serve _ _) as [[resp | err] s]; simpl; [| reflexivity].
  pose proof (firstRow_world resp
                (moysklad.mkWorld s (moysklad.sent w ++ [nameLookup name]))) as H.
  destruct (moysklad.firstRow _ _) as [r w']. simpl in H. now subst w'.
Qed.

(** C6. Product resolution looks the item up by its catalog code first: a
    product found by code is the resolved product and the only request sent is
    the code lookup; the name lookup is sent only after a code lookup without
    a match, or when the item has no code, and its result is then the
    resolution.  The two lookups are different requests. *)
Theorem code_lookup_precedes_name_lookup (item : InvoiceItem.t) w :
  (forall product w1,
      InvoiceItem.Article item <> "" ->
      moysklad.findProductByArticle serve (InvoiceItem.Article item) w
      = (moysklad.Return (Some product), w1) ->
      moysklad.resolveProduct serve item w = (moysklad.Return (Some product), w1)
      /\ moysklad.sent w1 = moysklad.sent w ++ [articleLookup (InvoiceItem.Article item)])
  /\ (forall w1,
      InvoiceItem.Article item <> "" ->
      moysklad.findProductByArticle serve (InvoiceItem.Article item) w
      = (moysklad.Return None, w1) ->
      moysklad.resolveProduct serve item w
      = moysklad.findProduct serve (InvoiceItem.Name item) w1
      /\ moysklad.sent (moysklad.resolveProduct serve item w).2
         = moysklad.sent w ++ [articleLookup (InvoiceItem.Article item);
                               nameLookup (InvoiceItem.Name item)])
  /\ (InvoiceItem.Article item = "" ->
      moysklad.resolveProduct serve item w
      = moysklad.findProduct serve (InvoiceItem.Name item) w
      /\ moysklad.sent (moysklad.resolveProduct serve item w).2
         = moysklad.sent w ++ [nameLookup (InvoiceItem.Name item)])
  /\ (forall article name, articleLookup article <> nameLookup name).
Proof.
  assert (Hcode : forall r w1,
             InvoiceItem.Article item <> "" ->
             moysklad.findProductByArticle serve (InvoiceItem.Article item) w
             = (moysklad.Return r, w1) ->
             moysklad.resolveProduct serve item w
             = match r with
               | Some _ => (moysklad.Return r, w1)
               | None => moysklad.findProduct serve (InvoiceItem.Name item) w1
               end).
  { intros r w1 Hne Hfind. apply String.eqb_neq in Hne.
    unfold moysklad.resolveProduct, moysklad.bind.
    rewrite Hne. simpl. rewrite Hfind. now destruct r. }
  split; [| split; [| split]].
  - intros product w1 Hne Hfind. split; [exact (Hcode _ _ Hne Hfind) |].
    rewrite <- (findProductByArticle_sent (InvoiceItem.Article item) w).
    now rewrite Hfind.
  - intros w1 Hne Hfind. rewrite (Hcode _ _ Hne Hfind).
    split; [reflexivity |]. rewrite findProduct_sent.
    pose proof (findProductByArticle_sent (InvoiceItem.Article item) w) as Hsent.
    rewrite Hfind in Hsent. simpl in Hsent.
    rewrite Hsent, <- app_assoc. reflexivity.
  - intros Hempty.
    assert (E : moysklad.resolveProduct serve item w
                = moysklad.findProduct serve (InvoiceItem.Name item) w).
    { unfold moysklad.resolveProduct, moysklad.bind. now rewrite Hempty. }
    rewrite E. split; [reflexivity | apply findProduct_sent].
  - intros article name E. apply (f_equal moysklad.params) in E.
    apply (f_equal (fun m : gmap string string => m !! "filter")) in E.
    unfold articleLookup, nameLookup, moysklad.filter in E. simpl in E.
    rewrite !lookup_singleton_eq in E.
    injection E as E. unfold String.append in E. discriminate E.
Qed.

(** ** Buyer resolution *)

Lemma firstRow_firstRowOf resp w :
  moysklad.firstRow resp w
  = match firstRowOf resp with
    | Some row => moysklad.assert_map row w
    | None => (moysklad.Return None, w)
    end.
Proof.
  unfold moysklad.firstRow, firstRowOf.
  destruct (_ =? _); [| reflexivity].
  destruct (moysklad.decodeMap resp) as [data | err]; [| reflexivity].
  destruct (moysklad.rows data) as [[| row rest] |]; reflexivity.
Qed.

Lemma counterpartyData_companyType buyer :
  moysklad.counterpartyData buyer !! "companyType"
  = Some (moysklad.JString
            (if (String.length (Organization.INN buyer) =? 12)%nat
             then "individual" else "legal")).
Proof.
  unfold moysklad.counterpartyData.
  destruct (_ =? _)%nat; [now rewrite lookup_insert_eq |].
  destruct (negb _); [rewrite lookup_insert_ne by discriminate |]; reflexivity.
Qed.

Lemma counterpartyData_kpp buyer :
  moysklad.counterpartyData buyer !! "kpp"
  = if (String.length (Organization.INN buyer) =? 12)%nat then None
    else if String.eqb (Organization.KPP buyer) "" then None
         else Some (moysklad.JString (Organization.KPP buyer)).
Proof.
  unfold moysklad.counterpartyData.
  destruct (_ =? _)%nat; [rewrite lookup_insert_ne by discriminate; reflexivity |].
  destruct (String.eqb _ _); simpl; [reflexivity | now rewrite lookup_insert_eq].
Qed.

(** C7. The buyer is searched by tax id.  A counterparty the search returns
    is reused and nothing is created.  When the search returns none, exactly
    one creation request follows, whose entity type is "individual" exactly
    when the tax id has length 12 and "legal" otherwise, and which carries the
    registration code only in the legal case and only when it is not empty. *)
Theorem counterparty_reused_or_created (buyer : Organization.t) w :
  (forall resp s existing,
      serve (moysklad.server w) (counterpartySearch (Organization.INN buyer))
      = (Ok resp, s) ->
      firstRowOf resp = Some (moysklad.JObject existing) ->
      moysklad.getOrCreateCounterparty serve buyer w
      = (moysklad.Return (Some existing),
         moysklad.mkWorld s
           (moysklad.sent w ++ [counterpartySearch (Organization.INN buyer)])))
  /\ (forall resp s,
      serve (moysklad.server w) (counterpartySearch (Organization.INN buyer))
      = (Ok resp, s) ->
      firstRowOf resp = None ->
      moysklad.sent (moysklad.getOrCreateCounterparty serve buyer w).2
      = moysklad.sent w ++ [counterpartySearch (Organization.INN buyer);
                            counterpartyCreation buyer])
  /\ moysklad.data (counterpartyCreation buyer)
     = Some (moysklad.JObject (moysklad.counterpartyData buyer))
  /\ moysklad.counterpartyData buyer !! "inn"
     = Some (moysklad.JString (Organization.INN buyer))
  /\ moysklad.counterpartyData buyer !! "companyType"
     = Some (moysklad.JString
               (if (String.length (Organization.INN buyer) =? 12)%nat
                then "individual" else "legal"))
  /\ moysklad.counterpartyData buyer !! "kpp"
     = if (String.length (Organization.INN buyer) =? 12)%nat then None
       else if String.eqb (Organization.KPP buyer) "" then None
            else Some (moysklad.JString (Organization.KPP buyer)).
Proof.
  split; [| split; [| split; [reflexivity | split; [| split]]]].
  - intros resp s existing Hserve Hrow.
    unfold moysklad.getOrCreateCounterparty, moysklad.bind.
    rewrite makeRequest_sends by reflexivity.
    fold (counterpartySearch (Organization.INN buyer)).
    rewrite Hserve. simpl. rewrite firstRow_firstRowOf, Hrow. reflexivity.
  - intros resp s Hserve Hrow.
    unfold moysklad.getOrCreateCounterparty, moysklad.bind.
    rewrite makeRequest_sends by reflexivity.
    fold (counterpartySearch (Organization.INN buyer)).
    rewrite Hserve. simpl. rewrite firstRow_firstRowOf, Hrow.
    rewrite makeRequest_sends by apply counterpartyData_marshals.
    fold (counterpartyCreation buyer). simpl.
    destruct (serve s (counterpartyCreation buyer)) as [[resp' | err] s']; simpl.
    + destruct (_ =? _); [destruct (moysklad.decodeMap resp') |];
        simpl; now rewrite <- app_assoc.
    + now rewrite <- app_assoc.
  - unfold moysklad.counterpartyData.
    destruct (_ =? _)%nat; [rewrite lookup_insert_ne by discriminate; reflexivity |].
    destruct (negb _); [rewrite lookup_insert_ne by discriminate |]; reflexivity.
  - apply counterpartyData_companyType.
  - apply counterpartyData_kpp.
Qed.

(** ** Position assembly *)

Lemma sends_run {A} P (m : moysklad.M Server A) w r w' :
  sends P m -> m w = (r, w') ->
  exists new, moysklad.sent w' = moysklad.sent w ++ new /\ Forall P new.
Proof. intros Hm Hrun. destruct (Hm w) as (new & E & F). rewrite Hrun in E. eauto. Qed.

(** The loop of [createPositionsFromUPD] performs the resolutions in order
    and builds its two lists from them. *)
Lemma forEach_addItem invoicePositions items :
  forall state w,
    moysklad.forEach (moysklad.addItem serve invoicePositions) items state w
    = match resolveAll serve items w with
      | (moysklad.Return products, w') =>
          (moysklad.Return
             (state.1 ++ (assembled invoicePositions items products).1,
              state.2 ++ (assembled invoicePositions items products).2), w')
      | (moysklad.Fail msg, w') => (moysklad.Fail msg, w')
      | (moysklad.Panic, w') => (moysklad.Panic, w')
      end.
Proof.
  induction items as [| item rest IH]; intros [positions missing] w; simpl.
  - unfold moysklad.ret. simpl. now rewrite !app_nil_r.
  - unfold moysklad.addItem, moysklad.bind.
    destruct (moysklad.resolveProduct serve item w) as [[product | msg |] w1];
      [| reflexivity | reflexivity].
    destruct product as [product |]; simpl; rewrite IH;
      destruct (resolveAll serve rest w1) as [[products | msg |] w2]; simpl;
      try reflexivity; now rewrite <- !app_assoc.
Qed.

Lemma resolveAll_length items :
  forall w products w',
    resolveAll serve items w = (moysklad.Return products, w') ->
    length products = length items.
Proof.
  induction items as [| item rest IH]; intros w products w'; simpl.
  - unfold moysklad.ret. now intros [= <- _].
  - unfold moysklad.bind.
    destruct (moysklad.resolveProduct serve item w) as [[product | msg |] w1];
      [| discriminate | discriminate].
    destruct (resolveAll serve rest w1) as [[others | msg |] w2] eqn:Hrest;
      [| discriminate | discriminate].
    unfold moysklad.ret. intros [= <- _]. simpl. f_equal. eapply IH, Hrest.
Qed.

Lemma assembled_missing invoicePositions items :
  forall products,
    (assembled invoicePositions items products).2
    = moysklad.missingItem <$> unresolved items products.
Proof.
  induction items as [| item rest IH]; intros [| [product |] products]; simpl;
    try reflexivity; now rewrite IH.
Qed.

Lemma unresolved_lookup items :
  forall products (i : nat) item,
    items !! i = Some item -> products !! i = Some None ->
    item ∈ unresolved items products.
Proof.
  induction items as [| first rest IH]; intros [| product products] [| i] item;
    simpl; try discriminate.
  - intros [= ->] [= ->]. now left.
  - intros Hitem Hproduct.
    destruct product; [| right]; eapply IH; eauto.
Qed.

Lemma unresolved_nonempty items products :
  length products = length items -> In None products ->
  unresolved items products <> [].
Proof.
  intros Hlen Hin. apply list_elem_of_In, list_elem_of_lookup in Hin.
  destruct Hin as [i Hi].
  destruct (lookup_lt_is_Some_2 items i) as [item Hitem].
  { rewrite <- Hlen. eapply lookup_lt_Some, Hi. }
  pose proof (unresolved_lookup items products i item Hitem Hi) as Helem.
  intros E. rewrite E in Helem. inversion Helem.
Qed.

(** C2. When the parsed document has a line item that resolves to no catalog
    product at the position assembly of the shipment, the assembly returns the
    products-not-found error: the text "The following products from UPD are
    not found in MoySkald:", then one bulleted line per unresolved item with
    its name and catalog code ("не указан" when the item has none), then the
    request to create the products.  The text of every unresolved item occurs
    in that message.  The engine returns that error, and no request sent up
    to then creates a shipment or an invoice. *)
Theorem missing_products_abort (updDocument : UPDDocument.t)
    (supplierOrg buyerCounterparty customerInvoice store : moysklad.GoMap)
    (invoicePositions : gmap string Z) (products : list moysklad.GoMap)
    w w1 w2 w3 w4 w5 w6 :
  let content := UPDDocument.Content updDocument in
  moysklad.findOrganizationByINN serve (Organization.INN (UPDContent.Seller content)) w
  = (moysklad.Return supplierOrg, w1) ->
  moysklad.getOrCreateCounterparty serve (UPDContent.Buyer content) w1
  = (moysklad.Return buyerCounterparty, w2) ->
  moysklad.findCustomerInvoice serve baseURL (UPDContent.RequisiteNumber content)
    buyerCounterparty w2
  = (moysklad.Return customerInvoice, w3) ->
  moysklad.getStoreFromInvoice serve baseURL customerInvoice w3
  = (moysklad.Return store, w4) ->
  moysklad.getInvoicePositions serve baseURL customerInvoice w4
  = (moysklad.Return invoicePositions, w5) ->
  resolveAll serve (UPDContent.Items content) w5 = (moysklad.Return products, w6) ->
  In None products ->
  let entry (item : InvoiceItem.t) :=
    InvoiceItem.Name item +:+ " (артикул: "
    +:+ (if String.eqb (InvoiceItem.Article item) "" then "не указан"
         else InvoiceItem.Article item) +:+ ")" in
  let newline := String "010"%char "" in
  let message :=
    "The following products from UPD are not found in MoySkald:" +:+ newline +:+ "• "
    +:+ strings.Join (entry <$> unresolved (UPDContent.Items content) products)
          (newline +:+ "• ")
    +:+ newline +:+ newline
    +:+ "Create these products in MoySkald manually and retry UPD upload." in
  moysklad.createPositionsFromUPD serve baseURL content customerInvoice w4
  = (moysklad.Fail message, w6)
  /\ moysklad.CreateInvoiceFromUPD serve baseURL time_Format fmt_s updDocument w
     = (moysklad.Fail message, w6)
  /\ (exists new,
      moysklad.sent w6 = moysklad.sent w ++ new
      /\ Forall (fun rq => ~ creation rq) new)
  /\ (forall (i : nat) item,
      UPDContent.Items content !! i = Some item ->
      products !! i = Some None ->
      entry item ∈ entry <$> unresolved (UPDContent.Items content) products
      /\ exists before after, message = before +:+ entry item +:+ after).
Proof.
  intros content Horg Hbuyer Hinvoice Hstore Hprices Hresolve Hmissing
    entry newline message.
  change message
    with (moysklad.productsNotFound
            (moysklad.missingItem <$> unresolved (UPDContent.Items content) products)).
  change entry with moysklad.missingItem.
  assert (Hassembly :
            moysklad.createPositionsFromUPD serve baseURL content customerInvoice w4
            = (moysklad.Fail
                 (moysklad.productsNotFound
                    (moysklad.missingItem
                       <$> unresolved (UPDContent.Items content) products)), w6)).
  { destruct customerInvoice as [invoice |]; [| discriminate Hstore].
    unfold moysklad.createPositionsFromUPD, moysklad.bind at 1.
    rewrite Hprices. unfold moysklad.bind.
    rewrite forEach_addItem, Hresolve. simpl. rewrite assembled_missing.
    pose proof (unresolved_nonempty _ _ (resolveAll_length _ _ _ _ Hresolve) Hmissing).
    destruct (unresolved _ _); [congruence | reflexivity]. }
  split; [exact Hassembly |]. split; [| split].
  - unfold moysklad.CreateInvoiceFromUPD, moysklad.bind at 1, moysklad.try.
    fold content. rewrite Horg. unfold moysklad.bind at 1. rewrite Hbuyer.
    unfold moysklad.bind at 1.
    unfold moysklad.createDemand, moysklad.bind at 1, moysklad.try.
    fold content. rewrite Hinvoice. unfold moysklad.bind at 1. rewrite Hstore.
    unfold moysklad.bind at 1. rewrite Hassembly. reflexivity.
  - destruct (sends_run _ _ _ _ _ (sends_findOrganizationByINN _) Horg)
      as (n1 & E1 & F1).
    destruct (sends_run _ _ _ _ _ (sends_getOrCreateCounterparty _) Hbuyer)
      as (n2 & E2 & F2).
    destruct (sends_run _ _ _ _ _ (sends_findCustomerInvoice _ _) Hinvoice)
      as (n3 & E3 & F3).
    destruct (sends_run _ _ _ _ _ (sends_getStoreFromInvoice _) Hstore)
      as (n4 & E4 & F4).
    destruct (sends_run _ _ _ _ _ (sends_getInvoicePositions _) Hprices)
      as (n5 & E5 & F5).
    destruct (sends_run _ _ _ _ _ (sends_resolveAll _) Hresolve)
      as (n6 & E6 & F6).
    exists (n1 ++ n2 ++ n3 ++ n4 ++ n5 ++ n6).
    split; [rewrite E6, E5, E4, E3, E2, E1, <- !app_assoc; reflexivity |].
    repeat (apply Forall_app; split);
      first [exact F2 | eapply Forall_impl; [eassumption | apply isGET_not_creation]].
  - intros i item Hitem Hnone.
    assert (Hlisted : moysklad.missingItem item
                      ∈ moysklad.missingItem
                          <$> unresolved (UPDContent.Items content) products).
    { apply (list_elem_of_fmap_2 moysklad.missingItem).
      eapply unresolved_lookup; eauto. }
    split; [exact Hlisted |].
    destruct (Join_occurs _ (moysklad.LF +:+ "• ") _ Hlisted)
      as (before & after & Hjoined).
    unfold moysklad.productsNotFound. rewrite Hjoined.
    exists ("The following products from UPD are not found in MoySkald:"
            +:+ moysklad.LF +:+ "• " +:+ before),
      (after +:+ moysklad.LF +:+ moysklad.LF
       +:+ "Create these products in MoySkald manually and retry UPD upload.").
    now rewrite !string_app_assoc.
Qed.

End EngineProperties.

(** ** The properties on the small external system *)

Lemma code_lookup_precedes_name_lookup_witness :
  (moysklad.resolveProduct Demo.serve (Demo.item "Widget" "A1" (decimal.New 9900 (-2)))
     Demo.world0
   = (moysklad.Return (Some Demo.gadget), moysklad.mkWorld tt [articleLookup "A1"])
   /\ [articleLookup "A1"] = [] ++ [articleLookup "A1"])
  /\ moysklad.sent
       (moysklad.resolveProduct Demo.serve (Demo.item "Ghost" "Z9" (decimal.New 1 0))
          Demo.world0).2
     = [] ++ [articleLookup "Z9"; nameLookup "Ghost"]
  /\ moysklad.sent
       (moysklad.resolveProduct Demo.serve (Demo.item "Gadget" "" (decimal.New 1 0))
          Demo.world0).2
     = [] ++ [nameLookup "Gadget"].
Proof.
  split; [| split].
  - apply (proj1 (code_lookup_precedes_name_lookup Demo.serve
                    (Demo.item "Widget" "A1" (decimal.New 9900 (-2))) Demo.world0)
             Demo.gadget (moysklad.mkWorld tt [articleLookup "A1"])).
    + discriminate.
    + vm_compute. reflexivity.
  - apply (proj1 (proj2 (code_lookup_precedes_name_lookup Demo.serve
                           (Demo.item "Ghost" "Z9" (decimal.New 1 0)) Demo.world0))
             (moysklad.mkWorld tt [articleLookup "Z9"])).
    + discriminate.
    + vm_compute. reflexivity.
  - apply (proj1 (proj2 (proj2 (code_lookup_precedes_name_lookup Demo.serve
                                  (Demo.item "Gadget" "" (decimal.New 1 0)) Demo.world0)))).
    reflexivity.
Defined.

Lemma counterparty_reused_or_created_witness :
  moysklad.getOrCreateCounterparty Demo.serve
    (Organization.mk "Customer" "7800000000" "780001001" None) Demo.world0
  = (moysklad.Return (Some Demo.customer),
     moysklad.mkWorld tt ([] ++ [counterpartySearch "7800000000"]))
  /\ moysklad.sent
       (moysklad.getOrCreateCounterparty Demo.serve
          (Organization.mk "Buyer" "500000000000" "" None) Demo.world0).2
     = [] ++ [counterpartySearch "500000000000";
              counterpartyCreation (Organization.mk "Buyer" "500000000000" "" None)].
Proof.
  split.
  - apply (proj1 (counterparty_reused_or_created Demo.serve
                    (Organization.mk "Customer" "7800000000" "780001001" None)
                    Demo.world0)
             (moysklad.mkResponse 200 ""
                (Ok (Demo.rowsOf [moysklad.JObject Demo.customer]))) tt Demo.customer).
    + vm_compute. reflexivity.
    + vm_compute. reflexivity.
  - apply (proj1 (proj2 (counterparty_reused_or_created Demo.serve
                           (Organization.mk "Buyer" "500000000000" "" None) Demo.world0))
             (moysklad.mkResponse 200 "" (Ok (Demo.rowsOf []))) tt).
    + vm_compute. reflexivity.
    + vm_compute. reflexivity.
Defined.

Lemma missing_products_abort_witness :
  (moysklad.CreateInvoiceFromUPD Demo.serve Demo.base Demo.time_Format Demo.fmt_s
     (Demo.document Demo.order) Demo.world0).1
  = moysklad.Fail
      ("The following products from UPD are not found in MoySkald:"
       +:+ String "010"%char "• Unknown (артикул: не указан)"
       +:+ String "010"%char "• Ghost (артикул: Z9)"
       +:+ String "010"%char (String "010"%char
             "Create these products in MoySkald manually and retry UPD upload."))
  /\ Forall (fun rq => ~ creation rq)
       (moysklad.sent
          (moysklad.CreateInvoiceFromUPD Demo.serve Demo.base Demo.time_Format Demo.fmt_s
             (Demo.document Demo.order) Demo.world0).2).
Proof.
  edestruct (missing_products_abort Demo.serve Demo.base Demo.time_Format Demo.fmt_s
               (Demo.document Demo.order)) as (_ & Hengine & (new & Hsent & Hnew) & _).
  - reflexivity.
  - reflexivity.
  - reflexivity.
  - reflexivity.
  - reflexivity.
  - reflexivity.
  - right. left. reflexivity.
  - rewrite Hengine. split; [reflexivity |].
    simpl. simpl in Hsent. rewrite Hsent. exact Hnew.
Defined.

(** * Further properties of the code *)

#[local] Arguments String.append : simpl nomatch.

(** ** The structural parser *)

(** X1. Parsing the main document fails only when the file is missing or
    cannot be read, with the error naming which; whatever a readable file
    contains, a document is returned. *)
Theorem main_document_errors_are_io_errors
    (xml_Unmarshal : string -> result parser.UPDXML.t)
    (time_Parse : string -> option Time)
    (os_IsNotExist : string -> bool)
    (readFileWithEncoding : string -> result string)
    (now : Time) (extractDir mainDocumentPath : string) :
  match parser.parseUPDContent xml_Unmarshal time_Parse os_IsNotExist
          readFileWithEncoding now extractDir mainDocumentPath with
  | Ok _ =>
      os_IsNotExist (filepath.Join extractDir mainDocumentPath) = false
      /\ exists content,
           readFileWithEncoding (filepath.Join extractDir mainDocumentPath) = Ok content
  | Error msg =>
      (os_IsNotExist (filepath.Join extractDir mainDocumentPath) = true
       /\ msg = "main UPD file not found: " +:+ mainDocumentPath)
      \/ (exists err,
             readFileWithEncoding (filepath.Join extractDir mainDocumentPath) = Error err
             /\ msg = "failed to read UPD file: " +:+ err)
  end.
Proof.
  unfold parser.parseUPDContent.
  destruct (os_IsNotExist _) eqn:Hstat; [now left |].
  destruct (readFileWithEncoding _) as [content | err] eqn:Hread; [| right; eauto].
  destruct (_ <=? _)%nat; [eauto |].
  unfold parser.parseFullUPDContent.
  destruct (xml_Unmarshal content); eauto.
Qed.

(** X2. The invoice number of a parsed main document is never empty: it is
    the number attribute of the header, taken verbatim, and "Не указан" when
    the attribute is empty or the document does not decode; the currency code
    is always 643. *)
Theorem invoice_number_verbatim_or_placeholder
    (xml_Unmarshal : string -> result parser.UPDXML.t)
    (time_Parse : string -> option Time) (now : Time) (content : string) :
  exists parsed,
    parser.parseFullUPDContent xml_Unmarshal time_Parse now content = Ok parsed
    /\ UPDContent.InvoiceNumber parsed <> ""
    /\ UPDContent.CurrencyCode parsed = "643"
    /\ UPDContent.InvoiceNumber parsed
       = match xml_Unmarshal content with
         | Ok upd =>
             if String.eqb (parser.UPDXML.Number upd) "" then "Не указан"
             else parser.UPDXML.Number upd
         | Error _ => "Не указан"
         end.
Proof.
  unfold parser.parseFullUPDContent.
  destruct (xml_Unmarshal content) as [upd | err]; eexists; (split; [reflexivity |]);
    simpl; repeat split; try discriminate.
  destruct (String.eqb (parser.UPDXML.Number upd) "") eqn:E; [discriminate |].
  now apply eqb_false_ne.
Qed.

(** X3. Line items keep the order of the source table: there is one parsed
    item per source item, the line numbers are 1, 2, ..., and names, catalog
    codes and tax-rate labels are taken verbatim. *)
Theorem line_items_keep_order (xmlItems : list parser.XMLItem.t) :
  length (parser.parseInvoiceItems xmlItems) = length xmlItems
  /\ InvoiceItem.LineNumber <$> parser.parseInvoiceItems xmlItems
     = Z.of_nat <$> seq 1 (length xmlItems)
  /\ InvoiceItem.Name <$> parser.parseInvoiceItems xmlItems
     = parser.XMLItem.Name <$> xmlItems
  /\ InvoiceItem.Article <$> parser.parseInvoiceItems xmlItems
     = parser.XMLItem.Article <$> xmlItems
  /\ InvoiceItem.VATRate <$> parser.parseInvoiceItems xmlItems
     = parser.XMLItem.VATRate <$> xmlItems.
Proof.
  unfold parser.parseInvoiceItems.
  split; [apply length_imap |].
  split.
  - rewrite fmap_imap.
    assert (H : forall (k : nat) (l : list parser.XMLItem.t),
               imap (fun i x => Z.of_nat (k + i) + 1) l = Z.of_nat <$> seq (S k) (length l)).
    { intros k l. revert k. induction l as [| x l IH]; intros k; [reflexivity |].
      simpl. f_equal; [lia |].
      rewrite <- IH. apply imap_ext. intros i y _. simpl. f_equal. f_equal. lia. }
    apply (H 0%nat).
  - repeat split; rewrite fmap_imap;
      (induction xmlItems as [| x l IH] using rev_ind; [reflexivity |]);
      rewrite imap_app, fmap_app, IH; reflexivity.
Qed.

Lemma string_app_length (s t : string) :
  String.length (s +:+ t) = (String.length s + String.length t)%nat.
Proof. induction s as [| a s IH]; simpl; [reflexivity | now rewrite IH]. Qed.

Lemma take_digits_spec (s : string) :
  all_digits (strings.take_digits s) = true
  /\ exists post,
       s = strings.take_digits s +:+ post /\ starts_with_digit post = false.
Proof.
  induction s as [| a s [IH1 (post & IH2 & IH3)]]; simpl.
  - split; [reflexivity |]. now exists "".
  - destruct (strings.is_digit a) eqn:Ha; simpl.
    + rewrite Ha, IH1. split; [reflexivity |].
      exists post. split; [now rewrite <- IH2 | exact IH3].
    + split; [reflexivity |]. exists (String a s). now simpl.
Qed.

(** The leftmost match of [\d+]: a non-empty run of digits, preceded by no
    digit and not followed by one; no match exactly when there is no digit. *)
Lemma first_digit_run_spec (s : string) :
  match strings.first_digit_run s with
  | Some digits =>
      digits <> "" /\ all_digits digits = true
      /\ exists pre post,
           s = pre +:+ digits +:+ post
           /\ has_digit pre = false /\ starts_with_digit post = false
  | None => has_digit s = false
  end.
Proof.
  induction s as [| a s IH]; [reflexivity |].
  cbn [strings.first_digit_run has_digit].
  destruct (strings.is_digit a) eqn:Ha.
  - destruct (take_digits_spec (String a s)) as (Hall & post & Hsplit & Hpost).
    split; [simpl; rewrite Ha; discriminate |]. split; [exact Hall |].
    exists "", post. now repeat split.
  - destruct (strings.first_digit_run s) as [digits |]; [| exact IH].
    destruct IH as (Hne & Hall & pre & post & -> & Hpre & Hpost).
    split; [exact Hne |]. split; [exact Hall |].
    exists (String a pre), post. simpl. now rewrite Ha, Hpre.
Qed.

(** X4. The source-invoice reference of a parsed main document consists of
    decimal digits only: it is the first maximal run of digits of the
    transfer-basis text, and it is empty exactly when that text has no
    digit (or when the document does not decode). *)
Theorem requisite_number_is_first_digit_run
    (xml_Unmarshal : string -> result parser.UPDXML.t)
    (time_Parse : string -> option Time) (now : Time) (content : string) :
  exists parsed,
    parser.parseFullUPDContent xml_Unmarshal time_Parse now content = Ok parsed
    /\ all_digits (UPDContent.RequisiteNumber parsed) = true
    /\ match xml_Unmarshal content with
       | Ok upd =>
           (exists pre post,
               parser.UPDXML.RequisiteNumber upd
               = pre +:+ UPDContent.RequisiteNumber parsed +:+ post
               /\ has_digit pre = false /\ starts_with_digit post = false)
           /\ (UPDContent.RequisiteNumber parsed = ""
               <-> has_digit (parser.UPDXML.RequisiteNumber upd) = false)
       | Error _ => UPDContent.RequisiteNumber parsed = ""
       end.
Proof.
  unfold parser.parseFullUPDContent.
  destruct (xml_Unmarshal content) as [upd | err];
    (eexists; split; [reflexivity |]); simpl; [| now split].
  pose proof (first_digit_run_spec (parser.UPDXML.RequisiteNumber upd)) as Hrun.
  destruct (String.eqb (parser.UPDXML.RequisiteNumber upd) "") eqn:Hempty; simpl.
  - apply String.eqb_eq in Hempty. rewrite Hempty. split; [reflexivity |].
    split; [now exists "", "" | now split].
  - destruct (strings.first_digit_run _) as [digits |].
    + destruct Hrun as (Hne & Hall & pre & post & Hsplit & Hpre & Hpost).
      split; [exact Hall |]. split; [now exists pre, post |].
      split; [congruence |]. intros Hnone. rewrite Hsplit in Hnone.
      exfalso. clear Hsplit Hpost Hpre Hempty.
      induction pre as [| a pre IH]; simpl in Hnone.
      * destruct digits as [| d digits]; [congruence |].
        simpl in Hall, Hnone. apply andb_true_iff in Hall as [Hd _].
        now rewrite Hd in Hnone.
      * apply orb_false_iff in Hnone as [_ Hnone]. now apply IH.
    + split; [reflexivity |]. split; [| now split].
      exists (parser.UPDXML.RequisiteNumber upd), "". simpl.
      now rewrite string_app_nil_r.
Qed.

(** ** Decimals *)

Lemma NewFromString_exp (s : string) (d : decimal.Decimal) :
  decimal.NewFromString s = Some d ->
  decimal.MinInt32 <= decimal.exp d <= decimal.MaxInt32.
Proof.
  unfold decimal.NewFromString. intros H.
  repeat case_match; simplify_eq; simpl;
    match goal with
    | E : (_ <? _) || (_ <? _) = false |- _ =>
        apply orb_false_iff in E as [E1 E2];
        apply Z.ltb_ge in E1; apply Z.ltb_ge in E2; lia
    end.
Qed.

(** X5. Every decimal read by [parseDecimal] has an exponent in the int32
    range, so multiplying it by 100 (exponent 0) stays within the range in
    which [Decimal.Mul] does not panic. *)
Theorem parsed_decimal_exponent_in_range (s : string) :
  decimal.MinInt32 <= decimal.exp (parser.parseDecimal s) <= decimal.MaxInt32
  /\ decimal.MinInt32
     <= decimal.exp (decimal.Mul (parser.parseDecimal s) (decimal.NewFromInt 100))
     <= decimal.MaxInt32.
Proof.
  assert (H : decimal.MinInt32 <= decimal.exp (parser.parseDecimal s) <= decimal.MaxInt32).
  { unfold parser.parseDecimal.
    destruct (String.eqb s ""); [vm_compute; split; discriminate |].
    destruct (decimal.NewFromString s) as [d |] eqn:E;
      [now apply (NewFromString_exp s) | vm_compute; split; discriminate]. }
  split; [exact H |]. simpl. now rewrite Z.add_0_r.
Qed.

Lemma Int64_small (z : Z) : - 2 ^ 63 <= z < 2 ^ 63 -> decimal.Int64 z = z.
Proof. intros H. unfold decimal.Int64. rewrite Z.mod_small; lia. Qed.

(** X6. The document's unit price in kopecks is exact for a price with at
    most two fractional digits: for a price [v * 10^e] with [e >= -2] it is
    [v * 10^(e+2)] (reduced to int64); further fractional digits are cut off
    toward zero. *)
Theorem kopecks_of_document_price (item : InvoiceItem.t) (v e : Z) :
  InvoiceItem.Price item = decimal.New v e ->
  (- 2 <= e -> moysklad.updPriceKopecks item = decimal.Int64 (v * 10 ^ (e + 2)))
  /\ (- 2 <= e -> - 2 ^ 63 <= v * 10 ^ (e + 2) < 2 ^ 63 ->
      moysklad.updPriceKopecks item = v * 10 ^ (e + 2))
  /\ (e < - 2 ->
      moysklad.updPriceKopecks item = decimal.Int64 (Z.quot (v * 100) (10 ^ (- e)))).
Proof.
  intros Hprice.
  assert (Hexact : - 2 <= e ->
                   moysklad.updPriceKopecks item = decimal.Int64 (v * 10 ^ (e + 2))).
  { intros He. unfold moysklad.updPriceKopecks, decimal.IntPart, decimal.Mul,
      decimal.rescale, decimal.NewFromInt.
    rewrite Hprice. simpl decimal.exp. simpl decimal.value. rewrite Z.add_0_r.
    destruct (e =? 0) eqn:E0.
    - apply Z.eqb_eq in E0. subst e. reflexivity.
    - apply Z.eqb_neq in E0. destruct (e <? 0) eqn:Eneg; simpl decimal.value.
      + apply Z.ltb_lt in Eneg. f_equal.
        assert (e = - 1 \/ e = - 2) as [-> | ->] by lia.
        * change (10 ^ Z.abs (0 - -1)) with 10. change (10 ^ (-1 + 2)) with 10.
          replace (v * 100) with (v * 10 * 10) by ring. now rewrite Z.quot_mul.
        * change (10 ^ Z.abs (0 - -2)) with 100. change (10 ^ (-2 + 2)) with 1.
          rewrite Z.quot_mul by lia. ring.
      + apply Z.ltb_ge in Eneg. f_equal.
        replace (Z.abs (0 - e)) with e by lia.
        rewrite Z.pow_add_r by lia. change (10 ^ 2) with 100. ring. }
  split; [exact Hexact |]. split.
  - intros He Hrange. rewrite (Hexact He). now apply Int64_small.
  - intros He. unfold moysklad.updPriceKopecks, decimal.IntPart, decimal.Mul,
      decimal.rescale, decimal.NewFromInt.
    rewrite Hprice. simpl decimal.exp. simpl decimal.value. rewrite Z.add_0_r.
    destruct (e =? 0) eqn:E0; [apply Z.eqb_eq in E0; lia |].
    destruct (e <? 0) eqn:Eneg; [| apply Z.ltb_ge in Eneg; lia].
    simpl decimal.value. do 2 f_equal. f_equal. lia.
Qed.

Lemma kopecks_of_document_price_witness :
  moysklad.updPriceKopecks (Demo.item "Gadget" "A1" (decimal.New 9900 (-2))) = 9900
  /\ moysklad.updPriceKopecks (Demo.item "Gadget" "A1" (decimal.New 12345 (-3)))
     = decimal.Int64 (Z.quot (12345 * 100) (10 ^ (- -3))).
Proof.
  split.
  - apply (proj1 (proj2 (kopecks_of_document_price
                           (Demo.item "Gadget" "A1" (decimal.New 9900 (-2)))
                           9900 (-2) eq_refl))).
    + lia.
    + vm_compute. split; [discriminate | reflexivity].
  - apply (proj2 (proj2 (kopecks_of_document_price
                           (Demo.item "Gadget" "A1" (decimal.New 12345 (-3)))
                           12345 (-3) eq_refl))).
    reflexivity.
Defined.

(** ** Trimming *)

Lemma TrimLeftSpace_suffix (n : nat) :
  forall s, (String.length s <= n)%nat -> exists p, s = p +:+ strings.TrimLeftSpace s.
Proof.
  induction n as [| n IH]; intros s Hlen.
  - destruct s; [now exists "" | simpl in Hlen; lia].
  - destruct s as [| a r1]; [now exists "" |].
    cbn [strings.TrimLeftSpace]. simpl in Hlen.
    destruct (strings.space1 a).
    { destruct (IH r1) as [p Hp]; [lia |]. exists (String a p). simpl. now rewrite <- Hp. }
    destruct r1 as [| b r2]; [now exists "" |]. simpl in Hlen.
    destruct (strings.space2 a b).
    { destruct (IH r2) as [p Hp]; [lia |].
      exists (String a (String b p)). simpl. now rewrite <- Hp. }
    destruct r2 as [| c r3]; [now exists "" |]. simpl in Hlen.
    destruct (strings.space3 a b c); [| now exists ""].
    destruct (IH r3) as [p Hp]; [lia |].
    exists (String a (String b (String c p))). simpl. now rewrite <- Hp.
Qed.

Lemma TrimLeftSpaceRev_suffix (n : nat) :
  forall s, (String.length s <= n)%nat -> exists p, s = p +:+ strings.TrimLeftSpaceRev s.
Proof.
  induction n as [| n IH]; intros s Hlen.
  - destruct s; [now exists "" | simpl in Hlen; lia].
  - destruct s as [| a r1]; [now exists "" |].
    cbn [strings.TrimLeftSpaceRev]. simpl in Hlen.
    destruct (strings.space1 a).
    { destruct (IH r1) as [p Hp]; [lia |]. exists (String a p). simpl. now rewrite <- Hp. }
    destruct r1 as [| b r2]; [now exists "" |]. simpl in Hlen.
    destruct (strings.space2 b a).
    { destruct (IH r2) as [p Hp]; [lia |].
      exists (String a (String b p)). simpl. now rewrite <- Hp. }
    destruct r2 as [| c r3]; [now exists "" |]. simpl in Hlen.
    destruct (strings.space3 c b a); [| now exists ""].
    destruct (IH r3) as [p Hp]; [lia |].
    exists (String a (String b (String c p))). simpl. now rewrite <- Hp.
Qed.

Lemma rev_app_spec (s acc : string) : String.rev_app s acc = String.rev s +:+ acc.
Proof.
  unfold String.rev. revert acc.
  induction s as [| a s IH]; intros acc; simpl; [reflexivity |].
  rewrite IH, (IH (String a "")), string_app_assoc. reflexivity.
Qed.

Lemma rev_app_distr (s t : string) :
  String.rev (s +:+ t) = String.rev t +:+ String.rev s.
Proof.
  induction s as [| a s IH]; simpl.
  - now rewrite string_app_nil_r.
  - unfold String.rev at 1 3. simpl.
    rewrite !rev_app_spec, IH, string_app_assoc. reflexivity.
Qed.

Lemma rev_rev (s : string) : String.rev (String.rev s) = s.
Proof.
  induction s as [| a s IH]; [reflexivity |].
  unfold String.rev at 2. simpl. rewrite rev_app_spec, rev_app_distr, IH. reflexivity.
Qed.

Lemma TrimSpace_substring (s : string) :
  exists pre post, s = pre +:+ strings.TrimSpace s +:+ post.
Proof.
  unfold strings.TrimSpace, strings.TrimRightSpace.
  destruct (TrimLeftSpace_suffix _ s (le_n _)) as [pre Hpre].
  destruct (TrimLeftSpaceRev_suffix _ (String.rev (strings.TrimLeftSpace s)) (le_n _))
    as [q Hq].
  exists pre, (String.rev q).
  rewrite <- rev_app_distr, <- Hq, rev_rev. exact Hpre.
Qed.

(** X7. [TrimSpace] only removes bytes from the two ends of a text, so it
    never lengthens it; hence every main document whose text, as
    [readFileWithEncoding] returns it (decoded to UTF-8), has at most 100
    bytes, white space included, is parsed to the fallback document.  The
    bound is on the decoded text, not on the file: a Cyrillic letter is one
    byte in the file and two in the text. *)
Theorem short_file_is_a_stub
    (xml_Unmarshal : string -> result parser.UPDXML.t)
    (time_Parse : string -> option Time)
    (os_IsNotExist : string -> bool)
    (readFileWithEncoding : string -> result string)
    (now : Time) (extractDir mainDocumentPath content : string) :
  (exists pre post, content = pre +:+ strings.TrimSpace content +:+ post)
  /\ (String.length (strings.TrimSpace content) <= String.length content)%nat
  /\ (os_IsNotExist (filepath.Join extractDir mainDocumentPath) = false ->
      readFileWithEncoding (filepath.Join extractDir mainDocumentPath) = Ok content ->
      (String.length content <= 100)%nat ->
      parser.parseUPDContent xml_Unmarshal time_Parse os_IsNotExist
        readFileWithEncoding now extractDir mainDocumentPath
      = Ok (parser.createBasicUPDContent now)).
Proof.
  pose proof (TrimSpace_substring content) as Hsub.
  assert (Hlen : (String.length (strings.TrimSpace content) <= String.length content)%nat).
  { destruct Hsub as (pre & post & Hsub).
    rewrite Hsub at 2. rewrite !string_app_length. lia. }
  split; [exact Hsub |]. split; [exact Hlen |].
  intros Hstat Hread Hshort. unfold parser.parseUPDContent.
  rewrite Hstat, Hread.
  destruct (_ <=? _)%nat eqn:E; [reflexivity |].
  apply Nat.leb_gt in E. lia.
Qed.

Lemma short_file_is_a_stub_witness :
  parser.parseUPDContent Demo.unmarshal (fun _ => None) (fun _ => false)
    (fun _ => Ok Demo.stubDocument) 0 "temp/upd_extract" "ON_NSCHFDOPPR.xml"
  = Ok (parser.createBasicUPDContent 0).
Proof.
  apply (proj2 (proj2 (short_file_is_a_stub Demo.unmarshal (fun _ => None)
                         (fun _ => false) (fun _ => Ok Demo.stubDocument) 0
                         "temp/upd_extract" "ON_NSCHFDOPPR.xml" Demo.stubDocument))).
  - reflexivity.
  - reflexivity.
  - vm_compute. lia.
Defined.

(** ** Extraction and the whole archive *)

Section ExtractionCompleteness.
Variable zip_OpenReader : string -> result (list parser.ZipFile.t).
Variable os_error : list parser.fs_op -> parser.fs_op -> option string.
Variable zip_Open_error : parser.ZipFile.t -> option string.

Lemma extractFiles_complete (extractDir : string) (files : list parser.ZipFile.t) :
  forall done done',
    parser.extractFiles os_error zip_Open_error extractDir files done = (Ok tt, done') ->
    exists new,
      done' = done ++ new
      /\ Forall (extracted os_error extractDir done') files.
Proof.
  induction files as [| file rest IH]; intros done done' Hrun; simpl in Hrun.
  - injection Hrun as <-. exists []. split; [now rewrite app_nil_r | constructor].
  - destruct (strings.HasPrefix _ _) eqn:Hin; simpl in Hrun; [| discriminate].
    destruct (parser.ZipFile.IsDir file) eqn:Hdir.
    { destruct (IH _ _ Hrun) as (new & -> & Hrest).
      eexists. split; [now rewrite <- app_assoc |].
      constructor; [| exact Hrest].
      unfold extracted. rewrite Hdir. split; [exact Hin |].
      rewrite !elem_of_app, list_elem_of_singleton. auto. }
    destruct (os_error done _) eqn:Hmk; [discriminate |].
    destruct (zip_Open_error file); [discriminate |].
    destruct (os_error _ (parser.OpenFile _)) eqn:Hopen; [discriminate |].
    destruct (os_error _ (parser.Copy _ _)) eqn:Hcopy; [discriminate |].
    destruct (IH _ _ Hrun) as (new & -> & Hrest).
    eexists. split; [now rewrite <- !app_assoc |].
    constructor; [| exact Hrest].
    unfold extracted. rewrite Hdir. split; [exact Hin |].
    exists done, new. split; [now rewrite <- !app_assoc |].
    split; [exact Hmk |]. split; [exact Hopen |].
    now rewrite <- app_assoc in Hcopy.
Qed.

(** X8. When the extraction succeeds, the scratch directory was made first,
    without an error, and for every file entry of the archive the parent
    directory was made, the file opened and the entry's data copied into it,
    each without an error and inside the scratch directory.  For a directory
    entry the creation was only attempted: its error is dropped, so the
    extraction can succeed without the directory. *)
Theorem successful_extraction_is_complete (zipPath extractDir : string)
    (files : list parser.ZipFile.t) (done done' : list parser.fs_op) :
  zip_OpenReader zipPath = Ok files ->
  parser.extractArchive zip_OpenReader os_error zip_Open_error zipPath done
  = (Ok extractDir, done') ->
  os_error done (parser.MkdirAll extractDir) = None
  /\ (exists new, done' = done ++ parser.MkdirAll extractDir :: new)
  /\ Forall (extracted os_error extractDir done') files.
Proof.
  unfold parser.extractArchive. intros -> Hrun.
  destruct (os_error done _) eqn:Hmk; [discriminate |].
  destruct (parser.extractFiles _ _ _ _ _) as [[[] | err] trace] eqn:Hloop;
    [| discriminate].
  injection Hrun as <- <-.
  destruct (extractFiles_complete _ _ _ _ Hloop) as (new & -> & Hall).
  split; [exact Hmk |]. split; [| exact Hall].
  exists new. now rewrite <- app_assoc.
Qed.

End ExtractionCompleteness.

Section ArchiveProperties.
Variable zip_OpenReader : string -> result (list parser.ZipFile.t).
Variable os_error : list parser.fs_op -> parser.fs_op -> option string.
Variable zip_Open_error : parser.ZipFile.t -> option string.
Variable os_IsNotExist : list parser.fs_op -> string -> bool.
Variable os_ReadFile : list parser.fs_op -> string -> result string.
Variable readFileWithEncoding : list parser.fs_op -> string -> result string.
Variable xml_Unmarshal_meta : string -> result (list parser.DocFlow.t).
Variable xml_Unmarshal_card : string -> result parser.CardXML.t.
Variable xml_Unmarshal : string -> result parser.UPDXML.t.
Variable time_Parse_RFC3339 : string -> option Time.
Variable time_Parse : string -> option Time.

(** X9. [ParseUPDArchive] removes the scratch directory as its last
    operation on every return after the extraction succeeded, whether the
    index, the card or the main document then fails or all succeed; when the
    extraction fails it returns the extraction error and attempts no
    removal. *)
Theorem scratch_directory_removed_after_extraction
    (nowCard nowContent : Time) (zipPath : string) (done : list parser.fs_op) :
  match parser.extractArchive zip_OpenReader os_error zip_Open_error zipPath done with
  | (Ok extractDir, done1) =>
      (parser.ParseUPDArchive zip_OpenReader os_error zip_Open_error os_IsNotExist
         os_ReadFile readFileWithEncoding xml_Unmarshal_meta xml_Unmarshal_card
         xml_Unmarshal time_Parse_RFC3339 time_Parse nowCard nowContent zipPath done).2
      = done1 ++ [parser.RemoveAll extractDir]
  | (Error err, done1) =>
      parser.ParseUPDArchive zip_OpenReader os_error zip_Open_error os_IsNotExist
        os_ReadFile readFileWithEncoding xml_Unmarshal_meta xml_Unmarshal_card
        xml_Unmarshal time_Parse_RFC3339 time_Parse nowCard nowContent zipPath done
      = (Error ("Error extracting archive: " +:+ err), done1)
  end.
Proof.
  unfold parser.ParseUPDArchive.
  destruct (parser.extractArchive _ _ _ _ _) as [[extractDir | err] done1];
    [| reflexivity].
  destruct (parser.parseMetaXML _ _ _ _ _) as [metaInfo | err]; [| reflexivity].
  destruct (parser.parseCardXML _ _ _ _ _ _ _ _) as [cardInfo | err]; [| reflexivity].
  destruct (parser.parseUPDContent _ _ _ _ _ _ _); reflexivity.
Qed.

Lemma parseMetaXML_fields (done : list parser.fs_op) (extractDir : string)
    (metaInfo : MetaInfo.t) :
  parser.parseMetaXML os_IsNotExist os_ReadFile xml_Unmarshal_meta done extractDir
  = Ok metaInfo ->
  MetaInfo.DocFlowID metaInfo <> ""
  /\ MetaInfo.MainDocumentPath metaInfo <> ""
  /\ MetaInfo.CardPath metaInfo <> "".
Proof.
  unfold parser.parseMetaXML.
  destruct (os_IsNotExist _ _); [discriminate |].
  destruct (os_ReadFile _ _) as [data | err]; [| discriminate].
  destruct (xml_Unmarshal_meta data) as [[| flow others] | err]; try discriminate.
  destruct (String.eqb (parser.DocFlow.ID flow) "") eqn:E1; [discriminate |].
  destruct (String.eqb (parser.DocFlow.MainImage flow) "") eqn:E2; [discriminate |].
  destruct (String.eqb (parser.DocFlow.ExternalCard flow) "") eqn:E3; [discriminate |].
  simpl. intros [= <-]. simpl. auto using eqb_false_ne.
Qed.

(** X10. The index is accepted exactly when [meta.xml] exists, is readable
    and decodes to at least one flow whose identifier and two paths are not
    empty; the result is taken from the first flow and later flows are
    ignored. *)
Theorem index_is_validated (done : list parser.fs_op) (extractDir : string)
    (metaInfo : MetaInfo.t) :
  parser.parseMetaXML os_IsNotExist os_ReadFile xml_Unmarshal_meta done extractDir
  = Ok metaInfo
  <-> os_IsNotExist done (filepath.Join extractDir "meta.xml") = false
      /\ exists data flow others,
           os_ReadFile done (filepath.Join extractDir "meta.xml") = Ok data
           /\ xml_Unmarshal_meta data = Ok (flow :: others)
           /\ parser.DocFlow.ID flow <> ""
           /\ parser.DocFlow.MainImage flow <> ""
           /\ parser.DocFlow.ExternalCard flow <> ""
           /\ metaInfo = MetaInfo.mk (parser.DocFlow.ID flow)
                           (parser.DocFlow.MainImage flow)
                           (parser.DocFlow.ExternalCard flow).
Proof.
  unfold parser.parseMetaXML. split.
  - destruct (os_IsNotExist _ _); [discriminate |].
    destruct (os_ReadFile _ _) as [data | err]; [| discriminate].
    destruct (xml_Unmarshal_meta data) as [[| flow others] | err] eqn:Hflows;
      try discriminate.
    destruct (String.eqb (parser.DocFlow.ID flow) "") eqn:E1; [discriminate |].
    destruct (String.eqb (parser.DocFlow.MainImage flow) "") eqn:E2; [discriminate |].
    destruct (String.eqb (parser.DocFlow.ExternalCard flow) "") eqn:E3; [discriminate |].
    simpl. intros [= <-]. split; [reflexivity |].
    exists data, flow, others. repeat split; auto using eqb_false_ne.
  - intros (-> & data & flow & others & -> & -> & H1 & H2 & H3 & ->).
    apply String.eqb_neq in H1, H2, H3. now rewrite H1, H2, H3.
Qed.

Lemma parseUPDContent_invariants
    (not_exist : string -> bool) (read : string -> result string)
    (now : Time) (extractDir path : string) (content : UPDContent.t) :
  parser.parseUPDContent xml_Unmarshal time_Parse not_exist read now extractDir path
  = Ok content ->
  UPDContent.InvoiceNumber content <> ""
  /\ Organization.INN (UPDContent.Seller content) <> ""
  /\ Organization.INN (UPDContent.Buyer content) <> "".
Proof.
  unfold parser.parseUPDContent.
  destruct (not_exist _); [discriminate |].
  destruct (read _) as [text | err]; [| discriminate].
  destruct (_ <=? _)%nat; [intros [= <-]; now repeat split |].
  unfold parser.parseFullUPDContent.
  destruct (xml_Unmarshal text) as [upd | err]; intros [= <-]; simpl;
    [| now repeat split].
  repeat split; try apply parseOrganization_INN.
  destruct (String.eqb (parser.UPDXML.Number upd) "") eqn:E; [discriminate |].
  now apply eqb_false_ne.
Qed.

(** X11. A document returned by [ParseUPDArchive] has a non-empty flow
    identifier, main-document path and card path, a non-empty invoice number
    and non-empty tax ids of seller and buyer; an error it returns names the
    stage that failed. *)
Theorem parsed_archive_is_well_formed
    (nowCard nowContent : Time) (zipPath : string) (done : list parser.fs_op) :
  match (parser.ParseUPDArchive zip_OpenReader os_error zip_Open_error os_IsNotExist
           os_ReadFile readFileWithEncoding xml_Unmarshal_meta xml_Unmarshal_card
           xml_Unmarshal time_Parse_RFC3339 time_Parse nowCard nowContent zipPath done).1
  with
  | Ok updDocument =>
      MetaInfo.DocFlowID (UPDDocument.MetaInfo updDocument) <> ""
      /\ MetaInfo.MainDocumentPath (UPDDocument.MetaInfo updDocument) <> ""
      /\ MetaInfo.CardPath (UPDDocument.MetaInfo updDocument) <> ""
      /\ UPDContent.InvoiceNumber (UPDDocument.Content updDocument) <> ""
      /\ Organization.INN (UPDContent.Seller (UPDDocument.Content updDocument)) <> ""
      /\ Organization.INN (UPDContent.Buyer (UPDDocument.Content updDocument)) <> ""
  | Error msg =>
      exists stage err,
        msg = stage +:+ err
        /\ stage ∈ ["Error extracting archive: "; "Error parsing meta.xml: ";
                    "Error parsing card.xml: "; "Error parsing UPD content: "]
  end.
Proof.
  unfold parser.ParseUPDArchive.
  destruct (parser.extractArchive _ _ _ _ _) as [[extractDir | err] done1];
    [| exists "Error extracting archive: ", err; split; [reflexivity | set_solver]].
  destruct (parser.parseMetaXML _ _ _ _ _) as [metaInfo | err] eqn:Hmeta;
    [| exists "Error parsing meta.xml: ", err; split; [reflexivity | set_solver]].
  destruct (parser.parseCardXML _ _ _ _ _ _ _ _) as [cardInfo | err];
    [| exists "Error parsing card.xml: ", err; split; [reflexivity | set_solver]].
  destruct (parser.parseUPDContent _ _ _ _ _ _ _) as [content | err] eqn:Hcontent;
    [| exists "Error parsing UPD content: ", err; split; [reflexivity | set_solver]].
  apply parseMetaXML_fields in Hmeta.
  destruct Hmeta as (H1 & H2 & H3).
  destruct (parseUPDContent_invariants _ _ _ _ _ _ Hcontent) as (H4 & H5 & H6).
  now repeat split.
Qed.

End ArchiveProperties.

(** The archive holds the directory entry [docs/]; the extraction succeeds
    on a file system that refuses to make that directory. *)
Lemma successful_extraction_is_complete_witness :
  Demo.docsBlocked [] (parser.MkdirAll "temp/upd_extract") = None
  /\ (exists new,
      (parser.extractArchive (fun _ => Ok Demo.goodArchive) Demo.docsBlocked Demo.zip_ok
         "temp/upd_1111.zip" []).2
      = [] ++ parser.MkdirAll "temp/upd_extract" :: new)
  /\ Forall
       (extracted Demo.docsBlocked "temp/upd_extract"
          (parser.extractArchive (fun _ => Ok Demo.goodArchive) Demo.docsBlocked
             Demo.zip_ok "temp/upd_1111.zip" []).2)
       Demo.goodArchive.
Proof.
  apply (successful_extraction_is_complete (fun _ => Ok Demo.goodArchive)
           Demo.docsBlocked Demo.zip_ok "temp/upd_1111.zip" "temp/upd_extract"
           Demo.goodArchive []).
  - reflexivity.
  - vm_compute. reflexivity.
Defined.

Lemma index_is_validated_witness :
  parser.parseMetaXML Demo.isNotExist Demo.readFile Demo.unmarshalMeta
    [parser.Copy "temp/upd_extract/meta.xml" Demo.metaText] "temp/upd_extract"
  = Ok (MetaInfo.mk "flow-1" "doc.xml" "card.xml").
Proof.
  apply (proj2 (index_is_validated Demo.isNotExist Demo.readFile Demo.unmarshalMeta
                  [parser.Copy "temp/upd_extract/meta.xml" Demo.metaText]
                  "temp/upd_extract" (MetaInfo.mk "flow-1" "doc.xml" "card.xml"))).
  split; [vm_compute; reflexivity |].
  exists Demo.metaText, (parser.DocFlow.mk "flow-1" "doc.xml" "card.xml"), [].
  split; [vm_compute; reflexivity |].
  split; [vm_compute; reflexivity |].
  repeat split; discriminate.
Defined.

(** ** Tax rates and recorded prices *)

Lemma digit_is_no_sign (a : ascii) :
  strings.is_digit a = true -> Ascii.eqb a "+" = false /\ Ascii.eqb a "-" = false.
Proof.
  destruct a as [[] [] [] [] [] [] [] []]; vm_compute; intros H;
    first [discriminate H | split; reflexivity].
Qed.

Lemma digits_from_nonneg (s : string) :
  forall acc v, 0 <= acc -> strings.digits_from acc s = Some v -> 0 <= v.
Proof.
  induction s as [| a s IH]; intros acc v Hacc; simpl.
  - now intros [= <-].
  - destruct (strings.is_digit a) eqn:Ha; [| discriminate].
    apply IH. unfold strings.is_digit in Ha. unfold strings.digit_val.
    apply andb_true_iff in Ha as [Hlo _]. apply N.leb_le in Hlo. lia.
Qed.

Lemma has_digit_run (pre digits post : string) :
  digits <> "" -> all_digits digits = true ->
  has_digit (pre +:+ digits +:+ post) = true.
Proof.
  intros Hne Hall. induction pre as [| a pre IH]; simpl.
  - destruct digits as [| d digits]; [congruence |].
    simpl in *. apply andb_true_iff in Hall as [-> _]. reflexivity.
  - rewrite IH. apply orb_true_r.
Qed.

Lemma digits_from_value (s : string) :
  forall acc,
    all_digits s = true ->
    strings.digits_from acc s
    = Some (fold_left (fun acc a => 10 * acc + (Z.of_N (N_of_ascii a) - 48))
              (list_ascii_of_string s) acc).
Proof.
  induction s as [| a s IH]; intros acc; simpl; [reflexivity |].
  intros Hall. apply andb_true_iff in Hall as [Ha Hs]. rewrite Ha. now apply IH.
Qed.

Lemma take_digits_app (digits post : string) :
  all_digits digits = true -> starts_with_digit post = false ->
  strings.take_digits (digits +:+ post) = digits.
Proof.
  intros Hall Hpost. induction digits as [| d digits IH]; simpl in *.
  - destruct post as [| a post]; simpl in *; [reflexivity | now rewrite Hpost].
  - apply andb_true_iff in Hall as [-> Hall]. now rewrite IH.
Qed.

Lemma first_digit_run_unique (pre digits post : string) :
  has_digit pre = false -> digits <> "" -> all_digits digits = true ->
  starts_with_digit post = false ->
  strings.first_digit_run (pre +:+ digits +:+ post) = Some digits.
Proof.
  intros Hpre Hne Hall Hpost. induction pre as [| a pre IH]; simpl in *.
  - destruct digits as [| d digits]; [congruence |].
    pose proof (take_digits_app (String d digits) post Hall Hpost) as Htake.
    simpl in *. apply andb_true_iff in Hall as [Hd _]. rewrite Hd in *.
    now rewrite Htake.
  - apply orb_false_iff in Hpre as [-> Hpre]. now apply IH.
Qed.

Lemma first_digit_run_none (s : string) :
  has_digit s = false -> strings.first_digit_run s = None.
Proof.
  induction s as [| a s IH]; simpl; [reflexivity |].
  intros H. apply orb_false_iff in H as [-> H]. now apply IH.
Qed.

(** X12. The VAT rate of a position is the number written by the first run
    of decimal digits in the rate label, provided it is below 2^63; it is 18
    when that number is larger and when the label has no digit.  It is never
    negative. *)
Theorem vat_rate_is_first_number_or_default :
  (forall pre digits post : string,
      has_digit pre = false -> digits <> "" -> all_digits digits = true ->
      starts_with_digit post = false ->
      moysklad.getVATRate (pre +:+ digits +:+ post)
      = if decimalValue digits <? 2 ^ 63 then decimalValue digits else 18)
  /\ (forall vatRateStr : string,
      has_digit vatRateStr = false -> moysklad.getVATRate vatRateStr = 18)
  /\ (forall vatRateStr : string, 0 <= moysklad.getVATRate vatRateStr < 2 ^ 63).
Proof.
  assert (Hsigned : forall digits,
             digits <> "" -> all_digits digits = true ->
             strings.signed_digits digits = Some (decimalValue digits)).
  { intros digits Hne Hall.
    destruct digits as [| d digits]; [congruence |].
    pose proof (digits_from_value (String d digits) 0 Hall) as Hvalue.
    simpl in Hall. apply andb_true_iff in Hall as [Hd _].
    destruct (digit_is_no_sign d Hd) as [E1 E2].
    unfold strings.signed_digits. now rewrite E1, E2. }
  split; [| split].
  - intros pre digits post Hpre Hne Hall Hpost. unfold moysklad.getVATRate.
    assert (String.eqb (pre +:+ digits +:+ post) "" = false) as ->.
    { apply String.eqb_neq.
      destruct pre; [destruct digits; [congruence |] |]; discriminate. }
    rewrite first_digit_run_unique by assumption.
    unfold strings.ParseInt. rewrite Hsigned by assumption.
    assert (0 <= decimalValue digits).
    { eapply (digits_from_nonneg digits 0); [lia |].
      now apply digits_from_value. }
    destruct (decimalValue digits <? 2 ^ 63) eqn:Hhi.
    + apply Z.ltb_lt in Hhi.
      destruct (- 2 ^ (64 - 1) <=? decimalValue digits) eqn:Hlo;
        [| apply Z.leb_gt in Hlo; lia].
      destruct (decimalValue digits <? 2 ^ (64 - 1)) eqn:Hhi';
        [reflexivity | apply Z.ltb_ge in Hhi'; lia].
    + apply Z.ltb_ge in Hhi.
      destruct (decimalValue digits <? 2 ^ (64 - 1)) eqn:Hhi';
        [apply Z.ltb_lt in Hhi'; lia |].
      now rewrite andb_false_r.
  - intros vatRateStr Hnone. unfold moysklad.getVATRate.
    rewrite first_digit_run_none by assumption.
    now destruct (String.eqb vatRateStr "").
  - intros vatRateStr. unfold moysklad.getVATRate.
    pose proof (first_digit_run_spec vatRateStr) as Hrun.
    destruct (String.eqb vatRateStr ""); [lia |].
    destruct (strings.first_digit_run vatRateStr) as [digits |]; [| lia].
    destruct Hrun as (Hne & Hall & _).
    unfold strings.ParseInt. rewrite Hsigned by assumption.
    assert (0 <= decimalValue digits).
    { eapply (digits_from_nonneg digits 0); [lia |].
      now apply digits_from_value. }
    destruct ((- 2 ^ (64 - 1) <=? decimalValue digits)
              && (decimalValue digits <? 2 ^ (64 - 1))) eqn:Hrange; [| lia].
    apply andb_true_iff in Hrange as [_ Hhi]. apply Z.ltb_lt in Hhi. lia.
Qed.

Lemma vat_rate_is_first_number_or_default_witness :
  moysklad.getVATRate "НДС 20%" = 20
  /\ moysklad.getVATRate "10/110" = 10
  /\ moysklad.getVATRate "без НДС" = 18.
Proof.
  split; [| split].
  - apply (proj1 vat_rate_is_first_number_or_default "НДС " "20" "%");
      first [reflexivity | discriminate].
  - apply (proj1 vat_rate_is_first_number_or_default "" "10" "/110");
      first [reflexivity | discriminate].
  - apply (proj1 (proj2 vat_rate_is_first_number_or_default) "без НДС").
    reflexivity.
Defined.

(** ** Prices recorded from the source invoice *)








(** ** Further properties of the reconciliation engine *)

Section EngineRequests.
Context {Server : Type}.
Variable serve : Server -> moysklad.Request -> result moysklad.Response * Server.
Variable baseURL : string.
Variable time_Format : Time -> string.
Variable fmt_s : moysklad.JSON -> string.

Implicit Types (P : moysklad.Request -> Prop) (w : moysklad.World Server).

Lemma within_ret {A} n P (a : A) : sendsWithin n P (moysklad.ret (Server := Server) a).
Proof.
  intros w. exists []. simpl. rewrite app_nil_r.
  split; [reflexivity |]. split; [constructor | lia].
Qed.

Lemma within_fail {A} n P msg :
  sendsWithin n P (moysklad.fail (Server := Server) (A := A) msg).
Proof.
  intros w. exists []. simpl. rewrite app_nil_r.
  split; [reflexivity |]. split; [constructor | lia].
Qed.

Lemma within_panic {A} n P : sendsWithin n P (moysklad.panic (Server := Server) (A := A)).
Proof.
  intros w. exists []. simpl. rewrite app_nil_r.
  split; [reflexivity |]. split; [constructor | lia].
Qed.

Lemma within_bind {A B} n1 n2 P (m : moysklad.M Server A) (k : A -> moysklad.M Server B) :
  sendsWithin n1 P m -> (forall a, sendsWithin n2 P (k a)) ->
  sendsWithin (n1 + n2) P (moysklad.bind m k).
Proof.
  intros Hm Hk w. unfold moysklad.bind.
  destruct (Hm w) as (new1 & E1 & F1 & L1).
  destruct (m w) as [[a | msg |] w1]; simpl in *.
  - destruct (Hk a w1) as (new2 & E2 & F2 & L2).
    exists (new1 ++ new2). rewrite E2, E1, app_assoc, length_app.
    split; [reflexivity |]. split; [now apply Forall_app | lia].
  - exists new1. split; [assumption |]. split; [assumption | lia].
  - exists new1. split; [assumption |]. split; [assumption | lia].
Qed.

Lemma within_request P method endpoint data params :
  P (moysklad.mkRequest method endpoint data params) ->
  sendsWithin 1 P (moysklad.makeRequest serve method endpoint data params).
Proof.
  intros HP w. unfold moysklad.makeRequest.
  destruct (moysklad.marshalError data).
  { exists []. simpl. rewrite app_nil_r.
    split; [reflexivity |]. split; [constructor | simpl; lia]. }
  destruct (serve _ _) as [r s]. simpl.
  eexists. split; [reflexivity |]. split; [now repeat constructor | simpl; lia].
Qed.

Lemma within_request_bind {B} n P method endpoint data params
    (k : result moysklad.Response -> moysklad.M Server B) :
  P (moysklad.mkRequest method endpoint data params) ->
  (forall r, sendsWithin n P (k r)) ->
  sendsWithin (S n) P
    (moysklad.bind (moysklad.makeRequest serve method endpoint data params) k).
Proof. intros HP Hk. apply (within_bind 1 n); [now apply within_request | exact Hk]. Qed.

Lemma within_pure_bind {A B} n P (m : moysklad.M Server A) (k : A -> moysklad.M Server B) :
  sendsWithin 0 P m -> (forall a, sendsWithin n P (k a)) ->
  sendsWithin n P (moysklad.bind m k).
Proof. intros Hm Hk. apply (within_bind 0 n); assumption. Qed.

Lemma within_assert_map n P v : sendsWithin n P (moysklad.assert_map (Server := Server) v).
Proof.
  unfold moysklad.assert_map.
  destruct (moysklad.as_map v); [apply within_ret | apply within_panic].
Qed.

Lemma within_firstRow n P resp : sendsWithin n P (moysklad.firstRow (Server := Server) resp).
Proof.
  unfold moysklad.firstRow.
  repeat first [ apply within_ret | apply within_assert_map
               | match goal with
                 | |- sendsWithin _ _ (match ?x with _ => _ end) => destruct x
                 end ].
Qed.

(** Case analysis of a computation down to its requests, counting them. *)
Ltac within_step :=
  first
    [ apply within_ret | apply within_fail | apply within_panic
    | apply within_assert_map | apply within_firstRow
    | apply within_request_bind; [| intros ?]
    | apply within_pure_bind; [solve [apply within_firstRow | apply within_assert_map]
                              | intros ?]
    | match goal with
      | |- sendsWithin _ _ (match ?x with _ => _ end) => destruct x
      end ].

Lemma within_searchInvoice pattern :
  sendsWithin 2 isGET (moysklad.searchInvoice serve baseURL pattern).
Proof. unfold moysklad.searchInvoice. repeat within_step; reflexivity. Qed.

Lemma within_searchInvoices patterns :
  sendsWithin (2 * length patterns) isGET (moysklad.searchInvoices serve baseURL patterns).
Proof.
  induction patterns as [| pattern rest IH]; simpl.
  - apply within_fail.
  - replace (S (length rest + S (length rest + 0)))
      with (2 + 2 * length rest)%nat by lia.
    apply within_bind; [apply within_searchInvoice | intros [invoice |]].
    + apply within_ret.
    + exact IH.
Qed.

(** X14. The lookup of the source invoice sends at most six requests, all of
    them reads; for an empty reference it fails without sending anything;
    and it does not depend on the counterparty it is given. *)
Theorem source_invoice_lookup_is_bounded (requisiteNumber : string)
    (counterparty : moysklad.GoMap) :
  sendsWithin 6 isGET
    (moysklad.findCustomerInvoice serve baseURL requisiteNumber counterparty)
  /\ (forall w,
      moysklad.findCustomerInvoice serve baseURL "" counterparty w
      = (moysklad.Fail "requisite number not provided", w))
  /\ (forall other w,
      moysklad.findCustomerInvoice serve baseURL requisiteNumber other w
      = moysklad.findCustomerInvoice serve baseURL requisiteNumber counterparty w).
Proof.
  split; [| split; reflexivity].
  unfold moysklad.findCustomerInvoice.
  destruct (String.eqb _ _); [apply within_fail |].
  apply (within_searchInvoices [_; _; _]).
Qed.

(** X15. Resolving the buyer sends the search by tax id and at most one
    creation request after it, whatever the external system answers. *)
Theorem buyer_resolution_creates_at_most_once (buyer : Organization.t) w :
  moysklad.sent (moysklad.getOrCreateCounterparty serve buyer w).2
  = moysklad.sent w ++ [counterpartySearch (Organization.INN buyer)]
  \/ moysklad.sent (moysklad.getOrCreateCounterparty serve buyer w).2
     = moysklad.sent w ++ [counterpartySearch (Organization.INN buyer);
                           counterpartyCreation buyer].
Proof.
  unfold moysklad.getOrCreateCounterparty, moysklad.bind.
  rewrite makeRequest_sends by reflexivity.
  fold (counterpartySearch (Organization.INN buyer)).
  destruct (serve (moysklad.server w) _) as [[resp | err] s]; simpl; [| now left].
  pose proof (firstRow_world resp
                (moysklad.mkWorld s
                   (moysklad.sent w ++ [counterpartySearch (Organization.INN buyer)])))
    as Hworld.
  destruct (moysklad.firstRow _ _) as [[[existing |] | msg |] w1]; simpl in *;
    subst w1; [now left | | now left | now left].
  right. rewrite makeRequest_sends by apply counterpartyData_marshals.
  fold (counterpartyCreation buyer). cbn.
  destruct (serve s _) as [[resp' | err] s']; cbn.
  - destruct (moysklad.StatusCode resp' =? 200);
      [destruct (moysklad.decodeMap resp') |]; cbn; now rewrite <- app_assoc.
  - now rewrite <- app_assoc.
Qed.

Lemma within_checkPermissions :
  sendsWithin 3 isGET (moysklad.checkPermissions serve).
Proof. unfold moysklad.checkPermissions. repeat within_step; reflexivity. Qed.

(** X16. The token check and the status query only read: [VerifyToken]
    sends one GET, [checkPermissions] at most three and [VerifyAPIAccess] at
    most five, and none of them sends anything else. *)
Theorem status_query_is_read_only :
  sendsWithin 1 isGET (moysklad.VerifyToken serve)
  /\ sendsWithin 3 isGET (moysklad.checkPermissions serve)
  /\ sendsWithin 5 isGET (moysklad.VerifyAPIAccess serve baseURL).
Proof.
  split; [| split; [exact within_checkPermissions |]].
  - unfold moysklad.VerifyToken. repeat within_step. reflexivity.
  - unfold moysklad.VerifyAPIAccess.
    repeat first
      [ apply (within_bind 3 0); [exact within_checkPermissions | intros ?]
      | within_step ]; reflexivity.
Qed.

Ltac sends_step :=
  first
    [ apply sends_ret | apply sends_fail | apply sends_panic
    | apply sends_try
    | apply sends_firstRow | apply sends_assert_map
    | apply sends_makeRequest
    | apply sends_bind; [| intros ?]
    | match goal with
      | |- sends _ (match ?x with _ => _ end) => destruct x
      end ].

Lemma sends_getAnyAvailableService :
  sends isGET (moysklad.getAnyAvailableService serve).
Proof. unfold moysklad.getAnyAvailableService. repeat sends_step; reflexivity. Qed.

Lemma sends_createPositionsFromUPD content customerInvoice :
  sends isGET (moysklad.createPositionsFromUPD serve baseURL content customerInvoice).
Proof.
  unfold moysklad.createPositionsFromUPD.
  apply sends_bind.
  { destruct customerInvoice; [apply sends_getInvoicePositions | apply sends_ret]. }
  intros invoicePositions. apply sends_bind.
  { apply sends_forEach. intros state item. unfold moysklad.addItem.
    apply sends_bind; [apply sends_resolveProduct | intros [product |]];
      apply sends_ret. }
  intros [positions missingItems].
  destruct missingItems; [| apply sends_fail].
  destruct positions; [| apply sends_ret].
  apply sends_bind; [apply sends_getAnyAvailableService | intros [service |]];
    [apply sends_ret | apply sends_fail].
Qed.

Lemma sends_mapUPDToFactureOut updDocument organization counterparty demand :
  sends isGET
    (moysklad.mapUPDToFactureOut serve baseURL time_Format updDocument organization
       counterparty demand).
Proof.
  unfold moysklad.mapUPDToFactureOut.
  apply sends_bind; [apply sends_try, sends_findCustomerInvoice | intros found].
  apply sends_bind; [apply sends_try, sends_createPositionsFromUPD | intros assembled].
  apply sends_ret.
Qed.

Lemma isGET_engineRequest rq : isGET rq -> engineRequest rq.
Proof. now left. Qed.

Lemma sends_createDemand updDocument organization counterparty :
  sends engineRequest
    (moysklad.createDemand serve baseURL time_Format fmt_s updDocument organization
       counterparty).
Proof.
  unfold moysklad.createDemand.
  apply sends_bind.
  { apply sends_try, (sends_weaken isGET); [exact isGET_engineRequest |].
    apply sends_findCustomerInvoice. }
  intros [customerInvoice | err]; [| apply sends_fail].
  apply sends_bind.
  { apply sends_try, (sends_weaken isGET); [exact isGET_engineRequest |].
    apply sends_getStoreFromInvoice. }
  intros [store | err]; [| apply sends_fail].
  apply sends_bind.
  { apply (sends_weaken isGET); [exact isGET_engineRequest |].
    apply sends_createPositionsFromUPD. }
  intros positions. apply sends_bind.
  { apply sends_makeRequest. right. split; [reflexivity | set_solver]. }
  intros r. repeat sends_step.
Qed.

(** X17. Whatever the external system answers, the upload of a document
    sends only reads and creation requests for a counterparty, a shipment or
    an invoice; it never updates or deletes anything, so a shipment whose
    invoice could not be created is left in place. *)
Theorem upload_only_reads_and_creates (updDocument : UPDDocument.t) :
  sends engineRequest
    (moysklad.CreateInvoiceFromUPD serve baseURL time_Format fmt_s updDocument).
Proof.
  unfold moysklad.CreateInvoiceFromUPD.
  apply sends_bind.
  { apply sends_try, (sends_weaken isGET); [exact isGET_engineRequest |].
    apply sends_findOrganizationByINN. }
  intros [supplierOrg | err]; [| apply sends_fail].
  apply sends_bind.
  { unfold moysklad.getOrCreateCounterparty.
    repeat sends_step;
      first [ now left | right; split; [reflexivity | set_solver] ]. }
  intros buyerCounterparty. apply sends_bind; [apply sends_createDemand |].
  intros demand. apply sends_bind.
  { apply (sends_weaken isGET); [exact isGET_engineRequest |].
    apply sends_mapUPDToFactureOut. }
  intros invoiceData. apply sends_bind.
  { apply sends_makeRequest. right. split; [reflexivity | set_solver]. }
  intros r. repeat sends_step.
Qed.

(** X18. When the search for the seller's organization fails, for whatever
    reason, the upload fails with the message that names the seller's tax
    id, after that one search and nothing else. *)
Theorem missing_seller_aborts (updDocument : UPDDocument.t) w msg w1 :
  let inn := Organization.INN (UPDContent.Seller (UPDDocument.Content updDocument)) in
  moysklad.findOrganizationByINN serve inn w = (moysklad.Fail msg, w1) ->
  moysklad.CreateInvoiceFromUPD serve baseURL time_Format fmt_s updDocument w
  = (moysklad.Fail ("Supplier organization with INN " +:+ inn +:+ " not found in MoySkald"),
     w1)
  /\ moysklad.sent w1 = moysklad.sent w ++ [organizationSearch inn].
Proof.
  intros inn Hfind. split.
  - unfold moysklad.CreateInvoiceFromUPD, moysklad.bind at 1, moysklad.try.
    fold inn. rewrite Hfind. reflexivity.
  - revert Hfind.
    unfold moysklad.findOrganizationByINN, moysklad.bind, moysklad.makeRequest.
    fold (organizationSearch inn).
    destruct (serve _ _) as [[resp | err] s]; simpl.
    + destruct (moysklad.StatusCode resp =? 200);
        [| now intros [= _ <-]].
      destruct (moysklad.decodeMap resp) as [data | err]; [| now intros [= _ <-]].
      destruct (moysklad.rows data) as [[| org rest] |]; try now intros [= _ <-].
      unfold moysklad.assert_map. destruct (moysklad.as_map org); discriminate.
    + now intros [= _ <-].
Qed.

(** ** The two phases of an upload *)

Lemma createPositionsFromUPD_nonempty content customerInvoice w positions w' :
  moysklad.createPositionsFromUPD serve baseURL content customerInvoice w
  = (moysklad.Return positions, w') ->
  exists first others, positions = first :: others.
Proof.
  unfold moysklad.createPositionsFromUPD, moysklad.bind.
  destruct (match customerInvoice with
            | Some _ => moysklad.getInvoicePositions serve baseURL customerInvoice
            | None => moysklad.ret ∅
            end w) as [[invoicePositions | msg |] w1]; try discriminate.
  destruct (moysklad.forEach _ _ _ w1) as [[[found missingItems] | msg |] w2];
    try discriminate.
  destruct missingItems; [| discriminate].
  destruct found as [| first others]; [| intros [= <- _]; eauto].
  destruct (moysklad.getAnyAvailableService serve w2) as [[[service |] | msg |] w3];
    try discriminate.
  intros [= <- _]. eauto.
Qed.

(** A run of [createDemand]: reads, then at most the creation request, which
    has been sent when the call returns.  The request is built from the
    source invoice the search returned, the store taken from that invoice
    and the positions assembled with it. *)
Lemma createDemand_run updDocument organization counterparty w r w' :
  let content := UPDDocument.Content updDocument in
  moysklad.createDemand serve baseURL time_Format fmt_s updDocument organization
    counterparty w = (r, w') ->
  exists reads,
    Forall isGET reads
    /\ ((moysklad.sent w' = moysklad.sent w ++ reads /\ returned r = false)
        \/ exists invoice w1 store w2 first others w3 rq,
            moysklad.findCustomerInvoice serve baseURL
              (UPDContent.RequisiteNumber content) counterparty w
            = (moysklad.Return (Some invoice), w1)
            /\ moysklad.getStoreFromInvoice serve baseURL (Some invoice) w1
               = (moysklad.Return store, w2)
            /\ moysklad.createPositionsFromUPD serve baseURL content (Some invoice) w2
               = (moysklad.Return (first :: others), w3)
            /\ moysklad.sent w3 = moysklad.sent w ++ reads
            /\ moysklad.sent w' = moysklad.sent w ++ reads ++ [rq]
            /\ shipmentOf content (time_Format (UPDContent.InvoiceDate content))
                 organization counterparty store invoice (first :: others) rq).
Proof.
  intros content.
  unfold moysklad.createDemand, moysklad.bind at 1, moysklad.try.
  fold content.
  destruct (sends_findCustomerInvoice serve baseURL
              (UPDContent.RequisiteNumber content) counterparty w) as (n1 & E1 & F1).
  destruct (moysklad.findCustomerInvoice _ _ _ _ w)
    as [[customerInvoice | msg |] w1] eqn:Hinvoice;
    simpl in E1;
    [| intros [= <- <-]; exists n1; split; [exact F1 | now left] ..].
  unfold moysklad.bind at 1.
  destruct (sends_getStoreFromInvoice serve baseURL customerInvoice w1)
    as (n2 & E2 & F2).
  destruct (moysklad.getStoreFromInvoice _ _ customerInvoice w1)
    as [[store | msg |] w2] eqn:Hstore; simpl in E2;
    [| intros [= <- <-]; exists (n1 ++ n2);
       (split; [now apply Forall_app |]); left;
       (split; [now rewrite E2, E1, app_assoc | reflexivity]) ..].
  destruct customerInvoice as [invoice |]; [| discriminate Hstore].
  unfold moysklad.bind at 1.
  destruct (sends_createPositionsFromUPD content (Some invoice) w2) as (n3 & E3 & F3).
  destruct (moysklad.createPositionsFromUPD _ _ content (Some invoice) w2)
    as [[positions | msg |] w3] eqn:Hpositions; simpl in E3;
    [| intros [= <- <-]; exists (n1 ++ n2 ++ n3);
       (split; [rewrite !Forall_app; auto |]); left;
       (split; [now rewrite E3, E2, E1, <- !app_assoc | reflexivity]) ..].
  destruct (createPositionsFromUPD_nonempty _ _ _ _ _ Hpositions)
    as (first & others & ->).
  assert (Hreads : moysklad.sent w3 = moysklad.sent w ++ n1 ++ n2 ++ n3)
    by now rewrite E3, E2, E1, <- !app_assoc.
  unfold moysklad.bind.
  match goal with
  | |- context [moysklad.makeRequest serve "POST" "/entity/demand" ?d ∅ w3] =>
      destruct (moysklad.marshalError d) as [err |] eqn:Hmarshal;
      [rewrite (makeRequest_refused serve _ _ _ _ _ _ Hmarshal)
      | rewrite (makeRequest_sends serve _ _ _ _ _ Hmarshal)]
  end.
  { intros [= <- <-]. exists (n1 ++ n2 ++ n3).
    split; [rewrite !Forall_app; auto |]. left. split; [exact Hreads | reflexivity]. }
  match goal with
  | |- context [serve (moysklad.server w3) ?rq] =>
      set (request := rq); destruct (serve (moysklad.server w3) request) as [answer s]
  end.
  cbn [fst snd]. intros Hrun. exists (n1 ++ n2 ++ n3).
  split; [rewrite !Forall_app; auto |].
  right. exists invoice, w1, store, w2, first, others, w3, request.
  split; [reflexivity |]. split; [exact Hstore |]. split; [exact Hpositions |].
  split; [exact Hreads |]. split.
  - assert (w' = moysklad.mkWorld s (moysklad.sent w3 ++ [request])) as ->.
    { destruct answer as [resp | err]; [| now injection Hrun as _ <-].
      destruct (moysklad.StatusCode resp =? 200);
        [destruct (moysklad.decodeMap resp) |]; now injection Hrun as _ <-. }
    simpl. now rewrite Hreads, <- !app_assoc.
  - split; [split; reflexivity |]. split; [reflexivity |].
    subst request. eexists. split; [reflexivity |].
    rewrite lookup_insert_eq.
    rewrite !(lookup_insert_ne _ "positions") by discriminate.
    rewrite lookup_insert_eq.
    rewrite !(lookup_insert_ne _ "invoicesOut") by discriminate.
    repeat split; reflexivity.
Qed.

(** X19. A run of [createDemand] sends reads and then at most one request,
    the shipment creation.  When the shipment creation is sent, the search
    had returned a source invoice, that invoice had given a store and the
    assembly at least one position, and the request is built from exactly
    these: it is named after the document number with the prefix "О", names
    the seller's organization and the buyer, carries that store, links that
    invoice and holds those positions.  In every other run nothing but reads
    is sent and no result is returned. *)
Theorem shipment_is_created_complete (updDocument : UPDDocument.t)
    (organization counterparty : moysklad.GoMap) w :
  let content := UPDDocument.Content updDocument in
  let run :=
    moysklad.createDemand serve baseURL time_Format fmt_s updDocument organization
      counterparty w in
  exists reads,
    Forall isGET reads
    /\ ((moysklad.sent run.2 = moysklad.sent w ++ reads /\ returned run.1 = false)
        \/ exists invoice w1 store w2 first others w3 rq,
            moysklad.findCustomerInvoice serve baseURL
              (UPDContent.RequisiteNumber content) counterparty w
            = (moysklad.Return (Some invoice), w1)
            /\ moysklad.getStoreFromInvoice serve baseURL (Some invoice) w1
               = (moysklad.Return store, w2)
            /\ moysklad.createPositionsFromUPD serve baseURL content (Some invoice) w2
               = (moysklad.Return (first :: others), w3)
            /\ moysklad.sent w3 = moysklad.sent w ++ reads
            /\ moysklad.sent run.2 = moysklad.sent w ++ reads ++ [rq]
            /\ shipmentOf content (time_Format (UPDContent.InvoiceDate content))
                 organization counterparty store invoice (first :: others) rq).
Proof.
  intros content run. destruct run as [r w'] eqn:Hrun. subst run.
  exact (createDemand_run _ _ _ _ _ _ Hrun).
Qed.

Lemma shipmentCreation_is_creation rq : shipmentCreation rq -> creation rq.
Proof. intros [Hmethod Hendpoint]. split; [exact Hmethod | now left]. Qed.

(** A run of [CreateInvoiceFromUPD]. *)
Lemma CreateInvoiceFromUPD_run (updDocument : UPDDocument.t) w r w' :
  moysklad.CreateInvoiceFromUPD serve baseURL time_Format fmt_s updDocument w = (r, w') ->
  exists new, moysklad.sent w' = moysklad.sent w ++ new /\ twoPhase new (returned r).
Proof.
  unfold moysklad.CreateInvoiceFromUPD, moysklad.bind at 1, moysklad.try.
  set (content := UPDDocument.Content updDocument).
  destruct (sends_findOrganizationByINN serve
              (Organization.INN (UPDContent.Seller content)) w) as (n1 & E1 & F1).
  pose proof (Forall_impl _ _ _ F1 isGET_not_creation) as G1.
  destruct (moysklad.findOrganizationByINN _ _ w) as [[supplierOrg | msg |] w1];
    simpl in E1;
    [| intros [= <- <-]; exists n1; (split; [exact E1 |]); exists n1; auto ..].
  unfold moysklad.bind at 1.
  destruct (sends_getOrCreateCounterparty serve (UPDContent.Buyer content) w1)
    as (n2 & E2 & G2).
  destruct (moysklad.getOrCreateCounterparty _ _ w1)
    as [[buyerCounterparty | msg |] w2]; simpl in E2;
    [| intros [= <- <-]; exists (n1 ++ n2);
       (split; [now rewrite E2, E1, app_assoc |]); exists (n1 ++ n2);
       rewrite Forall_app; auto ..].
  unfold moysklad.bind at 1.
  destruct (moysklad.createDemand _ _ _ _ _ _ _ w2) as [shipped w3] eqn:Hdemand.
  destruct (createDemand_run _ _ _ _ _ _ Hdemand)
    as (n3 & F3 & [[E3 Hfailed]
                   | (? & ? & ? & ? & ? & ? & ? & shipment
                      & _ & _ & _ & _ & E3 & Hshipment & _)]).
  { destruct shipped as [demand | msg |]; [discriminate Hfailed | ..];
      intros [= <- <-]; exists (n1 ++ n2 ++ n3);
      (split; [now rewrite E3, E2, E1, <- !app_assoc |]); exists (n1 ++ n2 ++ n3);
      rewrite !Forall_app;
      (split; [repeat split; auto;
               eapply Forall_impl; [exact F3 | apply isGET_not_creation] |]);
      auto. }
  assert (Hbefore : Forall (fun rq => ~ creation rq) (n1 ++ n2 ++ n3)).
  { rewrite !Forall_app. repeat split; auto.
    eapply Forall_impl; [exact F3 | apply isGET_not_creation]. }
  assert (Hprefix : moysklad.sent w3
                    = moysklad.sent w ++ (n1 ++ n2 ++ n3) ++ [shipment]).
  { now rewrite E3, E2, E1, <- !app_assoc. }
  destruct shipped as [demand | msg |];
    [| intros [= <- <-]; exists ((n1 ++ n2 ++ n3) ++ [shipment]);
       (split; [exact Hprefix |]); exists (n1 ++ n2 ++ n3);
       (split; [exact Hbefore |]); right; exists shipment, [];
       (split; [exact Hshipment |]); (split; [constructor |]); left; auto ..].
  unfold moysklad.bind at 1.
  destruct (sends_mapUPDToFactureOut updDocument supplierOrg buyerCounterparty demand w3)
    as (n4 & E4 & F4).
  destruct (moysklad.mapUPDToFactureOut _ _ _ _ _ _ _ w3)
    as [[invoiceData | msg |] w4]; simpl in E4;
    [| intros [= <- <-]; exists ((n1 ++ n2 ++ n3) ++ shipment :: n4);
       (split; [rewrite E4, Hprefix, <- !app_assoc; reflexivity |]);
       exists (n1 ++ n2 ++ n3); (split; [exact Hbefore |]); right;
       exists shipment, n4; (split; [exact Hshipment |]); (split; [exact F4 |]);
       left; auto ..].
  unfold moysklad.bind.
  match goal with
  | |- context [moysklad.makeRequest serve "POST" "/entity/factureout" ?d ∅ w4] =>
      destruct (moysklad.marshalError d) as [err |] eqn:Hmarshal;
      [rewrite (makeRequest_refused serve _ _ _ _ _ _ Hmarshal)
      | rewrite (makeRequest_sends serve _ _ _ _ _ Hmarshal)]
  end.
  { intros [= <- <-]. exists ((n1 ++ n2 ++ n3) ++ shipment :: n4).
    split; [rewrite E4, Hprefix, <- !app_assoc; reflexivity |].
    exists (n1 ++ n2 ++ n3). split; [exact Hbefore |]. right.
    exists shipment, n4. split; [exact Hshipment |]. split; [exact F4 |].
    left. auto. }
  match goal with
  | |- context [serve (moysklad.server w4) ?rq] =>
      set (request := rq); destruct (serve (moysklad.server w4) request) as [answer s]
  end.
  cbn [fst snd]. intros Hrun.
  assert (w' = moysklad.mkWorld s (moysklad.sent w4 ++ [request])) as ->.
  { destruct answer as [resp | err]; [| now injection Hrun as _ <-].
    destruct (moysklad.StatusCode resp =? 200);
      [destruct (moysklad.decodeMap resp) |]; now injection Hrun as _ <-. }
  exists ((n1 ++ n2 ++ n3) ++ shipment :: n4 ++ [request]).
  split; [simpl; rewrite E4, Hprefix, <- !app_assoc; reflexivity |].
  exists (n1 ++ n2 ++ n3). split; [exact Hbefore |].
  right. exists shipment, n4. split; [exact Hshipment |]. split; [exact F4 |].
  right. exists request. split; [split; reflexivity | reflexivity].
Qed.

(** X20. The upload works in two phases, in this order: after requests that
    create neither a shipment nor an invoice, at most one shipment is
    created; after it come only reads and at most one invoice creation,
    which is then the last request.  The upload returns a result only when
    both creation requests have been sent. *)
Theorem shipment_is_created_before_invoice (updDocument : UPDDocument.t) w :
  let run :=
    moysklad.CreateInvoiceFromUPD serve baseURL time_Format fmt_s updDocument w in
  exists new,
    moysklad.sent run.2 = moysklad.sent w ++ new /\ twoPhase new (returned run.1).
Proof.
  intros run. destruct run as [r w'] eqn:Hrun. subst run.
  exact (CreateInvoiceFromUPD_run _ _ _ _ Hrun).
Qed.

(** X21. A document without a reference to a source invoice is never
    uploaded: [createDemand] fails at once, without a request, whatever the
    external system holds.  So when the seller is found and the buyer
    resolved, the upload fails with the message of [createDemand] right
    after the buyer's resolution; and in every case the upload returns no
    result and creates neither a shipment nor an invoice. *)
Theorem document_without_reference_is_not_uploaded (updDocument : UPDDocument.t) w :
  UPDContent.RequisiteNumber (UPDDocument.Content updDocument) = "" ->
  let message :=
    "Customer invoice with number '' not found."
    +:+ String "010"%char "Create invoice with specified number and try again." in
  (forall organization counterparty w0,
      moysklad.createDemand serve baseURL time_Format fmt_s updDocument organization
        counterparty w0
      = (moysklad.Fail message, w0))
  /\ (forall supplierOrg w1 buyerCounterparty w2,
      moysklad.findOrganizationByINN serve
        (Organization.INN (UPDContent.Seller (UPDDocument.Content updDocument))) w
      = (moysklad.Return supplierOrg, w1) ->
      moysklad.getOrCreateCounterparty serve
        (UPDContent.Buyer (UPDDocument.Content updDocument)) w1
      = (moysklad.Return buyerCounterparty, w2) ->
      moysklad.CreateInvoiceFromUPD serve baseURL time_Format fmt_s updDocument w
      = (moysklad.Fail message, w2))
  /\ returned
       (moysklad.CreateInvoiceFromUPD serve baseURL time_Format fmt_s updDocument w).1
     = false
  /\ exists new,
      moysklad.sent
        (moysklad.CreateInvoiceFromUPD serve baseURL time_Format fmt_s updDocument w).2
      = moysklad.sent w ++ new
      /\ Forall (fun rq => ~ creation rq) new.
Proof.
  intros Hreference message.
  assert (Hdemand : forall organization counterparty w0,
             moysklad.createDemand serve baseURL time_Format fmt_s updDocument
               organization counterparty w0
             = (moysklad.Fail message, w0)).
  { intros organization counterparty w0.
    unfold moysklad.createDemand, moysklad.bind, moysklad.try,
      moysklad.findCustomerInvoice.
    rewrite Hreference. reflexivity. }
  split; [exact Hdemand |]. split.
  { intros supplierOrg w1 buyerCounterparty w2 Hseller Hbuyer.
    unfold moysklad.CreateInvoiceFromUPD, moysklad.bind at 1, moysklad.try.
    rewrite Hseller. unfold moysklad.bind at 1. rewrite Hbuyer.
    unfold moysklad.bind at 1. now rewrite Hdemand. }
  destruct (moysklad.CreateInvoiceFromUPD _ _ _ _ _ w) as [r w'] eqn:Hrun.
  simpl. revert Hrun.
  unfold moysklad.CreateInvoiceFromUPD, moysklad.bind at 1, moysklad.try.
  set (content := UPDDocument.Content updDocument).
  destruct (sends_findOrganizationByINN serve
              (Organization.INN (UPDContent.Seller content)) w) as (n1 & E1 & F1).
  pose proof (Forall_impl _ _ _ F1 isGET_not_creation) as G1.
  destruct (moysklad.findOrganizationByINN _ _ w) as [[supplierOrg | msg |] w1];
    simpl in E1;
    [| intros [= <- <-]; (split; [reflexivity | exists n1; auto]) ..].
  unfold moysklad.bind at 1.
  destruct (sends_getOrCreateCounterparty serve (UPDContent.Buyer content) w1)
    as (n2 & E2 & G2).
  destruct (moysklad.getOrCreateCounterparty _ _ w1)
    as [[buyerCounterparty | msg |] w2]; simpl in E2;
    [unfold moysklad.bind at 1; rewrite Hdemand |..];
    intros [= <- <-]; (split; [reflexivity |]); exists (n1 ++ n2);
    (split; [now rewrite E2, E1, app_assoc | rewrite Forall_app; auto]).
Qed.


(** Calls that return or panic but never return an error. *)
Lemma unfailing_ret {A} (a : A) w msg :
  (moysklad.ret (Server := Server) a w).1 <> moysklad.Fail msg.
Proof. discriminate. Qed.

Lemma unfailing_panic {A} w msg :
  (moysklad.panic (Server := Server) (A := A) w).1 <> moysklad.Fail msg.
Proof. discriminate. Qed.

Lemma unfailing_bind {A B} (m : moysklad.M Server A) (k : A -> moysklad.M Server B) :
  (forall w msg, (m w).1 <> moysklad.Fail msg) ->
  (forall a w msg, (k a w).1 <> moysklad.Fail msg) ->
  forall w msg, (moysklad.bind m k w).1 <> moysklad.Fail msg.
Proof.
  intros Hm Hk w msg. unfold moysklad.bind.
  specialize (Hm w). destruct (m w) as [[a | msg' |] w1]; simpl in *.
  - apply Hk.
  - now destruct (Hm msg').
  - discriminate.
Qed.

Lemma unfailing_makeRequest method endpoint data params w msg :
  (moysklad.makeRequest serve method endpoint data params w).1 <> moysklad.Fail msg.
Proof.
  unfold moysklad.makeRequest.
  destruct (moysklad.marshalError data); [discriminate |].
  destruct (serve _ _). discriminate.
Qed.

Ltac unfailing_step :=
  first
    [ apply unfailing_ret | apply unfailing_panic | apply unfailing_makeRequest
    | apply unfailing_bind; [intros ? ? | intros ? ? ?]
    | match goal with
      | |- (match ?x with _ => _ end _).1 <> _ => destruct x
      end ].

Lemma getInvoicePositions_result customerInvoice w msg :
  (moysklad.getInvoicePositions serve baseURL customerInvoice w).1 <> moysklad.Fail msg.
Proof.
  unfold moysklad.getInvoicePositions, moysklad.parseInvoicePositions,
    moysklad.assert_map.
  repeat unfailing_step.
Qed.

Lemma getAnyAvailableService_result w msg :
  (moysklad.getAnyAvailableService serve w).1 <> moysklad.Fail msg.
Proof.
  unfold moysklad.getAnyAvailableService, moysklad.firstRow, moysklad.assert_map.
  repeat unfailing_step.
Qed.

(** X23. For a document without line items the assembly asks the external
    system for its services once.  When the answer has a first row, the
    assembly returns exactly one position: one unit of that service at 18 %
    tax, priced at the document total with tax in kopecks, or at 1000.00 when
    that total is not positive.  When the answer has no row, or the request
    fails, the assembly fails with the message that no service is
    available. *)
Theorem document_without_items_gets_a_service_position (content : UPDContent.t)
    (customerInvoice : moysklad.GoMap) (invoicePositions : gmap string Z) w w1 :
  UPDContent.Items content = [] ->
  moysklad.getInvoicePositions serve baseURL customerInvoice w
  = (moysklad.Return invoicePositions, w1) ->
  let listing := moysklad.mkRequest "GET" "/entity/service" None ∅ in
  let kopecks :=
    if decimal.GreaterThan (UPDContent.TotalWithVAT content) decimal.Zero
    then decimal.IntPart
           (decimal.Mul (UPDContent.TotalWithVAT content) (decimal.NewFromInt 100))
    else 100000 in
  let message :=
    "No available services in MoySkald to create document position."
    +:+ String "010"%char "Create at least one service in MoySkald and try again." in
  (forall resp s service,
      serve (moysklad.server w1) listing = (Ok resp, s) ->
      firstRowOf resp = Some (moysklad.JObject service) ->
      moysklad.createPositionsFromUPD serve baseURL content customerInvoice w
      = (moysklad.Return
           [moysklad.object
              [("quantity", moysklad.JNumber (decimal.NewFromInt 1));
               ("price", moysklad.JNumber (decimal.NewFromInt kopecks));
               ("assortment", moysklad.metaOf (Some service));
               ("vat", moysklad.JNumber (decimal.NewFromInt 18))]],
         moysklad.mkWorld s (moysklad.sent w1 ++ [listing])))
  /\ (forall resp s,
      serve (moysklad.server w1) listing = (Ok resp, s) ->
      firstRowOf resp = None ->
      moysklad.createPositionsFromUPD serve baseURL content customerInvoice w
      = (moysklad.Fail message, moysklad.mkWorld s (moysklad.sent w1 ++ [listing])))
  /\ (forall err s,
      serve (moysklad.server w1) listing = (Error err, s) ->
      moysklad.createPositionsFromUPD serve baseURL content customerInvoice w
      = (moysklad.Fail message, moysklad.mkWorld s (moysklad.sent w1 ++ [listing]))).
Proof.
  intros Hitems Hprices listing kopecks message.
  assert (Hrun : forall answer s,
             serve (moysklad.server w1) listing = (answer, s) ->
             moysklad.createPositionsFromUPD serve baseURL content customerInvoice w
             = match (match answer with
                      | Ok resp => moysklad.firstRow resp
                      | Error _ => moysklad.ret None
                      end) (moysklad.mkWorld s (moysklad.sent w1 ++ [listing])) with
               | (moysklad.Return (Some service), w2) =>
                   (moysklad.Return
                      [moysklad.object
                         [("quantity", moysklad.JNumber (decimal.NewFromInt 1));
                          ("price", moysklad.JNumber (decimal.NewFromInt kopecks));
                          ("assortment", moysklad.metaOf (Some service));
                          ("vat", moysklad.JNumber (decimal.NewFromInt 18))]], w2)
               | (moysklad.Return None, w2) => (moysklad.Fail message, w2)
               | (moysklad.Fail msg, w2) => (moysklad.Fail msg, w2)
               | (moysklad.Panic, w2) => (moysklad.Panic, w2)
               end).
  { intros answer s Hserve.
    unfold moysklad.createPositionsFromUPD, moysklad.bind at 1.
    assert (match customerInvoice with
            | Some _ => moysklad.getInvoicePositions serve baseURL customerInvoice
            | None => moysklad.ret ∅
            end w = (moysklad.Return invoicePositions, w1)) as ->.
    { destruct customerInvoice; exact Hprices. }
    rewrite Hitems. unfold moysklad.bind at 1. cbn [moysklad.forEach].
    unfold moysklad.ret at 1. cbv iota beta.
    unfold moysklad.getAnyAvailableService, moysklad.bind.
    rewrite makeRequest_sends by reflexivity. fold listing. rewrite Hserve.
    cbn [fst snd].
    destruct (match answer with
              | Ok resp => moysklad.firstRow resp
              | Error _ => moysklad.ret None
              end (moysklad.mkWorld s (moysklad.sent w1 ++ [listing])))
      as [[[service |] | msg |] w2]; reflexivity. }
  split; [| split].
  - intros resp s service Hserve Hrow.
    rewrite (Hrun _ _ Hserve), firstRow_firstRowOf, Hrow. reflexivity.
  - intros resp s Hserve Hrow.
    rewrite (Hrun _ _ Hserve), firstRow_firstRowOf, Hrow. reflexivity.
  - intros err s Hserve. rewrite (Hrun _ _ Hserve). reflexivity.
Qed.

Lemma assembled_resolved invoicePositions items :
  forall products,
    length products = length items -> Forall is_Some products ->
    assembled invoicePositions items products
    = (zip_with (moysklad.position invoicePositions) items products, []).
Proof.
  induction items as [| item rest IH]; intros [| product products]; simpl;
    try discriminate; [reflexivity |].
  intros [= Hlength] Hresolved.
  apply Forall_cons in Hresolved as [[found ->] Hresolved].
  now rewrite IH.
Qed.

(** X24. When every line item resolves to a product, the assembly returns
    one position per item, in the order of the document, each built from its
    item and the product the item resolved to. *)
Theorem resolved_items_become_positions (content : UPDContent.t)
    (customerInvoice : moysklad.GoMap) (invoicePositions : gmap string Z)
    (products : list moysklad.GoMap) w w1 w2 :
  moysklad.getInvoicePositions serve baseURL customerInvoice w
  = (moysklad.Return invoicePositions, w1) ->
  resolveAll serve (UPDContent.Items content) w1 = (moysklad.Return products, w2) ->
  Forall is_Some products ->
  UPDContent.Items content <> [] ->
  moysklad.createPositionsFromUPD serve baseURL content customerInvoice w
  = (moysklad.Return
       (zip_with (moysklad.position invoicePositions) (UPDContent.Items content)
          products), w2)
  /\ length products = length (UPDContent.Items content).
Proof.
  intros Hprices Hresolve Hresolved Hitems.
  pose proof (resolveAll_length _ _ _ _ _ Hresolve) as Hlength.
  split; [| exact Hlength].
  unfold moysklad.createPositionsFromUPD, moysklad.bind at 1.
  assert (match customerInvoice with
          | Some _ => moysklad.getInvoicePositions serve baseURL customerInvoice
          | None => moysklad.ret ∅
          end w = (moysklad.Return invoicePositions, w1)) as ->.
  { destruct customerInvoice; exact Hprices. }
  unfold moysklad.bind.
  rewrite forEach_addItem, Hresolve. simpl.
  rewrite assembled_resolved by assumption. simpl.
  destruct (UPDContent.Items content) as [| item rest]; [congruence |].
  destruct products as [| product others]; [discriminate Hlength |].
  reflexivity.
Qed.

End EngineRequests.

(** *** The same on the small external system *)

Lemma missing_seller_aborts_witness :
  moysklad.CreateInvoiceFromUPD Demo.serve Demo.base Demo.time_Format Demo.fmt_s
    Demo.basicDocument Demo.world0
  = (moysklad.Fail "Supplier organization with INN 0000000000 not found in MoySkald",
     moysklad.mkWorld tt [organizationSearch "0000000000"])
  /\ [organizationSearch "0000000000"] = [] ++ [organizationSearch "0000000000"].
Proof.
  apply (missing_seller_aborts Demo.serve Demo.base Demo.time_Format Demo.fmt_s
           Demo.basicDocument Demo.world0 "organization not found"
           (moysklad.mkWorld tt [organizationSearch "0000000000"])).
  vm_compute. reflexivity.
Defined.

(** A document of a known seller, with line items but without a reference:
    the seller is found, the buyer is created, and [createDemand] refuses. *)
Lemma document_without_reference_is_not_uploaded_witness :
  moysklad.CreateInvoiceFromUPD Demo.serve Demo.base Demo.time_Format Demo.fmt_s
    Demo.unreferenced Demo.world0
  = (moysklad.Fail
       ("Customer invoice with number '' not found."
        +:+ String "010"%char "Create invoice with specified number and try again."),
     moysklad.mkWorld tt
       [organizationSearch "7700000000"; counterpartySearch "500000000000";
        counterpartyCreation (Organization.mk "Buyer" "500000000000" "" None)]).
Proof.
  apply (proj1 (proj2 (document_without_reference_is_not_uploaded Demo.serve Demo.base
                         Demo.time_Format Demo.fmt_s Demo.unreferenced Demo.world0
                         eq_refl))
           (Some Demo.supplier)
           (moysklad.mkWorld tt [organizationSearch "7700000000"])
           (Some (Demo.entity "counterparty/c1" "Buyer" ""))).
  - vm_compute. reflexivity.
  - vm_compute. reflexivity.
Defined.

(** The document of two known items on the small external system: the
    shipment is created, from the invoice 42 and its store. *)
Lemma shipment_is_created_complete_witness :
  let document := Demo.document Demo.knownOrder in
  let content := UPDDocument.Content document in
  let run :=
    moysklad.createDemand Demo.serve Demo.base Demo.time_Format Demo.fmt_s document
      (Some Demo.supplier) (Some Demo.customer) Demo.world0 in
  returned run.1 = true
  /\ exists reads,
      Forall isGET reads
      /\ exists invoice w1 store w2 first others w3 rq,
          moysklad.findCustomerInvoice Demo.serve Demo.base "42" (Some Demo.customer)
            Demo.world0
          = (moysklad.Return (Some invoice), w1)
          /\ moysklad.getStoreFromInvoice Demo.serve Demo.base (Some invoice) w1
             = (moysklad.Return store, w2)
          /\ moysklad.createPositionsFromUPD Demo.serve Demo.base content (Some invoice) w2
             = (moysklad.Return (first :: others), w3)
          /\ moysklad.sent w3 = [] ++ reads
          /\ moysklad.sent run.2 = [] ++ reads ++ [rq]
          /\ shipmentOf content (Demo.time_Format 0) (Some Demo.supplier)
               (Some Demo.customer) store invoice (first :: others) rq.
Proof.
  intros document content run.
  assert (Hreturned : returned run.1 = true) by (vm_compute; reflexivity).
  split; [exact Hreturned |].
  destruct (shipment_is_created_complete Demo.serve Demo.base Demo.time_Format
              Demo.fmt_s document (Some Demo.supplier) (Some Demo.customer) Demo.world0)
    as (reads & Hreads & [[_ Hfailed] | Hsent]).
  - fold run in Hfailed. rewrite Hreturned in Hfailed. discriminate Hfailed.
  - exists reads. split; [exact Hreads | exact Hsent].
Defined.

(** A document without items and with a zero total, on an external system
    that lists one service. *)
Lemma document_without_items_gets_a_service_position_witness :
  moysklad.createPositionsFromUPD Demo.serveWithService Demo.base
    (UPDDocument.Content (Demo.document [])) None Demo.world0
  = (moysklad.Return
       [moysklad.object
          [("quantity", moysklad.JNumber (decimal.NewFromInt 1));
           ("price", moysklad.JNumber (decimal.NewFromInt 100000));
           ("assortment", moysklad.metaOf (Some Demo.delivery));
           ("vat", moysklad.JNumber (decimal.NewFromInt 18))]],
     moysklad.mkWorld tt ([] ++ [moysklad.mkRequest "GET" "/entity/service" None ∅])).
Proof.
  apply (proj1 (document_without_items_gets_a_service_position Demo.serveWithService
                  Demo.base (UPDDocument.Content (Demo.document [])) None ∅
                  Demo.world0 Demo.world0 eq_refl eq_refl)
           (moysklad.mkResponse 200 ""
              (Ok (Demo.rowsOf [moysklad.JObject Demo.delivery])))
           tt Demo.delivery).
  - vm_compute. reflexivity.
  - vm_compute. reflexivity.
Defined.

Lemma resolved_items_become_positions_witness :
  moysklad.createPositionsFromUPD Demo.serve Demo.base
    (UPDDocument.Content (Demo.document Demo.knownOrder)) (Some Demo.invoice42)
    Demo.world0
  = (moysklad.Return
       (zip_with
          (moysklad.position
             (moysklad.parsePositions [Demo.invoicePosition "A1" "Gadget" 15000] ∅))
          Demo.knownOrder [Some Demo.gadget; Some Demo.gadget]),
     moysklad.mkWorld tt
       [moysklad.mkRequest "GET" "/entity/invoiceout/i1?expand=positions.assortment"
          None ∅;
        articleLookup "A1"; nameLookup "Gadget"])
  /\ length [Some Demo.gadget; Some Demo.gadget] = length Demo.knownOrder.
Proof.
  apply (resolved_items_become_positions Demo.serve Demo.base
           (UPDDocument.Content (Demo.document Demo.knownOrder)) (Some Demo.invoice42)
           (moysklad.parsePositions [Demo.invoicePosition "A1" "Gadget" 15000] ∅)
           [Some Demo.gadget; Some Demo.gadget] Demo.world0
           (moysklad.mkWorld tt
              [moysklad.mkRequest "GET"
                 "/entity/invoiceout/i1?expand=positions.assortment" None ∅])).
  - vm_compute. reflexivity.
  - vm_compute. reflexivity.
  - repeat constructor; eexists; reflexivity.
  - discriminate.
Defined.

(** ** The configuration *)

Lemma parseUsers_spec (userIDs : list string) :
  forall users result,
    config.parseUsers userIDs users = Ok result ->
    result = users ++ omap (fun segment => strings.ParseInt (strings.TrimSpace segment) 64)
                        userIDs.
Proof.
  induction userIDs as [| segment rest IH]; intros users result; simpl.
  - intros [= <-]. now rewrite app_nil_r.
  - destruct (String.eqb (strings.TrimSpace segment) "") eqn:Hblank; simpl.
    + apply String.eqb_eq in Hblank. rewrite Hblank. simpl. apply IH.
    + destruct (strings.ParseInt (strings.TrimSpace segment) 64) as [userID |];
        [| discriminate].
      intros Hrest. apply IH in Hrest. now rewrite <- app_assoc in Hrest.
Qed.

Lemma isAuthorized_spec (users : list Z) (userID : Z) :
  config.isAuthorized users userID = true <-> userID ∈ users.
Proof.
  induction users as [| id rest IH]; simpl.
  - split; [discriminate | intros H; inversion H].
  - destruct (Z.eqb_spec id userID) as [-> | Hne].
    + split; [intros _; left | reflexivity].
    + rewrite IH. split; [now right |].
      intros H. inversion H; [congruence | assumption].
Qed.

Lemma Load_users (env : gmap string string) (c : config.Config) :
  config.Load env = Ok c ->
  config.AuthorizedUsers c
  = omap (fun segment => strings.ParseInt (strings.TrimSpace segment) 64)
      (strings.SplitByte "," (config.Getenv env "AUTHORIZED_USERS")).
Proof.
  unfold config.Load.
  destruct (String.eqb (config.Getenv env "AUTHORIZED_USERS") "") eqn:Hunset; simpl.
  - apply String.eqb_eq in Hunset. rewrite Hunset.
    destruct (strings.ParseInt _ 64); [| discriminate]. now intros [= <-].
  - destruct (config.parseUsers _ _) as [users | err] eqn:Husers; [| discriminate].
    destruct (strings.ParseInt _ 64); [| discriminate]. intros [= <-]. simpl.
    now apply parseUsers_spec in Husers.
Qed.

(** X25. In a configuration loaded from the environment, a user is
    authorized exactly when the id is one of the comma-separated entries of
    AUTHORIZED_USERS, read as a 64-bit decimal integer after trimming white
    space. *)
Theorem authorized_users_are_the_listed_ids (env : gmap string string)
    (c : config.Config) (userID : Z) :
  config.Load env = Ok c ->
  config.IsAuthorizedUser c userID = true
  <-> exists segment,
        segment ∈ strings.SplitByte "," (config.Getenv env "AUTHORIZED_USERS")
        /\ strings.ParseInt (strings.TrimSpace segment) 64 = Some userID.
Proof.
  intros Hload. unfold config.IsAuthorizedUser.
  rewrite isAuthorized_spec, (Load_users _ _ Hload). apply list_elem_of_omap.
Qed.

(** X26. Loading fails when an entry of AUTHORIZED_USERS is neither blank nor
    an integer, and the error names that entry after trimming; blank entries
    are skipped. *)
Theorem malformed_user_id_is_reported (env : gmap string string)
    (before after : list string) (segment : string) :
  strings.SplitByte "," (config.Getenv env "AUTHORIZED_USERS")
  = before ++ segment :: after ->
  Forall (fun s => strings.TrimSpace s = ""
                   \/ is_Some (strings.ParseInt (strings.TrimSpace s) 64)) before ->
  strings.TrimSpace segment <> "" ->
  strings.ParseInt (strings.TrimSpace segment) 64 = None ->
  config.Load env = Error ("invalid user ID: " +:+ strings.TrimSpace segment).
Proof.
  intros Hsplit Hbefore Hblank Hinvalid. unfold config.Load.
  destruct (String.eqb (config.Getenv env "AUTHORIZED_USERS") "") eqn:Hunset; simpl.
  { apply String.eqb_eq in Hunset. rewrite Hunset in Hsplit.
    destruct before as [| first [| second others]]; simpl in Hsplit;
      try discriminate Hsplit.
    injection Hsplit as <- _. now destruct Hblank. }
  rewrite Hsplit.
  assert (Hloop : forall users,
             config.parseUsers (before ++ segment :: after) users
             = Error ("invalid user ID: " +:+ strings.TrimSpace segment)).
  { clear Hsplit Hunset. apply String.eqb_neq in Hblank.
    induction Hbefore as [| s rest [Hs | [id Hs]] _ IH]; intros users; simpl.
    - rewrite Hblank. simpl. now rewrite Hinvalid.
    - rewrite Hs. simpl. apply IH.
    - rewrite Hs. destruct (String.eqb (strings.TrimSpace s) ""); simpl; apply IH. }
  now rewrite Hloop.
Qed.

Lemma authorized_users_are_the_listed_ids_witness :
  config.IsAuthorizedUser
    (config.mkConfig "bot" [12; -34; 56] "token" "https://api.moysklad.ru/api/remap/1.2"
       "" "./temp" "INFO" 10485760 "windows-1251") (-34)
  = true.
Proof.
  apply (authorized_users_are_the_listed_ids
           (list_to_map [("TELEGRAM_BOT_TOKEN", "bot"); ("MOYSKLAD_API_TOKEN", "token");
                         ("AUTHORIZED_USERS", "12, -34 ,,56")])).
  - vm_compute. reflexivity.
  - exists " -34 ". split; [| vm_compute; reflexivity].
    apply list_elem_of_In. vm_compute. right. left. reflexivity.
Defined.

Lemma malformed_user_id_is_reported_witness :
  config.Load (list_to_map [("AUTHORIZED_USERS", "12, ,7x,56")])
  = Error "invalid user ID: 7x".
Proof.
  apply (malformed_user_id_is_reported
           (list_to_map [("AUTHORIZED_USERS", "12, ,7x,56")]) ["12"; " "] ["56"] "7x").
  - vm_compute. reflexivity.
  - apply Forall_cons_2; [right; eexists; vm_compute; reflexivity |].
    apply Forall_cons_2; [left; reflexivity | apply Forall_nil_2].
  - discriminate.
  - vm_compute. reflexivity.
Defined.

(** ** The processor *)

Section ProcessorProperties.
Variable cfg : config.Config.
Context {Server : Type}.
Variable serve : Server -> moysklad.Request -> result moysklad.Response * Server.
Variable zip_OpenReader : string -> result (list parser.ZipFile.t).
Variable os_error : list parser.fs_op -> parser.fs_op -> option string.
Variable zip_Open_error : parser.ZipFile.t -> option string.
Variable os_IsNotExist : list parser.fs_op -> string -> bool.
Variable os_ReadFile : list parser.fs_op -> string -> result string.
Variable readFileWithEncoding : list parser.fs_op -> string -> result string.
Variable xml_Unmarshal_meta : string -> result (list parser.DocFlow.t).
Variable xml_Unmarshal_card : string -> result parser.CardXML.t.
Variable xml_Unmarshal : string -> result parser.UPDXML.t.
Variable time_Parse_RFC3339 : string -> option Time.
Variable time_Parse : string -> option Time.
Variable ioutil_TempFile : list parser.fs_op -> string -> string -> result string.
Variable strings_ToLower : string -> string.
Variable time_Format : Time -> string.
Variable time_Format_date : Time -> string.
Variable StringFixed2 : decimal.Decimal -> string.
Variable fmt_s : moysklad.JSON -> string.

Let process :=
  processor.process cfg Server serve zip_OpenReader os_error zip_Open_error
    os_IsNotExist os_ReadFile readFileWithEncoding xml_Unmarshal_meta xml_Unmarshal_card
    xml_Unmarshal time_Parse_RFC3339 time_Parse ioutil_TempFile strings_ToLower
    time_Format time_Format_date StringFixed2 fmt_s.

Let ProcessUPDFile :=
  processor.ProcessUPDFile cfg Server serve zip_OpenReader os_error zip_Open_error
    os_IsNotExist os_ReadFile readFileWithEncoding xml_Unmarshal_meta xml_Unmarshal_card
    xml_Unmarshal time_Parse_RFC3339 time_Parse ioutil_TempFile strings_ToLower
    time_Format time_Format_date StringFixed2 fmt_s.

Let ParseUPDArchive :=
  parser.ParseUPDArchive zip_OpenReader os_error zip_Open_error os_IsNotExist
    os_ReadFile readFileWithEncoding xml_Unmarshal_meta xml_Unmarshal_card
    xml_Unmarshal time_Parse_RFC3339 time_Parse.

Lemma ProcessUPDFile_result nowCard nowContent fileContent filename st :
  (ProcessUPDFile nowCard nowContent fileContent filename st).1
  = (process nowCard nowContent fileContent filename st).1.1.
Proof.
  unfold ProcessUPDFile, processor.ProcessUPDFile. fold process.
  destruct (process _ _ _ _ _) as [[r tempZipPath] [done w]].
  destruct (negb _); reflexivity.
Qed.

Lemma ProcessUPDFile_world nowCard nowContent fileContent filename st :
  (ProcessUPDFile nowCard nowContent fileContent filename st).2.2
  = (process nowCard nowContent fileContent filename st).2.2.
Proof.
  unfold ProcessUPDFile, processor.ProcessUPDFile. fold process.
  destruct (process _ _ _ _ _) as [[r tempZipPath] [done w]].
  destruct (negb _); reflexivity.
Qed.

Lemma failed_consistent message errorCode :
  errorCode ∈ errorCodes ->
  ProcessingResult.Success (processor.failed message errorCode) = false
  /\ ProcessingResult.ErrorCode (processor.failed message errorCode) ∈ errorCodes
  /\ ProcessingResult.UPDDocument (processor.failed message errorCode) = None
  /\ ProcessingResult.MoySkladInvoiceID (processor.failed message errorCode) = ""
  /\ ProcessingResult.MoySkladInvoiceURL (processor.failed message errorCode) = "".
Proof. intros Hcode. repeat split; [exact Hcode | reflexivity ..]. Qed.

(** X27. Every result of [ProcessUPDFile] is of one of two kinds.  A success
    has no error code, carries the parsed document, and has a link to the
    invoice exactly when it has the invoice's id.  A failure has one of the
    six error codes, carries no document, no invoice id and no link. *)
Theorem processing_result_is_consistent (nowCard nowContent : Time)
    (fileContent filename : string) (st : processor.State Server) :
  match (ProcessUPDFile nowCard nowContent fileContent filename st).1 with
  | Some result =>
      (ProcessingResult.Success result = true
       /\ ProcessingResult.ErrorCode result = ""
       /\ is_Some (ProcessingResult.UPDDocument result)
       /\ (ProcessingResult.MoySkladInvoiceURL result = ""
           <-> ProcessingResult.MoySkladInvoiceID result = ""))
      \/ (ProcessingResult.Success result = false
          /\ ProcessingResult.ErrorCode result ∈ errorCodes
          /\ ProcessingResult.UPDDocument result = None
          /\ ProcessingResult.MoySkladInvoiceID result = ""
          /\ ProcessingResult.MoySkladInvoiceURL result = "")
  | None => True
  end.
Proof.
  rewrite ProcessUPDFile_result. unfold process, processor.process.
  destruct st as [done w].
  destruct (_ <? _); [right; apply failed_consistent; set_solver |].
  destruct (negb _); [right; apply failed_consistent; set_solver |].
  destruct (os_error done _); [right; apply failed_consistent; set_solver |].
  destruct (processor.saveTempFile _ _ _ _ _ _) as [[tempZipPath | err] done1];
    [| right; apply failed_consistent; set_solver].
  destruct (parser.ParseUPDArchive _ _ _ _ _ _ _ _ _ _ _ _ _ _ _)
    as [[updDocument | err] done2];
    [| right; apply failed_consistent; set_solver].
  destruct (processor.uploadToMoySkald _ _ _ _ _ _ _) as [[invoiceResult | err |] w1];
    [| right; apply failed_consistent; set_solver | exact I].
  left. simpl. repeat split; [eauto | |].
  - destruct (String.eqb _ "") eqn:Hid; simpl; [now intros _; apply String.eqb_eq |].
    discriminate.
  - intros ->. reflexivity.
Qed.

Lemma uploadToMoySkald_run updDocument w r w' :
  processor.uploadToMoySkald cfg Server serve time_Format fmt_s updDocument w = (r, w') ->
  exists new,
    moysklad.sent w' = moysklad.sent w ++ tokenCheck :: new
    /\ (returned r = true -> twoPhase new true).
Proof.
  unfold processor.uploadToMoySkald, moysklad.VerifyToken.
  unfold moysklad.bind at 1. unfold moysklad.bind at 1.
  rewrite makeRequest_sends by reflexivity. fold tokenCheck.
  destruct (serve (moysklad.server w) tokenCheck) as [answer s].
  cbn [fst snd]. unfold moysklad.ret at 1.
  destruct (negb (moysklad.is200 answer)).
  - intros [= <- <-]. exists []. split; [reflexivity | discriminate].
  - intros Hrun.
    destruct (CreateInvoiceFromUPD_run _ _ _ _ _ _ _ _ Hrun) as (new & Hsent & Hphases).
    exists new. simpl in Hsent. rewrite Hsent, <- app_assoc.
    split; [reflexivity |]. intros Hreturned. now rewrite Hreturned in Hphases.
Qed.

(** X28. A success is reported only after the token check and both creation
    requests, in the order of the two phases; a failure other than an upload
    error is reported without any request to the external system. *)
Theorem success_means_both_documents_created (nowCard nowContent : Time)
    (fileContent filename : string) (done : list parser.fs_op)
    (w : moysklad.World Server) :
  let run := ProcessUPDFile nowCard nowContent fileContent filename (done, w) in
  match run.1 with
  | Some result =>
      if ProcessingResult.Success result then
        exists new,
          moysklad.sent run.2.2 = moysklad.sent w ++ tokenCheck :: new
          /\ twoPhase new true
      else
        ProcessingResult.ErrorCode result = "MOYSKLAD_API_ERROR" \/ run.2.2 = w
  | None => True
  end.
Proof.
  intros run. subst run.
  rewrite ProcessUPDFile_result, ProcessUPDFile_world.
  unfold process, processor.process.
  destruct (_ <? _); [now right |].
  destruct (negb _); [now right |].
  destruct (os_error done _); [now right |].
  destruct (processor.saveTempFile _ _ _ _ _ _) as [[tempZipPath | err] done1];
    [| now right].
  destruct (parser.ParseUPDArchive _ _ _ _ _ _ _ _ _ _ _ _ _ _ _)
    as [[updDocument | err] done2]; [| now right].
  destruct (processor.uploadToMoySkald _ _ _ _ _ _ _) as [r w1] eqn:Hrun.
  destruct (uploadToMoySkald_run _ _ _ _ Hrun) as (new & Hsent & Hphases).
  destruct r as [invoiceResult | err |]; simpl; [| now left | exact I].
  exists new. split; [exact Hsent | now apply Hphases].
Qed.

Lemma extractArchive_trace zipPath done :
  exists ops,
    (parser.extractArchive zip_OpenReader os_error zip_Open_error zipPath done).2
    = done ++ ops.
Proof.
  unfold parser.extractArchive.
  destruct (zip_OpenReader zipPath) as [files | err];
    [| exists []; now rewrite app_nil_r].
  destruct (os_error done _); [now eexists |].
  match goal with
  | |- context [parser.extractFiles _ _ ?dir files ?trace] =>
      destruct (extractFiles_trace os_error zip_Open_error dir files trace)
        as (new & Hnew & _);
      destruct (parser.extractFiles os_error zip_Open_error dir files trace)
        as [[tt | err] done1]
  end; simpl in *; subst done1; rewrite <- app_assoc; now eexists.
Qed.

Lemma ParseUPDArchive_trace nowCard nowContent zipPath done :
  exists ops, (ParseUPDArchive nowCard nowContent zipPath done).2 = done ++ ops.
Proof.
  pose proof (extractArchive_trace zipPath done) as Hextract.
  unfold ParseUPDArchive, parser.ParseUPDArchive.
  destruct (parser.extractArchive _ _ _ _ _) as [[extractDir | err] done1];
    destruct Hextract as [ops Hops]; simpl in Hops; subst done1.
  - exists (ops ++ [parser.RemoveAll extractDir]).
    destruct (parser.parseMetaXML _ _ _ _ _) as [metaInfo | err];
      [| now rewrite app_assoc].
    destruct (parser.parseCardXML _ _ _ _ _ _ _ _) as [cardInfo | err];
      [| now rewrite app_assoc].
    destruct (parser.parseUPDContent _ _ _ _ _ _ _); now rewrite app_assoc.
  - now exists ops.
Qed.

(** X29. Once the upload has been saved to a temporary file, every return of
    [ProcessUPDFile] is followed by the removal of that file and of the
    scratch directory beside it, as the last two operations: after a parsing
    error, after an upload error, after a success, and also when the API
    client panics. *)
Theorem temporary_files_are_removed (nowCard nowContent : Time)
    (fileContent filename name : string) (done : list parser.fs_op)
    (w : moysklad.World Server) :
  let ensure := parser.MkdirAll (config.TempDir cfg) in
  (config.MaxFileSize cfg <? Z.of_nat (String.length fileContent)) = false ->
  strings.HasSuffix (strings_ToLower filename) ".zip" = true ->
  os_error done ensure = None ->
  ioutil_TempFile (done ++ [ensure]) (config.TempDir cfg) "upd_*.zip" = Ok name ->
  os_error ((done ++ [ensure]) ++ [parser.OpenFile name])
    (parser.Copy name fileContent) = None ->
  name <> "" ->
  exists ops,
    (ProcessUPDFile nowCard nowContent fileContent filename (done, w)).2.1
    = done ++ [ensure; parser.OpenFile name; parser.Copy name fileContent] ++ ops
      ++ [parser.Remove name;
          parser.RemoveAll (filepath.Join (filepath.Dir name) "upd_extract")].
Proof.
  intros ensure Hsize Hsuffix Hensure Htemp Hwrite Hname.
  unfold ProcessUPDFile, processor.ProcessUPDFile, processor.process.
  rewrite Hsize, Hsuffix. simpl negb. cbv iota. fold ensure. rewrite Hensure.
  unfold processor.saveTempFile. rewrite Htemp, Hwrite.
  apply String.eqb_neq in Hname.
  match goal with
  | |- context [parser.ParseUPDArchive _ _ _ _ _ _ _ _ _ _ _ _ _ name ?trace] =>
      destruct (ParseUPDArchive_trace nowCard nowContent name trace) as [ops Hops];
      unfold ParseUPDArchive in Hops;
      destruct (parser.ParseUPDArchive zip_OpenReader os_error zip_Open_error
                  os_IsNotExist os_ReadFile readFileWithEncoding xml_Unmarshal_meta
                  xml_Unmarshal_card xml_Unmarshal time_Parse_RFC3339 time_Parse
                  nowCard nowContent name trace) as [[updDocument | err] done2]
  end; simpl in Hops; subst done2; exists ops.
  - destruct (processor.uploadToMoySkald _ _ _ _ _ _ _) as [[invoiceResult | err |] w1];
      rewrite Hname; simpl; unfold parser.CleanupTempFiles;
      now rewrite <- !app_assoc.
  - rewrite Hname. simpl. unfold parser.CleanupTempFiles. now rewrite <- !app_assoc.
Qed.

(** X30. When writing the upload to the temporary file fails, the file that
    was created for it is left behind: the failure is reported with the code
    TEMP_FILE_ERROR and no removal is attempted. *)
Theorem failed_write_leaves_the_temporary_file (nowCard nowContent : Time)
    (fileContent filename name err : string) (done : list parser.fs_op)
    (w : moysklad.World Server) :
  let ensure := parser.MkdirAll (config.TempDir cfg) in
  (config.MaxFileSize cfg <? Z.of_nat (String.length fileContent)) = false ->
  strings.HasSuffix (strings_ToLower filename) ".zip" = true ->
  os_error done ensure = None ->
  ioutil_TempFile (done ++ [ensure]) (config.TempDir cfg) "upd_*.zip" = Ok name ->
  os_error ((done ++ [ensure]) ++ [parser.OpenFile name])
    (parser.Copy name fileContent) = Some err ->
  ProcessUPDFile nowCard nowContent fileContent filename (done, w)
  = (Some (processor.failed ("❌ Failed to save temp file: " +:+ err) "TEMP_FILE_ERROR"),
     (done ++ [ensure; parser.OpenFile name; parser.Copy name fileContent], w)).
Proof.
  intros ensure Hsize Hsuffix Hensure Htemp Hwrite.
  unfold ProcessUPDFile, processor.ProcessUPDFile, processor.process.
  rewrite Hsize, Hsuffix. simpl negb. cbv iota. fold ensure. rewrite Hensure.
  unfold processor.saveTempFile. rewrite Htemp, Hwrite. simpl.
  now rewrite <- !app_assoc.
Qed.

End ProcessorProperties.

Lemma temporary_files_are_removed_witness :
  exists ops,
    (Demo.processFile Demo.goodArchive Demo.os_ok "PK" "upload.ZIP" ([], Demo.world0)).2.1
    = [] ++ [parser.MkdirAll "temp"; parser.OpenFile "temp/upd_1.zip";
             parser.Copy "temp/upd_1.zip" "PK"] ++ ops
      ++ [parser.Remove "temp/upd_1.zip"; parser.RemoveAll "temp/upd_extract"].
Proof.
  apply (temporary_files_are_removed Demo.cfg Demo.serve (fun _ => Ok Demo.goodArchive)
           Demo.os_ok Demo.zip_ok Demo.isNotExist Demo.readFile Demo.readFile
           Demo.unmarshalMeta Demo.unmarshalCard Demo.unmarshal Demo.parseRFC3339
           (fun _ => None) Demo.tempFile Demo.toLower Demo.time_Format Demo.time_Format
           (fun _ => "0.00") Demo.fmt_s 5 7 "PK" "upload.ZIP" "temp/upd_1.zip" []
           Demo.world0).
  - reflexivity.
  - vm_compute. reflexivity.
  - reflexivity.
  - reflexivity.
  - reflexivity.
  - discriminate.
Defined.

Lemma failed_write_leaves_the_temporary_file_witness :
  Demo.processFile Demo.goodArchive Demo.diskFull "PK" "upload.zip" ([], Demo.world0)
  = (Some (processor.failed "❌ Failed to save temp file: no space left on device"
             "TEMP_FILE_ERROR"),
     ([] ++ [parser.MkdirAll "temp"; parser.OpenFile "temp/upd_1.zip";
             parser.Copy "temp/upd_1.zip" "PK"], Demo.world0)).
Proof.
  apply (failed_write_leaves_the_temporary_file Demo.cfg Demo.serve
           (fun _ => Ok Demo.goodArchive) Demo.diskFull Demo.zip_ok Demo.isNotExist
           Demo.readFile Demo.readFile Demo.unmarshalMeta Demo.unmarshalCard
           Demo.unmarshal Demo.parseRFC3339 (fun _ => None) Demo.tempFile Demo.toLower
           Demo.time_Format Demo.time_Format (fun _ => "0.00") Demo.fmt_s 5 7 "PK"
           "upload.zip" "temp/upd_1.zip" "no space left on device" [] Demo.world0).
  - reflexivity.
  - vm_compute. reflexivity.
  - reflexivity.
  - reflexivity.
  - reflexivity.
Defined.
